(** * crypto_bot: a paper-trading ledger over SQLite and [decimal.Decimal]

    Shallow embedding of [crypto_bot.py]: the storage helpers, the price
    adapter [get_price], the trading handlers [cmd_buy] and [cmd_sell] and
    the handlers [cmd_start_help], [cmd_coins], [cmd_balance],
    [cmd_portfolio] and [cmd_price], followed by the properties of the
    ledger.

    - Amounts are [decimal.Decimal] values under Python's default context
      (28 significant digits, ROUND_HALF_EVEN, Emax = 999999,
      Emin = -999999, traps on InvalidOperation, DivisionByZero and
      Overflow).  They are modelled as sign / coefficient / exponent
      triples with the two infinities and the NaNs; every operation the
      bot uses is written out with its rounding and its exceptions.
    - The three SQLite tables are finite maps keyed by their primary keys
      ([users], [portfolio]) and a list in rowid order ([history]).  The
      connection is opened with [isolation_level=None], so every executed
      statement commits at once: each write is logged with the store it
      leaves behind.
    - The handlers are computations in a state-and-exception monad over
      the store and the log of commits and HTTP requests. *)

From Stdlib Require Import ZArith QArith Qround Qpower Qabs Lia Bool String Ascii List.
From stdpp Require Import gmap strings list fin_maps.

Open Scope Z_scope.

(** ** Exceptions and results *)

(** The exception classes that can occur in the modelled code.  All of
    them derive from [Exception]. *)
Inductive exn :=
| InvalidOperation   (* decimal.InvalidOperation *)
| DivisionByZero     (* decimal.DivisionByZero *)
| Overflow           (* decimal.Overflow *)
| ValueError
| IntegrityError     (* sqlite3.IntegrityError: a foreign key fails *)
| RequestException   (* requests: connection error, timeout *)
| HTTPError          (* raise_for_status on a 4xx / 5xx answer *)
| JSONDecodeError    (* resp.json() on a body that is not JSON *)
| AttributeError     (* data.get on a JSON value that is not an object *)
| ConversionError.   (* Decimal(price) on a value it does not accept *)

Inductive result (A : Type) :=
| Ok (a : A)
| Raise (e : exn).
Arguments Ok {A} a.
Arguments Raise {A} e.

Definition rbind {A B} (r : result A) (k : A -> result B) : result B :=
  match r with
  | Ok a => k a
  | Raise e => Raise e
  end.

(** ** decimal.Decimal under the default context *)

Module Dec.

(** [Finite s m e] is [(-1)^s * m * 10^e], Python's [_sign], [_int] and
    [_exp]; the sign of a zero is kept, as Python keeps it.  The
    diagnostic payload and the sign of a NaN are not tracked: nothing in
    the bot depends on them. *)
Inductive Decimal :=
| Finite (sign : bool) (coef : N) (exp : Z)
| Infinity (sign : bool)
| NaN (signaling : bool).

Definition prec : Z := 28.
Definition Emax : Z := 999999.
Definition Emin : Z := -999999.
Definition Etiny : Z := Emin - prec + 1.
Definition Etop : Z := Emax - prec + 1.

Inductive rounding := ROUND_DOWN | ROUND_HALF_EVEN.

(** [len(self._int)]: the number of decimal digits of the coefficient,
    1 for the coefficient 0. *)
Fixpoint ndigits_fuel (fuel : nat) (m : Z) : Z :=
  match fuel with
  | O => 1
  | S f => if m <? 10 then 1 else 1 + ndigits_fuel f (m / 10)
  end.

Definition ndigits (m : Z) : Z := ndigits_fuel (Z.to_nat (Z.log2 m)) m.

(** Dropping the [k] low digits of [m]: [_round_down] never increments,
    [_round_half_even] increments when the dropped part is more than half
    a unit, or exactly half and the kept part is odd. *)
Definition round_down (m k : Z) : Z := m / 10 ^ k.

Definition round_half_even (m k : Z) : Z :=
  let q := m / 10 ^ k in
  let r := m mod 10 ^ k in
  if (10 ^ k <? 2 * r) || ((2 * r =? 10 ^ k) && Z.odd q) then q + 1 else q.

(** [Decimal._fix]: round a finite result to the context.  A zero has its
    exponent clamped into [Etiny, Emax]; a coefficient of more than
    [prec] digits, or an exponent below [Etiny], is rounded half-even;
    a result above the exponent range raises Overflow. *)
Definition fix_ (s : bool) (m e : Z) : result Decimal :=
  if m =? 0 then Ok (Finite s 0 (Z.min (Z.max e Etiny) Emax))
  else
    let exp_min := ndigits m + e - prec in
    if Etop <? exp_min then Raise Overflow
    else
      let exp_min := Z.max exp_min Etiny in
      if e <? exp_min then
        let coeff := round_half_even m (exp_min - e) in
        let '(coeff, exp_min) :=
          if prec <? ndigits coeff then (coeff / 10, exp_min + 1)
          else (coeff, exp_min) in
        if Etop <? exp_min then Raise Overflow
        else Ok (Finite s (Z.to_N coeff) exp_min)
      else Ok (Finite s (Z.to_N m) e).

(** [_check_nans]: a signaling NaN raises, a quiet NaN propagates. *)
Definition is_snan (x : Decimal) : bool :=
  match x with NaN true => true | _ => false end.
Definition is_qnan (x : Decimal) : bool :=
  match x with NaN false => true | _ => false end.

Definition check_nans (x y : Decimal) : option (result Decimal) :=
  if is_snan x || is_snan y then Some (Raise InvalidOperation)
  else if is_qnan x || is_qnan y then Some (Ok (NaN false))
  else None.

(** The signed coefficient. *)
Definition sval (s : bool) (m : N) : Z :=
  if s then - Z.of_N m else Z.of_N m.

Definition copy_negate (x : Decimal) : Decimal :=
  match x with
  | Finite s m e => Finite (negb s) m e
  | Infinity s => Infinity (negb s)
  | NaN b => NaN b
  end.

(** [Decimal.__add__]: the exact sum at the smaller exponent, then
    [_fix].  A zero sum is negative only when both operands are negative
    zeros (the rounding mode is not ROUND_FLOOR). *)
Definition add (x y : Decimal) : result Decimal :=
  match check_nans x y with
  | Some r => r
  | None =>
    match x, y with
    | Infinity s1, Infinity s2 =>
        if Bool.eqb s1 s2 then Ok (Infinity s1) else Raise InvalidOperation
    | Infinity s1, _ => Ok (Infinity s1)
    | _, Infinity s2 => Ok (Infinity s2)
    | Finite s1 m1 e1, Finite s2 m2 e2 =>
        let e := Z.min e1 e2 in
        let z := sval s1 m1 * 10 ^ (e1 - e) + sval s2 m2 * 10 ^ (e2 - e) in
        let sign :=
          if z =? 0 then (m1 =? 0)%N && (m2 =? 0)%N && s1 && s2
          else z <? 0 in
        fix_ sign (Z.abs z) e
    | _, _ => Ok (NaN false)
    end
  end.

(** [Decimal.__sub__]: [self + other.copy_negate()]. *)
Definition sub (x y : Decimal) : result Decimal :=
  match check_nans x y with
  | Some r => r
  | None => add x (copy_negate y)
  end.

(** [Decimal.__mul__]. *)
Definition mul (x y : Decimal) : result Decimal :=
  match check_nans x y with
  | Some r => r
  | None =>
    match x, y with
    | Infinity s1, Infinity s2 => Ok (Infinity (xorb s1 s2))
    | Infinity s1, Finite s2 m2 _ =>
        if (m2 =? 0)%N then Raise InvalidOperation
        else Ok (Infinity (xorb s1 s2))
    | Finite s1 m1 _, Infinity s2 =>
        if (m1 =? 0)%N then Raise InvalidOperation
        else Ok (Infinity (xorb s1 s2))
    | Finite s1 m1 e1, Finite s2 m2 e2 =>
        fix_ (xorb s1 s2) (Z.of_N m1 * Z.of_N m2) (e1 + e2)
    | _, _ => Ok (NaN false)
    end
  end.

(** The loop of [__truediv__] on an exact quotient: strip trailing zeros
    while the exponent is below the ideal one. *)
Fixpoint strip_zeros (fuel : nat) (coeff exp ideal_exp : Z) : Z * Z :=
  match fuel with
  | O => (coeff, exp)
  | S f =>
      if (exp <? ideal_exp) && (coeff mod 10 =? 0)
      then strip_zeros f (coeff / 10) (exp + 1) ideal_exp
      else (coeff, exp)
  end.

(** [Decimal.__truediv__]: [prec + 1] digits of quotient, a sticky
    increment when the division is inexact, then [_fix]. *)
Definition div (x y : Decimal) : result Decimal :=
  match check_nans x y with
  | Some r => r
  | None =>
    match x, y with
    | Infinity _, Infinity _ => Raise InvalidOperation
    | Infinity s1, Finite s2 _ _ => Ok (Infinity (xorb s1 s2))
    | Finite s1 _ _, Infinity s2 => Ok (Finite (xorb s1 s2) 0 Etiny)
    | Finite s1 m1 e1, Finite s2 m2 e2 =>
        let sign := xorb s1 s2 in
        let m1 := Z.of_N m1 in
        let m2 := Z.of_N m2 in
        if m2 =? 0 then
          if m1 =? 0 then Raise InvalidOperation else Raise DivisionByZero
        else if m1 =? 0 then fix_ sign 0 (e1 - e2)
        else
          let shift := ndigits m2 - ndigits m1 + prec + 1 in
          let exp := e1 - e2 - shift in
          let '(coeff, remainder) :=
            if 0 <=? shift then Z.div_eucl (m1 * 10 ^ shift) m2
            else Z.div_eucl m1 (m2 * 10 ^ (- shift)) in
          let '(coeff, exp) :=
            if remainder =? 0
            then strip_zeros (Z.to_nat (e1 - e2 - exp)) coeff exp (e1 - e2)
            else (if coeff mod 5 =? 0 then coeff + 1 else coeff, exp) in
          fix_ sign coeff exp
    | _, _ => Ok (NaN false)
    end
  end.

(** [Decimal._rescale] on a finite value: the coefficient at exponent
    [exp]. *)
Definition rescale (rnd : rounding) (m e exp : Z) : Z :=
  if m =? 0 then 0
  else if exp <=? e then m * 10 ^ (e - exp)
  else
    match rnd with
    | ROUND_DOWN => round_down m (exp - e)
    | ROUND_HALF_EVEN => round_half_even m (exp - e)
    end.

(** [Decimal.quantize] to a finite exponent [exp] (the bot passes the
    constants 0.0001 and 0.01). *)
Definition quantize (x : Decimal) (exp : Z) (rnd : rounding)
  : result Decimal :=
  match x with
  | NaN true => Raise InvalidOperation
  | NaN false => Ok (NaN false)
  | Infinity _ => Raise InvalidOperation
  | Finite s m e =>
      let m := Z.of_N m in
      if negb ((Etiny <=? exp) && (exp <=? Emax)) then Raise InvalidOperation
      else if m =? 0 then fix_ s 0 exp
      else
        let adjusted := ndigits m + e - 1 in
        if Emax <? adjusted then Raise InvalidOperation
        else if prec <? adjusted - exp + 1 then Raise InvalidOperation
        else
          let c := rescale rnd m e exp in
          if Emax <? ndigits c + exp - 1 then Raise InvalidOperation
          else if prec <? ndigits c then Raise InvalidOperation
          else fix_ s c exp
  end.

(** [Decimal._cmp] after [_compare_check_nans]: an ordering comparison
    with any NaN raises InvalidOperation. *)
Definition cmp (x y : Decimal) : result comparison :=
  match x, y with
  | NaN _, _ | _, NaN _ => Raise InvalidOperation
  | Infinity s1, Infinity s2 =>
      Ok (if Bool.eqb s1 s2 then Eq else if s1 then Lt else Gt)
  | Infinity s1, Finite _ _ _ => Ok (if s1 then Lt else Gt)
  | Finite _ _ _, Infinity s2 => Ok (if s2 then Gt else Lt)
  | Finite s1 m1 e1, Finite s2 m2 e2 =>
      let e := Z.min e1 e2 in
      Ok (sval s1 m1 * 10 ^ (e1 - e) ?= sval s2 m2 * 10 ^ (e2 - e))
  end.

(** [x <= y] and [x > y]. *)
Definition le (x y : Decimal) : result bool :=
  rbind (cmp x y) (fun c => Ok (match c with Gt => false | _ => true end)).

Definition gt (x y : Decimal) : result bool :=
  rbind (cmp x y) (fun c => Ok (match c with Gt => true | _ => false end)).

Definition zero : Decimal := Finite false 0 0.   (* Decimal("0"), and the int 0 *)

End Dec.
Export Dec.

(** ** Text primitives of the front end

    [str.lower], [str.split] and the string constructor of [Decimal] are
    library functions over Unicode text.  The handlers are modelled over
    any implementation of them; [ascii_text] below is the ASCII instance
    used to run the handlers on concrete messages. *)

Class PyText := {
  str_lower : string -> string;          (* s.lower() *)
  str_split : string -> list string;     (* s.split() *)
  Decimal_of_str : string -> option Decimal   (* Decimal(s); None: raises *)
}.

(** A value of a JSON object handed to [Decimal(...)]: a string goes
    through the string constructor; any other value (number, boolean,
    array, object) is abstracted by what the constructor makes of it. *)
Inductive pyobj :=
| PyStr (s : string)
| PyOther (as_decimal : option Decimal).

Definition Decimal_of_obj `{PyText} (v : pyobj) : result Decimal :=
  match v with
  | PyStr s =>
      match Decimal_of_str s with
      | Some d => Ok d
      | None => Raise InvalidOperation
      end
  | PyOther (Some d) => Ok d
  | PyOther None => Raise ConversionError
  end.

(** *** The ASCII instance *)

Definition is_space (c : ascii) : bool :=
  let n := nat_of_ascii c in
  ((9 <=? n) && (n <=? 13) || (28 <=? n) && (n <=? 32))%nat.

Definition lower_ascii (c : ascii) : ascii :=
  let n := nat_of_ascii c in
  if ((65 <=? n) && (n <=? 90))%nat then ascii_of_nat (n + 32) else c.

Fixpoint ascii_lower (s : string) : string :=
  match s with
  | EmptyString => EmptyString
  | String c r => String (lower_ascii c) (ascii_lower r)
  end.

(** [split_go cur s]: [cur] is the current word, reversed. *)
Fixpoint split_go (cur : list ascii) (s : string) : list string :=
  let flush (rest : list string) :=
    match cur with
    | [] => rest
    | _ => string_of_list_ascii (rev cur) :: rest
    end in
  match s with
  | EmptyString => flush []
  | String c r =>
      if is_space c then flush (split_go [] r) else split_go (c :: cur) r
  end.

Definition ascii_split (s : string) : list string := split_go [] s.

Fixpoint lstrip (s : string) : string :=
  match s with
  | EmptyString => EmptyString
  | String c r => if is_space c then lstrip r else s
  end.

Definition reverse_string (s : string) : string :=
  string_of_list_ascii (rev (list_ascii_of_string s)).

Definition ascii_strip (s : string) : string :=
  reverse_string (lstrip (reverse_string (lstrip s))).

Definition digit_of (c : ascii) : option Z :=
  let n := nat_of_ascii c in
  if ((48 <=? n) && (n <=? 57))%nat then Some (Z.of_nat (n - 48)) else None.

(** Reads a maximal run of digits: the value, the number of digits and
    the rest. *)
Fixpoint read_digits (acc : Z) (count : Z) (s : string) : Z * Z * string :=
  match s with
  | EmptyString => (acc, count, s)
  | String c r =>
      match digit_of c with
      | Some d => read_digits (10 * acc + d) (count + 1) r
      | None => (acc, count, s)
      end
  end.

Definition read_sign (s : string) : bool * string :=
  match s with
  | String "-" r => (true, r)
  | String "+" r => (false, r)
  | _ => (false, s)
  end.

(** The numeric strings [sign] digits [. digits] [e [sign] digits],
    [inf], [infinity], [nan] and [snan] (lower case: the handlers lower
    their arguments); whatever else is refused. *)
Definition ascii_decimal (s : string) : option Decimal :=
  let '(sign, s) := read_sign s in
  if String.eqb s "inf" || String.eqb s "infinity" then Some (Infinity sign)
  else if String.eqb s "nan" then Some (NaN false)
  else if String.eqb s "snan" then Some (NaN true)
  else
    let '(ip, ni, s) := read_digits 0 0 s in
    let '(fp, nf, s) :=
      match s with
      | String "." r => read_digits ip 0 r
      | _ => (ip, 0, s)
      end in
    if ni + nf =? 0 then None
    else
      match s with
      | EmptyString => Some (Finite sign (Z.to_N fp) (- nf))
      | String "e" r =>
          let '(esign, r) := read_sign r in
          let '(ev, ne, r) := read_digits 0 0 r in
          if (ne =? 0) || negb (String.eqb r "") then None
          else Some (Finite sign (Z.to_N fp) ((if esign then - ev else ev) - nf))
      | _ => None
      end.

Definition ascii_text : PyText :=
  {| str_lower := ascii_lower;
     str_split := ascii_split;
     Decimal_of_str := ascii_decimal |}.

(** ** Constants *)

Definition INITIAL_USD_BALANCE : Decimal := Finite false 1000000 (-2).

(** The dict of supported coins, in insertion order. *)
Definition AVAILABLE_COINS : list (string * string) :=
  [ ("btc", "BTCUSDT"); ("eth", "ETHUSDT"); ("bnb", "BNBUSDT");
    ("ada", "ADAUSDT"); ("usdt", "USDTUSDT") ]%string.

Fixpoint dict_get (d : list (string * string)) (k : string) : option string :=
  match d with
  | [] => None
  | (k', v) :: r => if String.eqb k' k then Some v else dict_get r k
  end.

Definition dict_keys (d : list (string * string)) : list string :=
  map fst d.

(** ** The SQLite store *)

(** One row of [history].  The TEXT columns that hold [str(Decimal)] are
    kept as the [Decimal] they are read back to; the timestamp is
    CURRENT_TIMESTAMP in seconds. *)
Record history_row := {
  h_id : Z;
  h_user : Z;
  h_action : string;
  h_coin : string;
  h_amount : Decimal;
  h_price : Decimal;
  h_timestamp : Z
}.

(** [users] is keyed by [user_id], [portfolio] by [(user_id, coin)];
    [history] is in rowid order and [history_seq] is the AUTOINCREMENT
    counter. *)
Record db := {
  users : gmap Z Decimal;
  portfolio : gmap (Z * string) Decimal;
  history : list history_row;
  history_seq : Z
}.

(** The tables [init_db] creates in a new file. *)
Definition empty_db : db :=
  {| users := ∅; portfolio := ∅; history := []; history_seq := 0 |}.

(** What the handlers leave behind: every executed write statement with
    the store after it (autocommit), and every HTTP request sent. *)
Inductive event :=
| EvCommit (after : db)
| EvHttpGet (symbol : string).

Record world := { store : db; log : list event }.

(** ** The monad of the handlers *)

Definition M (A : Type) : Type := world -> result A * world.

Definition ret {A} (a : A) : M A := fun w => (Ok a, w).

Definition bind {A B} (m : M A) (k : A -> M B) : M B :=
  fun w =>
    match m w with
    | (Ok a, w') => k a w'
    | (Raise e, w') => (Raise e, w')
    end.

Definition lift {A} (r : result A) : M A := fun w => (r, w).

Definition read {A} (f : db -> A) : M A := fun w => (Ok (f (store w)), w).

Definition commit (f : db -> db) : M unit :=
  fun w =>
    let s := f (store w) in
    (Ok tt, {| store := s; log := log w ++ [EvCommit s] |}).

Definition emit (e : event) : M unit :=
  fun w => (Ok tt, {| store := store w; log := log w ++ [e] |}).

Declare Scope bot_scope.
Delimit Scope bot_scope with bot.
Notation "'let*' x ':=' m 'in' k" := (bind m (fun x => k))
  (at level 10, x name, m at level 100, k at level 200) : bot_scope.
Open Scope bot_scope.

(** ** DB helpers *)

(** The environment of one handler run: what the price endpoint answers
    for a symbol, and the clock. *)
Inductive http_result :=
| RequestFails                       (* requests.get raises *)
| BadStatus                          (* raise_for_status raises *)
| NotJson                            (* resp.json() raises *)
| NotAnObject                        (* data has no [get] *)
| JsonObject (price : option pyobj). (* data.get("price") *)

Record env := {
  http : string -> http_result;
  now : Z
}.

Definition set_users (s : db) (u : gmap Z Decimal) : db :=
  {| users := u; portfolio := portfolio s;
     history := history s; history_seq := history_seq s |}.

Definition set_portfolio (s : db) (p : gmap (Z * string) Decimal) : db :=
  {| users := users s; portfolio := p;
     history := history s; history_seq := history_seq s |}.

(** The write statements, as functions on the store. *)

(** INSERT INTO users (user_id, usd_balance) VALUES (?, ?) *)
Definition sql_insert_user (user_id : Z) (balance : Decimal) (s : db) : db :=
  set_users s (<[user_id := balance]> (users s)).

(** UPDATE users SET usd_balance = ? WHERE user_id = ?: no row, no
    change. *)
Definition sql_update_balance (user_id : Z) (balance : Decimal) (s : db) : db :=
  set_users s (alter (fun _ => balance) user_id (users s)).

(** DELETE FROM portfolio WHERE user_id = ? AND coin = ? *)
Definition sql_delete_holding (user_id : Z) (coin : string) (s : db) : db :=
  set_portfolio s (delete (user_id, coin) (portfolio s)).

(** INSERT INTO portfolio ... ON CONFLICT(user_id, coin) DO UPDATE SET
    amount = excluded.amount *)
Definition sql_upsert_holding (user_id : Z) (coin : string) (amount : Decimal)
    (s : db) : db :=
  set_portfolio s (<[(user_id, coin) := amount]> (portfolio s)).

(** INSERT INTO history(user_id, action, coin, amount, price): the id is
    the next value of the counter, the timestamp the current time. *)
Definition sql_insert_history (time : Z) (user_id : Z) (action coin : string)
    (amount price : Decimal) (s : db) : db :=
  {| users := users s; portfolio := portfolio s;
     history := history s ++
       [ {| h_id := history_seq s + 1; h_user := user_id;
            h_action := action; h_coin := coin;
            h_amount := amount; h_price := price;
            h_timestamp := time |} ];
     history_seq := history_seq s + 1 |}.

Definition ensure_user (user_id : Z) : M unit :=
  let* row := read (fun s => users s !! user_id) in
  match row with
  | None => commit (sql_insert_user user_id INITIAL_USD_BALANCE)
  | Some _ => ret tt
  end.

Definition get_usd_balance (user_id : Z) : M Decimal :=
  let* row := read (fun s => users s !! user_id) in
  ret (match row with Some b => b | None => zero end).

Definition update_usd_balance (user_id : Z) (new_balance : Decimal) : M unit :=
  commit (sql_update_balance user_id new_balance).

(** SELECT coin, amount FROM portfolio WHERE user_id = ?, collected into
    a dict. *)
Definition select_portfolio (user_id : Z) (s : db) : gmap string Decimal :=
  map_fold
    (fun (k : Z * string) (a : Decimal) (acc : gmap string Decimal) =>
       if decide (k.1 = user_id) then <[k.2 := a]> acc else acc)
    ∅ (portfolio s).

Definition get_portfolio (user_id : Z) : M (gmap string Decimal) :=
  read (select_portfolio user_id).

(** The two inserts below are refused by the foreign key on [user_id]
    when the user has no row. *)
Definition update_portfolio (user_id : Z) (coin : string) (amount : Decimal)
  : M unit :=
  let* nonpositive := lift (le amount zero) in
  if nonpositive : bool then commit (sql_delete_holding user_id coin)
  else
    let* owner := read (fun s => users s !! user_id) in
    match owner with
    | None => lift (Raise IntegrityError)
    | Some _ => commit (sql_upsert_holding user_id coin amount)
    end.

Definition add_history (E : env) (user_id : Z) (action coin : string)
    (amount price : Decimal) : M unit :=
  let* owner := read (fun s => users s !! user_id) in
  match owner with
  | None => lift (Raise IntegrityError)
  | Some _ =>
      commit (sql_insert_history (now E) user_id action coin amount price)
  end.

(** ORDER BY timestamp DESC over the rows in rowid order: SQLite's sorter
    keeps rows with equal keys in scan order. *)
Fixpoint insert_desc (r : history_row) (l : list history_row)
  : list history_row :=
  match l with
  | [] => [r]
  | x :: l' =>
      if h_timestamp x <? h_timestamp r then r :: x :: l'
      else x :: insert_desc r l'
  end.

Definition order_by_timestamp_desc (rows : list history_row)
  : list history_row :=
  fold_left (fun acc r => insert_desc r acc) rows [].

(** LIMIT n: a negative n is no limit. *)
Definition sql_limit {A} (n : Z) (l : list A) : list A :=
  if n <? 0 then l else firstn (Z.to_nat n) l.

Definition select_history (user_id limit : Z) (s : db) : list history_row :=
  sql_limit limit
    (order_by_timestamp_desc
       (List.filter (fun r => h_user r =? user_id) (history s))).

Definition get_history (user_id : Z) (limit : Z) : M (list history_row) :=
  read (select_history user_id limit).

Definition default_limit : Z := 10.

(** ** The price adapter *)

(** The body of the [try]: [Ok (Some d)] is the [return] inside it,
    [Ok None] falls through, [Raise] is an exception for the [except]. *)
Definition get_price_try `{PyText} (answer : http_result)
  : result (option Decimal) :=
  match answer with
  | RequestFails => Raise RequestException
  | BadStatus => Raise HTTPError
  | NotJson => Raise JSONDecodeError
  | NotAnObject => Raise AttributeError
  | JsonObject None => Ok None
  | JsonObject (Some price) =>
      rbind (Decimal_of_obj price) (fun d => Ok (Some d))
  end.

Definition get_price `{PyText} (E : env) (symbol : string)
  : M (option Decimal) :=
  if String.eqb symbol "USDTUSDT" then ret (Some (Finite false 1 0))
  else
    let* _ := emit (EvHttpGet symbol) in
    match get_price_try (http E symbol) with
    | Ok r => ret r
    | Raise _ => ret None        (* except Exception: logged *)
    end.

(** ** The handlers *)

(** An incoming command: [message.from_user.id] and
    [message.get_args()]. *)
Record message := {
  from_user_id : Z;
  get_args : string
}.

(** What a handler answers with [message.reply]; the texts are rendered
    from these values. *)
Inductive reply :=
| Help
| UsageBuy
| UsageSell
| UnknownCoin
| BadUsdAmount
| BadCoinAmount
| NotEnoughUsd (balance : Decimal)
| NotEnoughCoin (coin : string) (have : Decimal)
| PriceFailed
| Bought (coin_amount : Decimal) (coin : string) (usd_amount : Decimal)
         (new_balance : Decimal)
| Sold (coin_amount : Decimal) (coin : string) (usd_gain : Decimal)
       (new_balance : Decimal)
| BalanceIs (balance : Decimal).

(** The [try] block of both handlers: [Decimal(text)], then a
    non-positive amount raises ValueError. *)
Definition positive_amount `{PyText} (text : string) : result Decimal :=
  match Decimal_of_str text with
  | None => Raise InvalidOperation
  | Some amount =>
      rbind (le amount zero) (fun nonpositive =>
        if nonpositive : bool then Raise ValueError else Ok amount)
  end.

Definition USD_STEP : Z := -2.    (* Decimal("0.01") *)
Definition COIN_STEP : Z := -4.   (* Decimal("0.0001") *)

Definition cmd_start_help (message : message) : M reply :=
  let* _ := ensure_user (from_user_id message) in
  ret Help.

Definition cmd_balance (message : message) : M reply :=
  let user_id := from_user_id message in
  let* _ := ensure_user user_id in
  let* balance := get_usd_balance user_id in
  let* shown := lift (quantize balance USD_STEP ROUND_HALF_EVEN) in
  ret (BalanceIs shown).

Definition cmd_buy `{PyText} (E : env) (message : message) : M reply :=
  let parts := str_split (str_lower (get_args message)) in
  match parts with
  | [coin; usd_str] =>
    match dict_get AVAILABLE_COINS coin with
    | None => ret UnknownCoin
    | Some symbol =>
      match positive_amount usd_str with
      | Raise _ => ret BadUsdAmount          (* bare except *)
      | Ok usd_amount =>
        let user_id := from_user_id message in
        let* _ := ensure_user user_id in
        let* balance := get_usd_balance user_id in
        let* short := lift (gt usd_amount balance) in
        if short : bool then
          let* shown := lift (quantize balance USD_STEP ROUND_HALF_EVEN) in
          ret (NotEnoughUsd shown)
        else
          let* price := get_price E symbol in
          match price with
          | None => ret PriceFailed
          | Some price =>
            let* quotient := lift (div usd_amount price) in
            let* coin_amount := lift (quantize quotient COIN_STEP ROUND_DOWN) in
            let* new_balance := lift (sub balance usd_amount) in
            let* _ := update_usd_balance user_id new_balance in
            let* current_portfolio := get_portfolio user_id in
            let* total :=
              lift (add (default zero (current_portfolio !! coin)) coin_amount) in
            let* _ := update_portfolio user_id coin total in
            let* _ := add_history E user_id "buy" coin coin_amount price in
            let* after := get_usd_balance user_id in
            let* shown := lift (quantize after USD_STEP ROUND_HALF_EVEN) in
            ret (Bought coin_amount coin usd_amount shown)
          end
      end
    end
  | _ => ret UsageBuy
  end.

Definition cmd_sell `{PyText} (E : env) (message : message) : M reply :=
  let parts := str_split (str_lower (get_args message)) in
  match parts with
  | [coin; coin_str] =>
    match dict_get AVAILABLE_COINS coin with
    | None => ret UnknownCoin
    | Some symbol =>
      match positive_amount coin_str with
      | Raise _ => ret BadCoinAmount         (* bare except *)
      | Ok coin_amount =>
        let user_id := from_user_id message in
        let* _ := ensure_user user_id in
        let* portfolio := get_portfolio user_id in
        let have := default zero (portfolio !! coin) in
        let* short := lift (gt coin_amount have) in
        if short : bool then ret (NotEnoughCoin coin have)
        else
          let* price := get_price E symbol in
          match price with
          | None => ret PriceFailed
          | Some price =>
            let* product := lift (mul coin_amount price) in
            let* usd_gain := lift (quantize product USD_STEP ROUND_DOWN) in
            let* rest := lift (sub have coin_amount) in
            let* _ := update_portfolio user_id coin rest in
            let* balance := get_usd_balance user_id in
            let* new_balance := lift (add balance usd_gain) in
            let* _ := update_usd_balance user_id new_balance in
            let* _ := add_history E user_id "sell" coin coin_amount price in
            let* after := get_usd_balance user_id in
            let* shown := lift (quantize after USD_STEP ROUND_HALF_EVEN) in
            ret (Sold coin_amount coin usd_gain shown)
          end
      end
    end
  | _ => ret UsageSell
  end.

(** ** The informational handlers *)

(** [str.strip], which only [cmd_price] uses. *)
Class PyStrip := {
  str_strip : string -> string           (* s.strip() *)
}.

#[export] Instance ascii_strip_text : PyStrip :=
  {| str_strip := ascii_strip |}.

(** One line of the /portfolio answer: the coin, its amount at 4 places
    and its value in USD. *)
Record holding_line := {
  l_coin : string;
  l_amount : Decimal;
  l_value : Decimal
}.

(** What [cmd_coins], [cmd_price] and [cmd_portfolio] answer. *)
Inductive notice :=
| Coins (names : list string)
| UsagePrice
| UnknownCoinOf (names : list string)
| PriceFailedFor (coin : string)
| PriceIs (coin : string) (price : Decimal)
| PortfolioEmpty
| PortfolioIs (lines : list holding_line) (total : Decimal).

Definition cmd_coins : M notice :=
  ret (Coins (dict_keys AVAILABLE_COINS)).

Definition cmd_price `{PyText} `{PyStrip} (E : env) (message : message)
  : M notice :=
  let arg := str_lower (str_strip (get_args message)) in
  if String.eqb arg "" then ret UsagePrice          (* not arg *)
  else
    match dict_get AVAILABLE_COINS arg with
    | None => ret (UnknownCoinOf (dict_keys AVAILABLE_COINS))
    | Some symbol =>
        let* price := get_price E symbol in
        match price with
        | None => ret (PriceFailedFor arg)
        | Some price =>
            let* shown := lift (quantize price USD_STEP ROUND_HALF_EVEN) in
            ret (PriceIs arg shown)
        end
    end.

(** [Decimal.__bool__]: false for a zero only. *)
Definition truthy (d : Decimal) : bool :=
  match d with
  | Finite _ m _ => negb (m =? 0)%N
  | _ => true
  end.

(** [get_price(pair) if pair else None] for [pair = AVAILABLE_COINS.get(coin)]. *)
Definition price_of_coin `{PyText} (E : env) (coin : string)
  : M (option Decimal) :=
  match dict_get AVAILABLE_COINS coin with
  | None => ret None
  | Some symbol =>
      if String.eqb symbol "" then ret None else get_price E symbol
  end.

(** The body of the loop of [cmd_portfolio] over [portfolio.items()],
    with the running [total] and the [lines] collected so far. *)
Fixpoint portfolio_loop `{PyText} (E : env) (items : list (string * Decimal))
    (total : Decimal) (lines : list holding_line)
  : M (Decimal * list holding_line) :=
  match items with
  | [] => ret (total, lines)
  | (coin, amt) :: rest =>
      let* price := price_of_coin E coin in
      let* value :=
        match price with
        | None => ret zero
        | Some price =>
            if truthy price then
              let* product := lift (mul amt price) in
              lift (quantize product USD_STEP ROUND_HALF_EVEN)
            else ret zero
        end in
      let* total := lift (add total value) in
      let* shown := lift (quantize amt COIN_STEP ROUND_HALF_EVEN) in
      portfolio_loop E rest total
        (lines ++ [{| l_coin := coin; l_amount := shown; l_value := value |}])
  end.

(** The SELECT of [get_portfolio] names no order, and the dict keeps the
    order of the rows: [scan] is the order in which SQLite returns the
    rows of a portfolio. *)
Definition cmd_portfolio `{PyText} (E : env)
    (scan : gmap string Decimal -> list (string * Decimal))
    (message : message) : M notice :=
  let user_id := from_user_id message in
  let* _ := ensure_user user_id in
  let* portfolio := get_portfolio user_id in
  if decide (portfolio = ∅) then ret PortfolioEmpty    (* not portfolio *)
  else
    let* tl := portfolio_loop E (scan portfolio) zero [] in
    let* shown := lift (quantize tl.1 USD_STEP ROUND_HALF_EVEN) in
    ret (PortfolioIs tl.2 shown).

(** Running a handler on a store: the outcome, the store it leaves and
    the events it produced. *)
Definition fresh_world (s : db) : world := {| store := s; log := [] |}.

Definition run {A} (m : M A) (s : db) : result A * db * list event :=
  let '(r, w) := m (fresh_world s) in (r, store w, log w).

Definition outcome {A} (m : M A) (s : db) : result A := (run m s).1.1.
Definition final {A} (m : M A) (s : db) : db := (run m s).1.2.
Definition events {A} (m : M A) (s : db) : list event := (run m s).2.

(** The stores an outside reader of the database file can see during a
    run: the one before it and the one after each commit. *)
Fixpoint commits (l : list event) : list db :=
  match l with
  | [] => []
  | EvCommit s :: r => s :: commits r
  | EvHttpGet _ :: r => commits r
  end.

Fixpoint requests (l : list event) : list string :=
  match l with
  | [] => []
  | EvCommit _ :: r => requests r
  | EvHttpGet sym :: r => sym :: requests r
  end.

(** The price [get_price] returns, which does not depend on the store. *)
Definition price_of `{PyText} (E : env) (symbol : string) : option Decimal :=
  if String.eqb symbol "USDTUSDT" then Some (Finite false 1 0)
  else
    match get_price_try (http E symbol) with
    | Ok r => r
    | Raise _ => None
    end.

(** ** Sequences of trades and concurrent handlers *)

Inductive request :=
| Buy (E : env) (msg : message)
| Sell (E : env) (msg : message).

Definition handle `{PyText} (r : request) : M reply :=
  match r with
  | Buy E msg => cmd_buy E msg
  | Sell E msg => cmd_sell E msg
  end.

(** Handlers run one after the other; an exception ends the handler and
    leaves the store as it is at that point. *)
Fixpoint run_all `{PyText} (rs : list request) (w : world) : world :=
  match rs with
  | [] => w
  | r :: rest => run_all rest (handle r w).2
  end.

(** aiogram runs the handlers as coroutines of one event loop, and a
    coroutine is suspended only at an [await].  The only [await] of a
    trading handler is its [await message.reply(...)], which comes after
    all its reads and writes ([requests.get] and sqlite3 block the loop).
    A handler is therefore two atomic segments: its body, and the
    completion of its reply. *)
Inductive task :=
| Pending (body : M reply)
| Replying (answer : result reply)
| Finished (answer : result reply).

Definition step_task (t : task) (w : world) : task * world :=
  match t with
  | Pending body => let '(r, w') := body w in (Replying r, w')
  | Replying r => (Finished r, w)
  | Finished r => (Finished r, w)
  end.

(** A schedule names, at each step, the task the event loop resumes. *)
Fixpoint run_schedule (sched : list nat) (tasks : list task) (w : world)
  : list task * world :=
  match sched with
  | [] => (tasks, w)
  | i :: rest =>
      match tasks !! i with
      | None => run_schedule rest tasks w
      | Some t =>
          let '(t', w') := step_task t w in
          run_schedule rest (<[i := t']> tasks) w'
      end
  end.

Definition answer_of (t : task) : option (result reply) :=
  match t with
  | Pending _ => None
  | Replying r => None
  | Finished r => Some r
  end.

Definition is_sold (r : result reply) : bool :=
  match r with Ok (Sold _ _ _ _) => true | _ => false end.

Definition is_not_enough_coin (r : result reply) : bool :=
  match r with Ok (NotEnoughCoin _ _) => true | _ => false end.

(** ** Values and invariants *)

(** The rational a finite decimal denotes (0 for the special values). *)
Definition DtoQ (d : Decimal) : Q :=
  match d with
  | Finite s m e => inject_Z (sval s m) * Qpower (inject_Z 10) e
  | _ => 0%Q
  end.

Definition is_finite (d : Decimal) : bool :=
  match d with Finite _ _ _ => true | _ => false end.

(** A finite decimal above zero, and one not below zero. *)
Definition is_positive (d : Decimal) : bool :=
  match d with
  | Finite false m _ => (0 <? m)%N
  | _ => false
  end.

Definition is_nonneg (d : Decimal) : bool :=
  match d with
  | Finite s m _ => negb s || (m =? 0)%N
  | _ => false
  end.

(** The exact sum of two finite decimals at the smaller exponent takes at
    most [prec] digits and needs no exponent below [Etiny]: [add] then
    rounds nothing away. *)
Definition exact_sum (x y : Decimal) : bool :=
  match x, y with
  | Finite s1 m1 e1, Finite s2 m2 e2 =>
      let e := Z.min e1 e2 in
      (ndigits (Z.abs (sval s1 m1 * 10 ^ (e1 - e) + sval s2 m2 * 10 ^ (e2 - e)))
         <=? prec) && (Etiny <=? e)
  | _, _ => false
  end.

(** The product of two finite decimals takes at most [prec] digits. *)
Definition exact_product (x y : Decimal) : bool :=
  match x, y with
  | Finite _ m1 e1, Finite _ m2 e2 =>
      (ndigits (Z.of_N m1 * Z.of_N m2) <=? prec) && (Etiny <=? e1 + e2)
  | _, _ => false
  end.

(** The balance [get_usd_balance] reads once [ensure_user] has run. *)
Definition opening_balance (s : db) (user_id : Z) : Decimal :=
  match users s !! user_id with
  | Some b => b
  | None => INITIAL_USD_BALANCE
  end.

(** [portfolio.get(coin, Decimal("0"))]. *)
Definition holding (s : db) (user_id : Z) (coin : string) : Decimal :=
  default zero (portfolio s !! (user_id, coin)).

(** The solvency invariant of the store. *)
Definition ledger_ok (s : db) : Prop :=
  map_Forall (fun _ b => is_nonneg b = true) (users s) /\
  map_Forall (fun _ a => is_positive a = true) (portfolio s).

Definition holdings_ok (s : db) : Prop :=
  map_Forall (fun _ a => is_positive a = true) (portfolio s).

(** A price that cannot push a balance below zero: not a negative number
    and not a quiet NaN. *)
Definition harmless_price (p : Decimal) : bool :=
  match p with
  | Finite true m _ => (m =? 0)%N
  | NaN false => false
  | _ => true
  end.

Definition env_of (r : request) : env :=
  match r with Buy E _ => E | Sell E _ => E end.

Definition harmless_env `{PyText} (E : env) : Prop :=
  forall symbol p, price_of E symbol = Some p -> harmless_price p = true.

(** A failure reply of a trading handler. *)
Definition is_rejection (r : reply) : bool :=
  match r with
  | UsageBuy | UsageSell | UnknownCoin | BadUsdAmount | BadCoinAmount
  | NotEnoughUsd _ | NotEnoughCoin _ _ | PriceFailed => true
  | _ => false
  end.

Definition is_invalid_input (r : reply) : bool :=
  match r with
  | UsageBuy | UsageSell | UnknownCoin | BadUsdAmount | BadCoinAmount => true
  | _ => false
  end.

(** History rows sorted by timestamp, latest first. *)
Fixpoint sorted_desc (l : list history_row) : Prop :=
  match l with
  | [] => True
  | x :: r => Forall (fun y => h_timestamp y <= h_timestamp x) r /\ sorted_desc r
  end.

(** The store [ensure_user] leaves. *)
Definition ensured (s : db) (user_id : Z) : db :=
  match users s !! user_id with
  | Some _ => s
  | None => sql_insert_user user_id INITIAL_USD_BALANCE s
  end.

Definition msg_of (r : request) : message :=
  match r with Buy _ msg => msg | Sell _ msg => msg end.

Definition parts_of `{PyText} (r : request) : list string :=
  str_split (str_lower (get_args (msg_of r))).

(** The condition under which a handler gives each failure reply. *)
Definition rejection_cause `{PyText} (r : request) (s : db) (a : reply) : Prop :=
  let user_id := from_user_id (msg_of r) in
  match a with
  | UsageBuy => (exists E msg, r = Buy E msg) /\ length (parts_of r) <> 2%nat
  | UsageSell => (exists E msg, r = Sell E msg) /\ length (parts_of r) <> 2%nat
  | UnknownCoin =>
      exists coin text, parts_of r = [coin; text] /\
        dict_get AVAILABLE_COINS coin = None
  | BadUsdAmount =>
      exists coin text e, parts_of r = [coin; text] /\
        (exists E msg, r = Buy E msg) /\ positive_amount text = Raise e
  | BadCoinAmount =>
      exists coin text e, parts_of r = [coin; text] /\
        (exists E msg, r = Sell E msg) /\ positive_amount text = Raise e
  | NotEnoughUsd _ =>
      exists coin text amount, parts_of r = [coin; text] /\
        (exists E msg, r = Buy E msg) /\ positive_amount text = Ok amount /\
        gt amount (opening_balance s user_id) = Ok true
  | NotEnoughCoin c have =>
      exists text amount, parts_of r = [c; text] /\
        (exists E msg, r = Sell E msg) /\ positive_amount text = Ok amount /\
        have = holding s user_id c /\ gt amount have = Ok true
  | PriceFailed =>
      exists coin text symbol, parts_of r = [coin; text] /\
        dict_get AVAILABLE_COINS coin = Some symbol /\
        price_of (env_of r) symbol = None
  | _ => False
  end.

(** The statements of [cmd_buy] after the price is known, and those of
    [cmd_sell]: the computation of the amounts and the three writes. *)
Definition buy_apply (E : env) (user_id : Z) (coin : string)
    (usd_amount balance price : Decimal) : M reply :=
  let* quotient := lift (div usd_amount price) in
  let* coin_amount := lift (quantize quotient COIN_STEP ROUND_DOWN) in
  let* new_balance := lift (sub balance usd_amount) in
  let* _ := update_usd_balance user_id new_balance in
  let* current_portfolio := get_portfolio user_id in
  let* total :=
    lift (add (default zero (current_portfolio !! coin)) coin_amount) in
  let* _ := update_portfolio user_id coin total in
  let* _ := add_history E user_id "buy" coin coin_amount price in
  let* after := get_usd_balance user_id in
  let* shown := lift (quantize after USD_STEP ROUND_HALF_EVEN) in
  ret (Bought coin_amount coin usd_amount shown).

Definition sell_apply (E : env) (user_id : Z) (coin : string)
    (coin_amount have price : Decimal) : M reply :=
  let* product := lift (mul coin_amount price) in
  let* usd_gain := lift (quantize product USD_STEP ROUND_DOWN) in
  let* rest := lift (sub have coin_amount) in
  let* _ := update_portfolio user_id coin rest in
  let* balance := get_usd_balance user_id in
  let* new_balance := lift (add balance usd_gain) in
  let* _ := update_usd_balance user_id new_balance in
  let* _ := add_history E user_id "sell" coin coin_amount price in
  let* after := get_usd_balance user_id in
  let* shown := lift (quantize after USD_STEP ROUND_HALF_EVEN) in
  ret (Sold coin_amount coin usd_gain shown).

(** The holding write of [update_portfolio]. *)
Definition write_holding (user_id : Z) (coin : string) (amount : Decimal)
    (nonpositive : bool) (s : db) : db :=
  if nonpositive then sql_delete_holding user_id coin s
  else sql_upsert_holding user_id coin amount s.

(** The events of [ensure_user] and of [get_price]. *)
Definition ensure_events (s : db) (user_id : Z) : list event :=
  match users s !! user_id with
  | Some _ => []
  | None => [EvCommit (ensured s user_id)]
  end.

Definition fetch_events (symbol : string) : list event :=
  if String.eqb symbol "USDTUSDT" then [] else [EvHttpGet symbol].

(** The stores after the first, second and third write of a buy and of
    a sell, from the store [s] the handler started on. *)
Definition buy_stores (E : env) (s : db) (user_id : Z) (coin : string)
    (coin_amount price new_balance total : Decimal) (nonpositive : bool)
  : db * db * db :=
  let s2 := sql_update_balance user_id new_balance (ensured s user_id) in
  let s3 := write_holding user_id coin total nonpositive s2 in
  let s4 := sql_insert_history (now E) user_id "buy" coin coin_amount price s3 in
  (s2, s3, s4).

Definition sell_stores (E : env) (s : db) (user_id : Z) (coin : string)
    (coin_amount price rest new_balance : Decimal) (nonpositive : bool)
  : db * db * db :=
  let s2 := write_holding user_id coin rest nonpositive (ensured s user_id) in
  let s3 := sql_update_balance user_id new_balance s2 in
  let s4 := sql_insert_history (now E) user_id "sell" coin coin_amount price s3 in
  (s2, s3, s4).

Definition is_executed (a : reply) : bool :=
  match a with
  | Bought _ _ _ _ | Sold _ _ _ _ => true
  | _ => false
  end.

Definition is_insufficient (a : reply) : bool :=
  match a with
  | NotEnoughUsd _ | NotEnoughCoin _ _ => true
  | _ => false
  end.

(** A world whose store and whose every committed store satisfy [I]. *)
Definition committed_ok (I : db -> Prop) (l : list event) : Prop :=
  Forall (fun c => I c) (commits l).

Definition world_ok (I : db -> Prop) (w : world) : Prop :=
  I (store w) /\ committed_ok I (log w).

(** The result of a handler, with [l] put before its log. *)
Definition extend (l : list event) (x : result reply * world)
  : result reply * world :=
  (x.1, {| store := store x.2; log := l ++ log x.2 |}).

(** [n] sell commands with the same message, one per environment, none
    of them started. *)
Definition sell_tasks `{PyText} (envs : list env) (msg : message) : list task :=
  map (fun E => Pending (cmd_sell E msg)) envs.

(** The two phases of a run of [sell_tasks envs msg] from the store [s].
    Before any body has run, the tasks and the store are as they
    started. *)
Definition untouched `{PyText} (s : db) (msg : message) (envs : list env)
    (tasks : list task) (w : world) : Prop :=
  tasks = sell_tasks envs msg /\ store w = s /\
  committed_ok holdings_ok (log w).

(** Once the body of task [i] has run and sold, the holding of [coin] is
    gone and every other task is still to start or was refused. *)
Definition sold_out `{PyText} (msg : message) (coin : string)
    (i : nat) (tasks : list task) (w : world) : Prop :=
  let user_id := from_user_id msg in
  portfolio (store w) !! (user_id, coin) = None /\
  is_Some (users (store w) !! user_id) /\
  holdings_ok (store w) /\
  committed_ok holdings_ok (log w) /\
  (exists r, is_sold r = true /\
     (tasks !! i = Some (Replying r) \/ tasks !! i = Some (Finished r))) /\
  (forall j t, j <> i -> tasks !! j = Some t ->
     (exists E, t = Pending (cmd_sell E msg)) \/
     (exists have, t = Replying (Ok (NotEnoughCoin coin have)) \/
                   t = Finished (Ok (NotEnoughCoin coin have)))).

(** Trading commands as tasks of the event loop, none of them started,
    and the answers of a list of commands handled one after the
    other. *)
Definition trade_tasks `{PyText} (rs : list request) : list task :=
  map (fun r => Pending (handle r)) rs.

Fixpoint run_all_answers `{PyText} (rs : list request) (w : world)
  : list (result reply) :=
  match rs with
  | [] => []
  | r :: rest => (handle r w).1 :: run_all_answers rest (handle r w).2
  end.

(** The state of the tasks of [rs] once the bodies of the commands at
    the indices [order], which are the commands [reqs], have run one
    after the other from [w0]: the world is the one the sequential run
    leaves, every task that has started holds the answer of the
    sequential run, and every other task is still to start. *)
Definition serial_run `{PyText} (rs : list request) (w0 : world)
    (order : list nat) (reqs : list request)
    (tasks : list task) (w : world) : Prop :=
  NoDup order /\
  Forall2 (fun i r => rs !! i = Some r) order reqs /\
  length tasks = length rs /\
  w = run_all reqs w0 /\
  (forall p i, order !! p = Some i ->
     exists a, run_all_answers reqs w0 !! p = Some a /\
       (tasks !! i = Some (Replying a) \/ tasks !! i = Some (Finished a))) /\
  (forall i r, rs !! i = Some r -> i ∉ order ->
     tasks !! i = Some (Pending (handle r))).

(** ** The bot as a whole *)

(** An incoming command, with what its handler takes from outside. *)
Inductive update :=
| OnStart (msg : message)
| OnCoins
| OnBalance (msg : message)
| OnPortfolio (E : env) (scan : gmap string Decimal -> list (string * Decimal))
              (msg : message)
| OnPrice (E : env) (msg : message)
| OnTrade (r : request).

(** The world a handler leaves, whatever it answers or raises. *)
Definition serve `{PyText} `{PyStrip} (u : update) (w : world) : world :=
  match u with
  | OnStart msg => (cmd_start_help msg w).2
  | OnCoins => (cmd_coins w).2
  | OnBalance msg => (cmd_balance msg w).2
  | OnPortfolio E scan msg => (cmd_portfolio E scan msg w).2
  | OnPrice E msg => (cmd_price E msg w).2
  | OnTrade r => (handle r w).2
  end.

Fixpoint serve_all `{PyText} `{PyStrip} (us : list update) (w : world) : world :=
  match us with
  | [] => w
  | u :: rest => serve_all rest (serve u w)
  end.

(** The exception that ends a handler, if one does. *)
Definition raised {A} (x : result A * world) : option exn :=
  match x.1 with
  | Raise e => Some e
  | Ok _ => None
  end.

Definition failure `{PyText} `{PyStrip} (u : update) (w : world) : option exn :=
  match u with
  | OnStart msg => raised (cmd_start_help msg w)
  | OnCoins => raised (cmd_coins w)
  | OnBalance msg => raised (cmd_balance msg w)
  | OnPortfolio E scan msg => raised (cmd_portfolio E scan msg w)
  | OnPrice E msg => raised (cmd_price E msg w)
  | OnTrade r => raised (handle r w)
  end.

(** The signals of the decimal context that the default context
    traps. *)
Definition is_decimal_signal (e : exn) : bool :=
  match e with
  | InvalidOperation | DivisionByZero | Overflow => true
  | _ => false
  end.

(** The user on whose behalf a handler calls the storage helpers. *)
Definition account_of (u : update) : option Z :=
  match u with
  | OnStart msg | OnBalance msg | OnPortfolio _ _ msg =>
      Some (from_user_id msg)
  | OnCoins | OnPrice _ _ => None
  | OnTrade r => Some (from_user_id (msg_of r))
  end.

(** One write statement executed for the user [user_id]: the INSERT of
    [ensure_user] for a user without a row, and the writes of
    [update_usd_balance], [update_portfolio] and [add_history] for a
    user with one. *)
Inductive write_by (user_id : Z) : db -> db -> Prop :=
| write_account (s : db) :
    users s !! user_id = None ->
    write_by user_id s (sql_insert_user user_id INITIAL_USD_BALANCE s)
| write_balance (s : db) (balance : Decimal) :
    is_Some (users s !! user_id) ->
    write_by user_id s (sql_update_balance user_id balance s)
| write_amount (s : db) (coin : string) (amount : Decimal) (nonpositive : bool) :
    is_Some (users s !! user_id) ->
    write_by user_id s (write_holding user_id coin amount nonpositive s)
| write_history (s : db) (time : Z) (action coin : string)
    (amount price : Decimal) :
    is_Some (users s !! user_id) ->
    write_by user_id s
      (sql_insert_history time user_id action coin amount price s).

(** The stores [l] are committed one after the other from [s], each by
    one write for [user_id]. *)
Fixpoint written_by (user_id : Z) (s : db) (l : list db) : Prop :=
  match l with
  | [] => True
  | c :: rest => write_by user_id s c /\ written_by user_id c rest
  end.

(** What a handler has done to the store between the worlds [w] and
    [w']: it committed the stores [l], each by one write for its user,
    and the last of them is the store it left. *)
Definition did_write (account : option Z) (w w' : world) : Prop :=
  exists l,
    commits (log w') = commits (log w) ++ l /\
    store w' = List.last l (store w) /\
    match account with
    | Some user_id => written_by user_id (store w) l
    | None => l = []
    end.

(** Referential integrity and the rowid counter: every holding and every
    history row belongs to a user with an account, and the ids of the
    history rows count from 1 up to the AUTOINCREMENT counter. *)
Definition refs_ok (s : db) : Prop :=
  (forall u c, is_Some (portfolio s !! (u, c)) -> is_Some (users s !! u)) /\
  Forall (fun r => is_Some (users s !! h_user r)) (history s) /\
  map h_id (history s) = seqZ 1 (Z.of_nat (length (history s))) /\
  history_seq s = Z.of_nat (length (history s)).

(** What the store holds about one user. *)
Definition rows_of (user_id : Z) (s : db)
  : option Decimal * gmap string Decimal * list history_row :=
  (users s !! user_id, select_portfolio user_id s,
   List.filter (fun r => h_user r =? user_id) (history s)).

(** The timestamps of the history rows grow with the row id. *)
Fixpoint increasing_timestamps (l : list history_row) : Prop :=
  match l with
  | [] => True
  | x :: r =>
      Forall (fun y => h_timestamp x < h_timestamp y) r /\
      increasing_timestamps r
  end.

(** [t] is [x] rounded to the exponent [k]: the same sign, and a
    coefficient at [10^k] within half a unit of the magnitude of [x]. *)
Definition rounded_to (k : Z) (x t : Decimal) : Prop :=
  exists s m e n, x = Finite s m e /\ t = Finite s n k /\
    (Qabs (inject_Z (Z.of_N n) * Qpower (inject_Z 10) k
           - inject_Z (Z.of_N m) * Qpower (inject_Z 10) e)
     <= Qpower (inject_Z 10) k / inject_Z 2)%Q.

(** The events of [price_of_coin]: one request for a coin with a pair
    other than USDTUSDT. *)
Definition coin_events (coin : string) : list event :=
  match dict_get AVAILABLE_COINS coin with
  | None => []
  | Some symbol => if String.eqb symbol "" then [] else fetch_events symbol
  end.

(** The replies of the two trading handlers to a command that is not
    two words and to an amount that is refused, and what the amount of a
    command is checked against: the balance for a buy, the holding of
    the coin for a sell. *)
Definition usage_reply (r : request) : reply :=
  match r with Buy _ _ => UsageBuy | Sell _ _ => UsageSell end.

Definition bad_amount_reply (r : request) : reply :=
  match r with Buy _ _ => BadUsdAmount | Sell _ _ => BadCoinAmount end.

Definition available (r : request) (s : db) (coin : string) : Decimal :=
  match r with
  | Buy _ msg => opening_balance s (from_user_id msg)
  | Sell _ msg => holding s (from_user_id msg) coin
  end.

(** A balance that [quantize] can show at 2 places within 28 digits:
    zero, or a finite value below [10^25] in magnitude. *)
Definition shows_to_cents (b : Decimal) : bool :=
  match b with
  | Finite _ m e => (m =? 0)%N || (ndigits (Z.of_N m) + e <=? 25)
  | _ => false
  end.

(** ** Concrete runs *)

(** An endpoint that answers every symbol with the price [text], at
    time [t]; one that cannot be reached; a command of user [user]. *)
Definition quote (text : string) (t : Z) : env :=
  {| http := fun _ => JsonObject (Some (PyStr text)); now := t |}.

Definition unreachable (t : Z) : env :=
  {| http := fun _ => RequestFails; now := t |}.

Definition command (user : Z) (text : string) : message :=
  {| from_user_id := user; get_args := text |}.

(** The scenario of the specification: 100 USD of BTC at 50000.00. *)
Definition first_buy : request :=
  Buy (quote "50000.00" 1700000000) (command 7 "btc 100").

Definition after_first_buy : db :=
  final (handle (H := ascii_text) first_buy) empty_db.

Definition first_sell : request :=
  Sell (quote "60000.00" 1700000060) (command 7 "btc 0.0020").

Definition after_first_sell : db :=
  final (handle (H := ascii_text) first_sell) after_first_buy.

(** A sell in the same second as the first buy. *)
Definition same_second_sell : request :=
  Sell (quote "60000.00" 1700000000) (command 7 "btc 0.0020").

(** Commands of the users 7 and 9: a buy, a look at the balance, a
    price query and a look at the portfolio. *)
Definition busy_hour : list update :=
  [ OnTrade first_buy;
    OnBalance (command 7 "");
    OnPrice (quote "60000.00" 1700000030) (command 9 " BTC ");
    OnStart (command 9 "");
    OnPortfolio (quote "60000.00" 1700000040) map_to_list (command 7 "") ].

(** Two rounds of buying 10000 USD of BTC at 1E-19 and selling the
    1E+23 BTC at 990, which leave user 7 a balance of
    197999999999999999999990000.0, and a buy of 1E+30 USD after them. *)
Definition rich_trades : list request :=
  [ Buy (quote "1e-19" 1700000000) (command 7 "btc 10000");
    Sell (quote "990" 1700000060) (command 7 "btc 1e23");
    Buy (quote "1e-19" 1700000120) (command 7 "btc 10000");
    Sell (quote "990" 1700000180) (command 7 "btc 1e23") ].

Definition rich_store : db :=
  store (run_all (H := ascii_text) rich_trades (fresh_world empty_db)).

Definition overbid : request :=
  Buy (quote "50000.00" 1700000240) (command 7 "btc 1e30").

(** A buy of 20000 USD by a user who has no account yet. *)
Definition first_overbid : request :=
  Buy (quote "50000.00" 1700000000) (command 7 "btc 20000").

(** ** Readings of the specification that the code does not follow *)

(** The price is fetched before the sufficiency check: a handler that
    answers "not enough" has sent its price request. *)
Definition fetch_before_check `{PyText} : Prop :=
  forall r s a, outcome (handle r) s = Ok a -> is_insufficient a = true ->
    requests (events (handle r) s) <> [].

(** The three writes of a trade are one transaction: every store a
    handler commits is the one before the trade (with the account
    created) or the one after it. *)
Definition all_or_nothing `{PyText} : Prop :=
  forall r s c, In c (commits (events (handle r) s)) ->
    c = ensured s (from_user_id (msg_of r)) \/ c = final (handle r) s.

(** The store is solvent after every sequence of commands. *)
Definition always_solvent `{PyText} : Prop :=
  forall rs, world_ok ledger_ok (run_all rs (fresh_world empty_db)).

(** The rows of [l] that carry the timestamp [t], in their order. *)
Definition at_time (t : Z) (l : list history_row) : list history_row :=
  List.filter (fun r => h_timestamp r =? t) l.

(** History rows latest first, rows of one second by descending id. *)
Fixpoint newest_first (l : list history_row) : Prop :=
  match l with
  | [] => True
  | x :: r =>
      Forall (fun y => h_timestamp y < h_timestamp x \/
                       (h_timestamp y = h_timestamp x /\ h_id y < h_id x)) r
      /\ newest_first r
  end.

Definition history_ties_by_id : Prop :=
  forall s user_id limit, newest_first (select_history user_id limit s).

(** Every task has answered. *)
Definition all_finished (tasks : list task) : Prop :=
  Forall (fun t => is_Some (answer_of t)) tasks.

(** Exactly one task sold and every other one was refused for lack of
    the coin. *)
Definition one_sold_rest_refused (coin : string) (tasks : list task) : Prop :=
  exists i r, tasks !! i = Some (Finished r) /\ is_sold r = true /\
    forall j t, j <> i -> tasks !! j = Some t ->
      exists have, t = Finished (Ok (NotEnoughCoin coin have)).

(** Of any number of concurrent sells of the whole holding, one sells and
    the others are refused for lack of the coin. *)
Definition sell_all_race `{PyText} : Prop :=
  forall s msg envs coin text amount sched,
    (1 < length envs)%nat ->
    str_split (str_lower (get_args msg)) = [coin; text] ->
    positive_amount text = Ok amount ->
    cmp amount (holding s (from_user_id msg) coin) = Ok Eq ->
    all_finished (run_schedule sched (sell_tasks envs msg) (fresh_world s)).1 ->
    one_sold_rest_refused coin
      (run_schedule sched (sell_tasks envs msg) (fresh_world s)).1.

(** [t] is [x] cut to the exponent [k]: the same sign, and the largest
    coefficient at [10^k] whose magnitude is not above that of [x]
    (rounding toward zero). *)
Definition truncated_to (k : Z) (x t : Decimal) : Prop :=
  exists s m e n, x = Finite s m e /\ t = Finite s n k /\
    (inject_Z (Z.of_N n) * Qpower (inject_Z 10) k
       <= inject_Z (Z.of_N m) * Qpower (inject_Z 10) e)%Q /\
    (inject_Z (Z.of_N m) * Qpower (inject_Z 10) e
       < (inject_Z (Z.of_N n) + 1) * Qpower (inject_Z 10) k)%Q.

(** After a buy the balance is exactly the old one less the amount
    paid. *)
Definition buy_conserves `{PyText} : Prop :=
  forall E msg s coin_amount coin usd_amount shown,
    ledger_ok s ->
    outcome (cmd_buy E msg) s = Ok (Bought coin_amount coin usd_amount shown) ->
    (DtoQ (opening_balance (final (cmd_buy E msg) s) (from_user_id msg))
     == DtoQ (opening_balance s (from_user_id msg)) - DtoQ usd_amount)%Q.

(** After a sell the holding is exactly the old one less the amount
    sold. *)
Definition sell_conserves `{PyText} : Prop :=
  forall E msg s coin_amount coin usd_gain shown,
    ledger_ok s ->
    outcome (cmd_sell E msg) s = Ok (Sold coin_amount coin usd_gain shown) ->
    (DtoQ (holding (final (cmd_sell E msg) s) (from_user_id msg) coin)
     == DtoQ (holding s (from_user_id msg) coin) - DtoQ coin_amount)%Q.

(** A buy of 1E-29 USD, and a sell of 1E-31 BTC. *)
Definition tiny_buy : request :=
  Buy (quote "50000.00" 1700000000) (command 7 "btc 1e-29").

Definition tiny_sell : request :=
  Sell (quote "60000.00" 1700000060) (command 7 "btc 1e-31").

(** Whether the check of sufficiency of a request passed on [s]. *)
Definition sufficient (r : request) (s : db) (coin : string)
    (amount : Decimal) : Prop :=
  match r with
  | Buy _ msg => gt amount (opening_balance s (from_user_id msg)) = Ok false
  | Sell _ msg => gt amount (holding s (from_user_id msg) coin) = Ok false
  end.

(** * Properties *)

(** ** The monad and the DB helpers *)

Section Helpers.
Context `{PyText}.

Lemma select_portfolio_lookup (user_id : Z) (s : db) (coin : string) :
  select_portfolio user_id s !! coin = portfolio s !! (user_id, coin).
Proof.
  unfold select_portfolio.
  apply (map_fold_weak_ind
    (fun (r : gmap string Decimal) (m : gmap (Z * string) Decimal) =>
       r !! coin = m !! (user_id, coin))).
  - by rewrite !lookup_empty.
  - intros [u c] a m r Hfresh IH. simpl.
    destruct (decide (u = user_id)) as [->|Hu].
    + destruct (decide (c = coin)) as [->|Hc].
      * by rewrite !lookup_insert_eq.
      * rewrite !lookup_insert_ne; [done | congruence | congruence].
    + rewrite lookup_insert_ne; [done | congruence].
Qed.

Lemma ensure_user_run (user_id : Z) (w : world) :
  ensure_user user_id w
  = (Ok tt, {| store := ensured (store w) user_id;
               log := log w ++ ensure_events (store w) user_id |}).
Proof.
  unfold ensure_user, ensure_events, ensured, bind, read, commit, ret.
  destruct (users (store w) !! user_id) eqn:E; simpl; [|done].
  rewrite app_nil_r. by destruct w.
Qed.

Lemma ensured_users (s : db) (user_id : Z) :
  users (ensured s user_id) !! user_id = Some (opening_balance s user_id).
Proof.
  unfold ensured, opening_balance.
  destruct (users s !! user_id) eqn:E; simpl; [done|].
  by rewrite lookup_insert_eq.
Qed.

Lemma ensured_opening (s : db) (user_id u : Z) :
  opening_balance (ensured s user_id) u = opening_balance s u.
Proof.
  unfold ensured, opening_balance.
  destruct (users s !! user_id) eqn:E; simpl; [done|].
  destruct (decide (user_id = u)) as [->|Hne].
  - by rewrite lookup_insert_eq, E.
  - by rewrite lookup_insert_ne.
Qed.

Lemma ensured_portfolio (s : db) (user_id : Z) :
  portfolio (ensured s user_id) = portfolio s.
Proof. unfold ensured. by destruct (users s !! user_id). Qed.

Lemma ensured_portfolio_holding (s : db) (user_id u : Z) (coin : string) :
  holding (ensured s user_id) u coin = holding s u coin.
Proof. unfold holding. by rewrite ensured_portfolio. Qed.

Lemma ensured_history (s : db) (user_id : Z) :
  history (ensured s user_id) = history s
  /\ history_seq (ensured s user_id) = history_seq s.
Proof. unfold ensured. by destruct (users s !! user_id). Qed.

Lemma ensured_idem (s : db) (user_id : Z) :
  ensured (ensured s user_id) user_id = ensured s user_id.
Proof.
  unfold ensured at 1. by rewrite ensured_users.
Qed.

Lemma get_price_run (E : env) (symbol : string) (w : world) :
  get_price E symbol w
  = (Ok (price_of E symbol),
     {| store := store w;
        log := log w ++ fetch_events symbol |}).
Proof.
  unfold get_price, price_of, fetch_events, bind, emit, ret.
  destruct (String.eqb symbol "USDTUSDT").
  - rewrite app_nil_r. by destruct w.
  - simpl. by destruct (get_price_try (http E symbol)).
Qed.

End Helpers.

Section Runs.
Context `{PyText}.

(** [cmd_buy] up to the price fetch. *)
Lemma cmd_buy_run (E : env) (msg : message) (w : world) :
  cmd_buy E msg w =
  match str_split (str_lower (get_args msg)) with
  | [coin; usd_str] =>
    match dict_get AVAILABLE_COINS coin with
    | None => (Ok UnknownCoin, w)
    | Some symbol =>
      match positive_amount usd_str with
      | Raise _ => (Ok BadUsdAmount, w)
      | Ok usd_amount =>
        let user_id := from_user_id msg in
        let balance := opening_balance (store w) user_id in
        let w1 := {| store := ensured (store w) user_id;
                     log := log w ++ ensure_events (store w) user_id |} in
        match gt usd_amount balance with
        | Raise e => (Raise e, w1)
        | Ok true =>
            (rbind (quantize balance USD_STEP ROUND_HALF_EVEN)
                   (fun shown => Ok (NotEnoughUsd shown)), w1)
        | Ok false =>
            let w2 := {| store := store w1;
                         log := log w1 ++ fetch_events symbol |} in
            match price_of E symbol with
            | None => (Ok PriceFailed, w2)
            | Some price =>
                buy_apply E user_id coin usd_amount balance price w2
            end
        end
      end
    end
  | _ => (Ok UsageBuy, w)
  end.
Proof.
  unfold cmd_buy.
  destruct (str_split (str_lower (get_args msg))) as [|coin [|usd_str [|? ?]]];
    try reflexivity.
  destruct (dict_get AVAILABLE_COINS coin) as [symbol|]; [|reflexivity].
  destruct (positive_amount usd_str) as [usd_amount|]; [|reflexivity].
  unfold bind at 1. rewrite ensure_user_run.
  unfold bind at 1, get_usd_balance at 1, bind at 1, read, ret. simpl.
  rewrite ensured_users.
  unfold bind at 1, lift at 1.
  destruct (gt usd_amount _) as [[|]|e]; [| |reflexivity].
  - unfold bind, lift, ret. by destruct (quantize _ _ _).
  - unfold bind at 1. rewrite get_price_run.
    by destruct (price_of E symbol).
Qed.

(** [cmd_sell] up to the price fetch. *)
Lemma cmd_sell_run (E : env) (msg : message) (w : world) :
  cmd_sell E msg w =
  match str_split (str_lower (get_args msg)) with
  | [coin; coin_str] =>
    match dict_get AVAILABLE_COINS coin with
    | None => (Ok UnknownCoin, w)
    | Some symbol =>
      match positive_amount coin_str with
      | Raise _ => (Ok BadCoinAmount, w)
      | Ok coin_amount =>
        let user_id := from_user_id msg in
        let have := holding (store w) user_id coin in
        let w1 := {| store := ensured (store w) user_id;
                     log := log w ++ ensure_events (store w) user_id |} in
        match gt coin_amount have with
        | Raise e => (Raise e, w1)
        | Ok true => (Ok (NotEnoughCoin coin have), w1)
        | Ok false =>
            let w2 := {| store := store w1;
                         log := log w1 ++ fetch_events symbol |} in
            match price_of E symbol with
            | None => (Ok PriceFailed, w2)
            | Some price =>
                sell_apply E user_id coin coin_amount have price w2
            end
        end
      end
    end
  | _ => (Ok UsageSell, w)
  end.
Proof.
  unfold cmd_sell.
  destruct (str_split (str_lower (get_args msg))) as [|coin [|coin_str [|? ?]]];
    try reflexivity.
  destruct (dict_get AVAILABLE_COINS coin) as [symbol|]; [|reflexivity].
  destruct (positive_amount coin_str) as [coin_amount|]; [|reflexivity].
  unfold bind at 1. rewrite ensure_user_run.
  unfold bind at 1, get_portfolio at 1, read. simpl.
  rewrite select_portfolio_lookup, ensured_portfolio.
  fold (holding (store w) (from_user_id msg) coin).
  unfold bind at 1, lift at 1.
  destruct (gt coin_amount _) as [[|]|e]; [reflexivity | |reflexivity].
  unfold bind at 1. rewrite get_price_run.
  by destruct (price_of E symbol).
Qed.

End Runs.

Section Apply.
Context `{PyText}.

Lemma sql_update_balance_lookup (user_id : Z) (b nb : Decimal) (s : db) :
  users s !! user_id = Some b ->
  users (sql_update_balance user_id nb s) !! user_id = Some nb.
Proof.
  intros Hb. unfold sql_update_balance. simpl.
  by rewrite lookup_alter_eq, Hb.
Qed.

Lemma write_holding_users user_id coin amount np s :
  users (write_holding user_id coin amount np s) = users s.
Proof. by destruct np. Qed.

(** The three writes of a buy, in the order of the code. *)
Lemma buy_apply_run (E : env) (user_id : Z) (coin : string)
    (usd_amount balance price b : Decimal) (w : world) :
  users (store w) !! user_id = Some b ->
  buy_apply E user_id coin usd_amount balance price w =
  match div usd_amount price with
  | Raise e => (Raise e, w)
  | Ok quotient =>
    match quantize quotient COIN_STEP ROUND_DOWN with
    | Raise e => (Raise e, w)
    | Ok coin_amount =>
      match sub balance usd_amount with
      | Raise e => (Raise e, w)
      | Ok new_balance =>
        let s2 := sql_update_balance user_id new_balance (store w) in
        let w2 := {| store := s2; log := log w ++ [EvCommit s2] |} in
        match add (holding (store w) user_id coin) coin_amount with
        | Raise e => (Raise e, w2)
        | Ok total =>
          match le total zero with
          | Raise e => (Raise e, w2)
          | Ok nonpositive =>
            let s3 := write_holding user_id coin total nonpositive s2 in
            let s4 := sql_insert_history (now E) user_id "buy" coin
                        coin_amount price s3 in
            (rbind (quantize new_balance USD_STEP ROUND_HALF_EVEN)
                   (fun shown => Ok (Bought coin_amount coin usd_amount shown)),
             {| store := s4;
                log := log w ++ [EvCommit s2; EvCommit s3; EvCommit s4] |})
          end
        end
      end
    end
  end.
Proof.
  intros Hb. unfold buy_apply.
  unfold bind at 1, lift at 1.
  destruct (div usd_amount price) as [quotient|]; [|reflexivity].
  unfold bind at 1, lift at 1.
  destruct (quantize quotient _ _) as [coin_amount|]; [|reflexivity].
  unfold bind at 1, lift at 1.
  destruct (sub balance usd_amount) as [new_balance|]; [|reflexivity].
  unfold bind at 1, update_usd_balance at 1, commit at 1.
  unfold bind at 1, get_portfolio at 1, read at 1. cbn [store log].
  rewrite select_portfolio_lookup.
  change (portfolio (sql_update_balance user_id new_balance (store w)))
    with (portfolio (store w)).
  fold (holding (store w) user_id coin).
  unfold bind at 1, lift at 1.
  destruct (add _ coin_amount) as [total|]; [|reflexivity].
  pose proof (sql_update_balance_lookup user_id b new_balance (store w) Hb) as Hnb.
  unfold bind at 1, update_portfolio at 1, bind at 1, lift at 1.
  destruct (le total zero) as [nonpositive|]; [|reflexivity].
  destruct nonpositive.
  - unfold commit at 1. cbn [store log].
    unfold bind at 1, add_history at 1, bind at 1, read at 1. cbn [store log].
    change (users (sql_delete_holding user_id coin
                     (sql_update_balance user_id new_balance (store w))))
      with (users (sql_update_balance user_id new_balance (store w))).
    rewrite Hnb. unfold commit at 1. cbn [store log].
    unfold bind at 1, get_usd_balance at 1, bind at 1, read at 1, ret at 1.
    cbn [store log].
    change (users (sql_insert_history _ _ _ _ _ _ (sql_delete_holding _ _ ?s)))
      with (users s).
    rewrite Hnb. unfold bind, lift, ret, write_holding.
    rewrite <- !app_assoc. simpl.
    by destruct (quantize new_balance _ _).
  - unfold bind at 1, read at 1. cbn [store log]. rewrite Hnb.
    unfold commit at 1. cbn [store log].
    unfold bind at 1, add_history at 1, bind at 1, read at 1. cbn [store log].
    change (users (sql_upsert_holding user_id coin total
                     (sql_update_balance user_id new_balance (store w))))
      with (users (sql_update_balance user_id new_balance (store w))).
    rewrite Hnb. unfold commit at 1. cbn [store log].
    unfold bind at 1, get_usd_balance at 1, bind at 1, read at 1, ret at 1.
    cbn [store log].
    change (users (sql_insert_history _ _ _ _ _ _ (sql_upsert_holding _ _ _ ?s)))
      with (users s).
    rewrite Hnb. unfold bind, lift, ret, write_holding.
    rewrite <- !app_assoc. simpl.
    by destruct (quantize new_balance _ _).
Qed.

(** The three writes of a sell, in the order of the code. *)
Lemma sell_apply_run (E : env) (user_id : Z) (coin : string)
    (coin_amount have price balance : Decimal) (w : world) :
  users (store w) !! user_id = Some balance ->
  sell_apply E user_id coin coin_amount have price w =
  match mul coin_amount price with
  | Raise e => (Raise e, w)
  | Ok product =>
    match quantize product USD_STEP ROUND_DOWN with
    | Raise e => (Raise e, w)
    | Ok usd_gain =>
      match sub have coin_amount with
      | Raise e => (Raise e, w)
      | Ok rest =>
        match le rest zero with
        | Raise e => (Raise e, w)
        | Ok nonpositive =>
          let s2 := write_holding user_id coin rest nonpositive (store w) in
          let w2 := {| store := s2; log := log w ++ [EvCommit s2] |} in
          match add balance usd_gain with
          | Raise e => (Raise e, w2)
          | Ok new_balance =>
            let s3 := sql_update_balance user_id new_balance s2 in
            let s4 := sql_insert_history (now E) user_id "sell" coin
                        coin_amount price s3 in
            (rbind (quantize new_balance USD_STEP ROUND_HALF_EVEN)
                   (fun shown => Ok (Sold coin_amount coin usd_gain shown)),
             {| store := s4;
                log := log w ++ [EvCommit s2; EvCommit s3; EvCommit s4] |})
          end
        end
      end
    end
  end.
Proof.
  intros Hb. unfold sell_apply.
  unfold bind at 1, lift at 1.
  destruct (mul coin_amount price) as [product|]; [|reflexivity].
  unfold bind at 1, lift at 1.
  destruct (quantize product _ _) as [usd_gain|]; [|reflexivity].
  unfold bind at 1, lift at 1.
  destruct (sub have coin_amount) as [rest|]; [|reflexivity].
  unfold bind at 1, update_portfolio at 1, bind at 1, lift at 1.
  destruct (le rest zero) as [nonpositive|]; [|reflexivity].
  assert (Hw : forall s2,
    users s2 = users (store w) ->
    (let* balance0 := get_usd_balance user_id in
     let* new_balance := lift (add balance0 usd_gain) in
     let* _ := update_usd_balance user_id new_balance in
     let* _ := add_history E user_id "sell" coin coin_amount price in
     let* after := get_usd_balance user_id in
     let* shown := lift (quantize after USD_STEP ROUND_HALF_EVEN) in
     ret (Sold coin_amount coin usd_gain shown))
      {| store := s2; log := log w ++ [EvCommit s2] |}
    = match add balance usd_gain with
      | Raise e => (Raise e, {| store := s2; log := log w ++ [EvCommit s2] |})
      | Ok new_balance =>
          let s3 := sql_update_balance user_id new_balance s2 in
          let s4 := sql_insert_history (now E) user_id "sell" coin
                      coin_amount price s3 in
          (rbind (quantize new_balance USD_STEP ROUND_HALF_EVEN)
                 (fun shown => Ok (Sold coin_amount coin usd_gain shown)),
           {| store := s4;
              log := log w ++ [EvCommit s2; EvCommit s3; EvCommit s4] |})
      end).
  { intros s2 Hs2.
    assert (Hb2 : users s2 !! user_id = Some balance) by (by rewrite Hs2).
    unfold bind at 1, get_usd_balance at 1, bind at 1, read at 1, ret at 1.
    cbn [store log]. rewrite Hb2.
    unfold bind at 1, lift at 1.
    destruct (add balance usd_gain) as [new_balance|]; [|reflexivity].
    pose proof (sql_update_balance_lookup user_id balance new_balance s2 Hb2)
      as Hnb.
    unfold bind at 1, update_usd_balance at 1, commit at 1. cbn [store log].
    unfold bind at 1, add_history at 1, bind at 1, read at 1. cbn [store log].
    rewrite Hnb. unfold commit at 1. cbn [store log].
    unfold bind at 1, get_usd_balance at 1, bind at 1, read at 1, ret at 1.
    cbn [store log].
    change (users (sql_insert_history _ _ _ _ _ _ ?s)) with (users s).
    rewrite Hnb. unfold bind, lift, ret.
    rewrite <- !app_assoc. simpl.
    by destruct (quantize new_balance _ _). }
  destruct nonpositive.
  - unfold commit at 1. cbn [store log]. by apply Hw.
  - unfold bind at 1, read at 1. rewrite Hb.
    unfold commit at 1. cbn [store log]. by apply Hw.
Qed.

End Apply.

(** ** Reading a run *)

Lemma run_outcome {A} (m : M A) (s : db) :
  outcome m s = (m (fresh_world s)).1.
Proof. unfold outcome, run, fresh_world. by destruct (m _). Qed.

Lemma run_final {A} (m : M A) (s : db) :
  final m s = store (m (fresh_world s)).2.
Proof. unfold final, run, fresh_world. by destruct (m _). Qed.

Lemma run_events {A} (m : M A) (s : db) :
  events m s = log (m (fresh_world s)).2.
Proof. unfold events, run, fresh_world. by destruct (m _). Qed.

Lemma commits_app (l1 l2 : list event) :
  commits (l1 ++ l2) = commits l1 ++ commits l2.
Proof.
  induction l1 as [|[c|sym] l1 IH]; simpl; [done | by rewrite IH | done].
Qed.

Lemma requests_app (l1 l2 : list event) :
  requests (l1 ++ l2) = requests l1 ++ requests l2.
Proof.
  induction l1 as [|[c|sym] l1 IH]; simpl; [done | done | by rewrite IH].
Qed.

Lemma commits_fetch (symbol : string) : commits (fetch_events symbol) = [].
Proof. unfold fetch_events. by destruct (String.eqb _ _). Qed.

Lemma requests_ensure (s : db) (user_id : Z) :
  requests (ensure_events s user_id) = [].
Proof. unfold ensure_events. by destruct (users s !! user_id). Qed.

Lemma commits_ensure (s : db) (user_id : Z) :
  Forall (fun c => c = ensured s user_id) (commits (ensure_events s user_id)).
Proof.
  unfold ensure_events. destruct (users s !! user_id); simpl; auto.
Qed.

(** ** C6: the price adapter *)

(** C6. For every symbol, [get_price] returns a price or [None] and never
    raises: a failed request, a bad status, a body that is not JSON or not
    an object, a missing price field and a price [Decimal] refuses all
    give [None]; for the pair of the stable coin it returns exactly 1
    and sends no request. *)
Theorem get_price_total `{PyText} (E : env) (symbol : string) (w : world) :
  let '(r, w') := get_price E symbol w in
  store w' = store w /\
  (exists p, r = Ok p) /\
  dict_get AVAILABLE_COINS "usdt" = Some "USDTUSDT"%string /\
  if String.eqb symbol "USDTUSDT" then
    r = Ok (Some (Finite false 1 0)) /\ w' = w /\
    (DtoQ (Finite false 1 0) == 1)%Q
  else
    log w' = log w ++ [EvHttpGet symbol] /\
    match http E symbol with
    | RequestFails | BadStatus | NotJson | NotAnObject | JsonObject None =>
        r = Ok None
    | JsonObject (Some v) =>
        match Decimal_of_obj v with
        | Ok d => r = Ok (Some d)
        | Raise _ => r = Ok None
        end
    end.
Proof.
  rewrite get_price_run. cbn [store log].
  split; [done|]. split; [by eexists|]. split; [done|].
  unfold price_of, fetch_events.
  destruct (String.eqb symbol "USDTUSDT").
  - rewrite app_nil_r. split; [done|]. split; [by destruct w | reflexivity].
  - split; [done|]. unfold get_price_try.
    destruct (http E symbol) as [| | | |[v|]]; try done.
    by destruct (Decimal_of_obj v).
Qed.

(** ** C4: rejected trades *)

Section Rejections.
Context `{PyText}.

Lemma buy_apply_not_rejected E user_id coin usd_amount balance price b w a :
  users (store w) !! user_id = Some b ->
  (buy_apply E user_id coin usd_amount balance price w).1 = Ok a ->
  is_rejection a = false.
Proof.
  intros Hb. rewrite (buy_apply_run _ _ _ _ _ _ b) by done.
  destruct (div _ _); [|discriminate].
  destruct (quantize _ COIN_STEP _); [|discriminate].
  destruct (sub _ _); [|discriminate].
  cbn zeta.
  destruct (add _ _); [|discriminate].
  destruct (le _ _); [|discriminate].
  cbn [fst].
  destruct (quantize _ USD_STEP _); [|discriminate].
  intros [= <-]. reflexivity.
Qed.

Lemma sell_apply_not_rejected E user_id coin coin_amount have price b w a :
  users (store w) !! user_id = Some b ->
  (sell_apply E user_id coin coin_amount have price w).1 = Ok a ->
  is_rejection a = false.
Proof.
  intros Hb. rewrite (sell_apply_run _ _ _ _ _ _ b) by done.
  destruct (mul _ _); [|discriminate].
  destruct (quantize _ USD_STEP ROUND_DOWN); [|discriminate].
  destruct (sub _ _); [|discriminate].
  destruct (le _ _); [|discriminate].
  cbn zeta.
  destruct (add _ _); [|discriminate].
  cbn [fst].
  destruct (quantize _ USD_STEP _); [|discriminate].
  intros [= <-]. reflexivity.
Qed.

End Rejections.

(** From the reply to its cause: a failure reply was given for its
    cause, and the handler wrote nothing but the account of a new
    user. *)
Lemma rejection_inv `{PyText} (r : request) (s : db) (a : reply) :
  outcome (handle r) s = Ok a ->
  is_rejection a = true ->
  let s' := final (handle r) s in
  let user_id := from_user_id (msg_of r) in
  rejection_cause r s a /\
  (forall u, opening_balance s' u = opening_balance s u) /\
  portfolio s' = portfolio s /\
  history s' = history s /\
  (s' = s \/ s' = ensured s user_id) /\
  Forall (fun c => c = ensured s user_id) (commits (events (handle r) s)) /\
  (is_invalid_input a = true -> s' = s /\ events (handle r) s = []).
Proof.
  rewrite run_outcome, run_final, run_events.
  destruct r as [E msg|E msg]; unfold rejection_cause, parts_of; cbn [handle msg_of env_of].
  - rewrite cmd_buy_run.
    destruct (str_split (str_lower (get_args msg))) as [|coin [|text [|? ?]]] eqn:Hp;
      cbn [fst snd store log fresh_world];
      try (intros [= <-] _; cbn; repeat split; eauto; fail).
    destruct (dict_get AVAILABLE_COINS coin) as [symbol|] eqn:Hc;
      [|intros [= <-] _; cbn; repeat split; eauto 10].
    destruct (positive_amount text) as [amount|e] eqn:Ha;
      [|intros [= <-] _; cbn; repeat split; eauto 10].
    cbn zeta.
    destruct (gt amount _) as [[|]|e] eqn:Hg; cbn [fst snd store log fresh_world].
    + destruct (quantize _ _ _) as [shown|]; [|discriminate].
      intros [= <-] _. cbn [is_invalid_input].
      split; [eauto 12|]. split; [apply ensured_opening|].
      split; [apply ensured_portfolio|]. split; [apply ensured_history|].
      split; [by right|]. split; [apply commits_ensure | discriminate].
    + destruct (price_of E symbol) as [price|] eqn:Hpr.
      * intros Ho Hr.
        erewrite buy_apply_not_rejected in Hr; [discriminate| |exact Ho].
        cbn [store]. apply ensured_users.
      * intros [= <-] _. cbn [fst snd store log is_invalid_input].
        split; [eauto 12|]. split; [apply ensured_opening|].
        split; [apply ensured_portfolio|]. split; [apply ensured_history|].
        split; [by right|]. split; [|discriminate].
        rewrite commits_app, commits_fetch, app_nil_r. apply commits_ensure.
    + discriminate.
  - rewrite cmd_sell_run.
    destruct (str_split (str_lower (get_args msg))) as [|coin [|text [|? ?]]] eqn:Hp;
      cbn [fst snd store log fresh_world];
      try (intros [= <-] _; cbn; repeat split; eauto; fail).
    destruct (dict_get AVAILABLE_COINS coin) as [symbol|] eqn:Hc;
      [|intros [= <-] _; cbn; repeat split; eauto 10].
    destruct (positive_amount text) as [amount|e] eqn:Ha;
      [|intros [= <-] _; cbn; repeat split; eauto 10].
    cbn zeta.
    destruct (gt amount _) as [[|]|e] eqn:Hg; cbn [fst snd store log fresh_world].
    + intros [= <-] _. cbn [is_invalid_input].
      split; [eauto 12|]. split; [apply ensured_opening|].
      split; [apply ensured_portfolio|]. split; [apply ensured_history|].
      split; [by right|]. split; [apply commits_ensure | discriminate].
    + destruct (price_of E symbol) as [price|] eqn:Hpr.
      * intros Ho Hr.
        erewrite sell_apply_not_rejected in Hr; [discriminate| |exact Ho].
        cbn [store]. apply ensured_users.
      * intros [= <-] _. cbn [fst snd store log is_invalid_input].
        split; [eauto 12|]. split; [apply ensured_opening|].
        split; [apply ensured_portfolio|]. split; [apply ensured_history|].
        split; [by right|]. split; [|discriminate].
        rewrite commits_app, commits_fetch, app_nil_r. apply commits_ensure.
    + discriminate.
Qed.

(** ** Executed trades *)

Section Executed.
Context `{PyText}.

(** What a completed buy went through, read off its reply. *)
Lemma buy_executed_inv (E : env) (msg : message) (s : db)
    (coin_amount : Decimal) (coin : string) (usd_amount shown : Decimal) :
  outcome (cmd_buy E msg) s = Ok (Bought coin_amount coin usd_amount shown) ->
  let user_id := from_user_id msg in
  let balance := opening_balance s user_id in
  exists text symbol price quotient new_balance total nonpositive,
    str_split (str_lower (get_args msg)) = [coin; text] /\
    dict_get AVAILABLE_COINS coin = Some symbol /\
    positive_amount text = Ok usd_amount /\
    gt usd_amount balance = Ok false /\
    price_of E symbol = Some price /\
    div usd_amount price = Ok quotient /\
    quantize quotient COIN_STEP ROUND_DOWN = Ok coin_amount /\
    sub balance usd_amount = Ok new_balance /\
    add (holding s user_id coin) coin_amount = Ok total /\
    le total zero = Ok nonpositive /\
    quantize new_balance USD_STEP ROUND_HALF_EVEN = Ok shown /\
    let '(s2, s3, s4) :=
      buy_stores E s user_id coin coin_amount price new_balance total
        nonpositive in
    final (cmd_buy E msg) s = s4 /\
    events (cmd_buy E msg) s =
      ensure_events s user_id ++ fetch_events symbol
      ++ [EvCommit s2; EvCommit s3; EvCommit s4].
Proof.
  rewrite run_outcome, run_final, run_events, cmd_buy_run.
  destruct (str_split (str_lower (get_args msg))) as [|coin' [|text [|? ?]]] eqn:Hp;
    try discriminate.
  destruct (dict_get AVAILABLE_COINS coin') as [symbol|] eqn:Hc; [|discriminate].
  destruct (positive_amount text) as [amount|e] eqn:Ha; [|discriminate].
  cbn zeta.
  destruct (gt amount _) as [[|]|e] eqn:Hg; cbn [fst snd store log fresh_world].
  { by destruct (quantize _ _ _). }
  2: discriminate.
  destruct (price_of E symbol) as [price|] eqn:Hpr; [|discriminate].
  rewrite (buy_apply_run _ _ _ _ _ _ (opening_balance s (from_user_id msg)))
    by (cbn [store]; apply ensured_users).
  destruct (div amount price) as [quotient|] eqn:Hd; [|discriminate].
  destruct (quantize quotient _ _) as [ca|] eqn:Hq; [|discriminate].
  destruct (sub _ amount) as [nb|] eqn:Hs; [|discriminate].
  cbn zeta. cbn [store log]. rewrite ensured_portfolio_holding.
  destruct (add _ ca) as [total|] eqn:Hadd; [|discriminate].
  destruct (le total zero) as [np|] eqn:Hle; [|discriminate].
  cbn [fst snd store log].
  destruct (quantize nb _ _) as [sh|] eqn:Hsh; [|discriminate].
  intros [= <- <- <- <-].
  exists text, symbol, price, quotient, nb, total, np.
  do 11 (split; [done|]). unfold buy_stores.
  split; [done|]. rewrite app_nil_l. symmetry. apply app_assoc.
Qed.

(** What a completed sell went through, read off its reply. *)
Lemma sell_executed_inv (E : env) (msg : message) (s : db)
    (coin_amount : Decimal) (coin : string) (usd_gain shown : Decimal) :
  outcome (cmd_sell E msg) s = Ok (Sold coin_amount coin usd_gain shown) ->
  let user_id := from_user_id msg in
  let balance := opening_balance s user_id in
  let have := holding s user_id coin in
  exists text symbol price product rest new_balance nonpositive,
    str_split (str_lower (get_args msg)) = [coin; text] /\
    dict_get AVAILABLE_COINS coin = Some symbol /\
    positive_amount text = Ok coin_amount /\
    gt coin_amount have = Ok false /\
    price_of E symbol = Some price /\
    mul coin_amount price = Ok product /\
    quantize product USD_STEP ROUND_DOWN = Ok usd_gain /\
    sub have coin_amount = Ok rest /\
    le rest zero = Ok nonpositive /\
    add balance usd_gain = Ok new_balance /\
    quantize new_balance USD_STEP ROUND_HALF_EVEN = Ok shown /\
    let '(s2, s3, s4) :=
      sell_stores E s user_id coin coin_amount price rest new_balance
        nonpositive in
    final (cmd_sell E msg) s = s4 /\
    events (cmd_sell E msg) s =
      ensure_events s user_id ++ fetch_events symbol
      ++ [EvCommit s2; EvCommit s3; EvCommit s4].
Proof.
  rewrite run_outcome, run_final, run_events, cmd_sell_run.
  destruct (str_split (str_lower (get_args msg))) as [|coin' [|text [|? ?]]] eqn:Hp;
    try discriminate.
  destruct (dict_get AVAILABLE_COINS coin') as [symbol|] eqn:Hc; [|discriminate].
  destruct (positive_amount text) as [amount|e] eqn:Ha; [|discriminate].
  cbn zeta.
  destruct (gt amount _) as [[|]|e] eqn:Hg; cbn [fst snd store log fresh_world];
    try discriminate.
  destruct (price_of E symbol) as [price|] eqn:Hpr; [|discriminate].
  rewrite (sell_apply_run _ _ _ _ _ _ (opening_balance s (from_user_id msg)))
    by (cbn [store]; apply ensured_users).
  destruct (mul amount price) as [product|] eqn:Hm; [|discriminate].
  destruct (quantize product _ _) as [gain|] eqn:Hq; [|discriminate].
  destruct (sub _ amount) as [rest|] eqn:Hs; [|discriminate].
  destruct (le rest zero) as [np|] eqn:Hle; [|discriminate].
  cbn zeta. cbn [store log].
  destruct (add _ gain) as [nb|] eqn:Hadd; [|discriminate].
  cbn [fst snd store log].
  destruct (quantize nb _ _) as [sh|] eqn:Hsh; [|discriminate].
  intros [= <- <- <- <-].
  exists text, symbol, price, product, rest, nb, np.
  do 11 (split; [done|]). unfold sell_stores.
  split; [done|]. rewrite app_nil_l. symmetry. apply app_assoc.
Qed.

End Executed.

(** ** Facts about the decimal arithmetic *)

Lemma ndigits_fuel_pos (fuel : nat) (m : Z) : 1 <= ndigits_fuel fuel m.
Proof.
  revert m. induction fuel as [|f IH]; intros m; simpl; [lia|].
  destruct (m <? 10); [lia|]. specialize (IH (m / 10)). lia.
Qed.

Lemma ndigits_pos (m : Z) : 1 <= ndigits m.
Proof. apply ndigits_fuel_pos. Qed.

Lemma ndigits_fuel_spec (fuel : nat) (m : Z) :
  0 < m -> m < 2 ^ (Z.of_nat fuel + 1) ->
  10 ^ (ndigits_fuel fuel m - 1) <= m < 10 ^ (ndigits_fuel fuel m).
Proof.
  revert m. induction fuel as [|f IH]; intros m Hm Hlt.
  - simpl in *. change (2 ^ 1) with 2 in Hlt. lia.
  - cbn [ndigits_fuel]. destruct (Z.ltb_spec m 10) as [Hs|Hs].
    + change (10 ^ (1 - 1)) with 1. change (10 ^ 1) with 10. lia.
    + assert (H10 : 0 < m / 10) by (apply Z.div_str_pos; lia).
      assert (Hf : m / 10 < 2 ^ (Z.of_nat f + 1)).
      { apply Z.div_lt_upper_bound; [lia|].
        replace (Z.of_nat (S f) + 1) with (Z.succ (Z.of_nat f + 1)) in Hlt by lia.
        rewrite Z.pow_succ_r in Hlt by lia.
        pose proof (Z.pow_pos_nonneg 2 (Z.of_nat f + 1) ltac:(lia) ltac:(lia)).
        lia. }
      specialize (IH (m / 10) H10 Hf).
      pose proof (ndigits_fuel_pos f (m / 10)) as Hn.
      set (n := ndigits_fuel f (m / 10)) in *.
      replace (1 + n - 1) with (Z.succ (n - 1)) by lia.
      replace (1 + n) with (Z.succ n) by lia.
      rewrite !Z.pow_succ_r by lia.
      pose proof (Z.div_mod m 10 ltac:(lia)) as Hdm.
      pose proof (Z.mod_pos_bound m 10 ltac:(lia)) as Hmb.
      pose proof (Z.pow_pos_nonneg 10 (n - 1) ltac:(lia) ltac:(lia)).
      lia.
Qed.

Lemma ndigits_spec (m : Z) :
  0 < m -> 10 ^ (ndigits m - 1) <= m < 10 ^ (ndigits m).
Proof.
  intros Hm. apply ndigits_fuel_spec; [done|].
  rewrite Z2Nat.id by apply Z.log2_nonneg.
  pose proof (Z.log2_spec m Hm). replace (Z.log2 m + 1) with (Z.succ (Z.log2 m)) by lia.
  lia.
Qed.

(** A number below [10^k] has at most [k] digits. *)
Lemma ndigits_le (m k : Z) : 0 <= m -> 1 <= k -> m < 10 ^ k -> ndigits m <= k.
Proof.
  intros Hm Hk Hlt.
  destruct (Z.eq_dec m 0) as [->|Hne]; [change (ndigits 0) with 1; lia|].
  pose proof (ndigits_spec m ltac:(lia)) as [Hlo _].
  destruct (Z.le_gt_cases (ndigits m) k) as [|Hgt]; [done|exfalso].
  assert (10 ^ k <= 10 ^ (ndigits m - 1)) by (apply Z.pow_le_mono_r; lia).
  lia.
Qed.

Lemma ndigits_mono (a b : Z) : 0 <= a <= b -> ndigits a <= ndigits b.
Proof.
  intros [Ha Hab].
  destruct (Z.eq_dec b 0) as [->|Hb].
  { replace a with 0 by lia. lia. }
  pose proof (ndigits_spec b ltac:(lia)) as [_ Hhi].
  pose proof (ndigits_pos b).
  apply ndigits_le; [done | apply ndigits_pos | lia].
Qed.

Lemma round_half_even_bounds (m k : Z) :
  0 <= m -> 0 <= k ->
  m / 10 ^ k <= round_half_even m k <= m / 10 ^ k + 1.
Proof.
  intros Hm Hk. unfold round_half_even.
  destruct (_ || _); lia.
Qed.

(** What [_fix] returns is finite, with the sign it was given, and a zero
    stays a zero. *)
Lemma fix_finite (s : bool) (m e : Z) (d : Decimal) :
  0 <= m -> fix_ s m e = Ok d ->
  exists m' e', d = Finite s m' e' /\ (m = 0 -> m' = 0%N).
Proof.
  intros Hm. unfold fix_.
  destruct (Z.eqb_spec m 0) as [->|Hne].
  { intros [= <-]. eauto. }
  destruct (_ <? _); [discriminate|].
  destruct (e <? _).
  - destruct (prec <? _); destruct (Etop <? _); try discriminate;
      intros [= <-]; eexists _, _; (split; [reflexivity | lia]).
  - intros [= <-]. eexists _, _; (split; [reflexivity | lia]).
Qed.

(** [_fix] changes nothing in a coefficient of at most [prec] digits
    whose exponent is not below [Etiny]. *)
Lemma fix_exact (s : bool) (m e : Z) (d : Decimal) :
  0 < m -> ndigits m <= prec -> Etiny <= e ->
  fix_ s m e = Ok d -> d = Finite s (Z.to_N m) e.
Proof.
  intros Hm Hn He. unfold fix_.
  destruct (Z.eqb_spec m 0) as [->|Hne]; [lia|].
  destruct (_ <? _); [discriminate|].
  destruct (Z.ltb_spec e (Z.max (ndigits m + e - prec) Etiny)) as [Hlt|Hge];
    [lia|].
  by intros [= <-].
Qed.

(** *** Signs and comparisons *)

Lemma pow10_pos (k : Z) : 0 <= k -> 0 < 10 ^ k.
Proof. intros. apply Z.pow_pos_nonneg; lia. Qed.

Lemma sval_nonneg (s : bool) (m : N) :
  is_nonneg (Finite s m 0) = true -> 0 <= sval s m.
Proof.
  unfold sval; simpl. destruct s; simpl; [|lia].
  intros Hm%N.eqb_eq. lia.
Qed.

Lemma nonneg_sval (s : bool) (m : N) :
  s = false \/ m = 0%N -> 0 <= sval s m.
Proof. unfold sval. intros [->| ->]; [lia|]. destruct s; lia. Qed.

Lemma rescale_nonneg (rnd : rounding) (m e exp : Z) :
  0 <= m -> 0 <= rescale rnd m e exp.
Proof.
  intros Hm. unfold rescale. destruct (m =? 0); [lia|].
  destruct (Z.leb_spec exp e) as [Hle|Hgt].
  - pose proof (pow10_pos (e - exp) ltac:(lia)). nia.
  - pose proof (pow10_pos (exp - e) ltac:(lia)).
    destruct rnd.
    + unfold round_down. apply Z.div_pos; lia.
    + pose proof (round_half_even_bounds m (exp - e) Hm ltac:(lia)).
      assert (0 <= m / 10 ^ (exp - e)) by (apply Z.div_pos; lia). lia.
Qed.

Lemma le_zero_false (d : Decimal) :
  le d zero = Ok false -> d = Infinity false \/ is_positive d = true.
Proof.
  destruct d as [s m e|[|]|b]; unfold le, cmp, zero, rbind; try discriminate.
  - intros Hc. right.
    destruct (Z.compare_spec (sval s m * 10 ^ (e - Z.min e 0))
                (sval false 0 * 10 ^ (0 - Z.min e 0))) as [|?|Hcmp];
      try discriminate.
    pose proof (pow10_pos (e - Z.min e 0) ltac:(lia)).
    unfold sval in Hcmp. destruct s.
    + exfalso. nia.
    + apply N.ltb_lt. nia.
  - by left.
Qed.

Lemma le_zero_finite_false (s : bool) (m : N) (e : Z) :
  le (Finite s m e) zero = Ok false -> s = false /\ (0 < m)%N.
Proof.
  intros [Hd|Hd]%le_zero_false; [discriminate|].
  simpl in Hd. destruct s; [discriminate|]. by apply N.ltb_lt in Hd.
Qed.

Lemma positive_amount_inv `{PyText} (text : string) (amount : Decimal) :
  positive_amount text = Ok amount ->
  Decimal_of_str text = Some amount /\ le amount zero = Ok false.
Proof.
  unfold positive_amount. destruct (Decimal_of_str text) as [d|]; [|discriminate].
  destruct (le d zero) as [[|]|] eqn:Hle; simpl; try discriminate.
  by intros [= <-].
Qed.

(** An amount that passed the [try] block and is not above a finite
    value is a finite decimal above zero. *)
Lemma accepted_amount_positive (amount bound : Decimal) :
  le amount zero = Ok false -> is_finite bound = true ->
  gt amount bound = Ok false -> is_positive amount = true.
Proof.
  intros [->|Hp]%le_zero_false Hb Hg; [|done].
  destruct bound; try discriminate.
Qed.

Lemma positive_finite (d : Decimal) :
  is_positive d = true -> exists m e, d = Finite false m e /\ (0 < m)%N.
Proof.
  destruct d as [[|] m e| |]; try discriminate.
  intros Hm%N.ltb_lt. eauto.
Qed.

Lemma nonneg_finite (d : Decimal) :
  is_nonneg d = true ->
  exists s m e, d = Finite s m e /\ (s = false \/ m = 0%N).
Proof.
  destruct d as [s m e| |]; try discriminate. simpl.
  intros [Hs|Hm%N.eqb_eq]%orb_true_iff; eexists _, _, _; split; eauto.
  destruct s; [discriminate | by left].
Qed.

Lemma positive_nonneg (d : Decimal) :
  is_positive d = true -> is_nonneg d = true.
Proof. by destruct d as [[|] m e| |]. Qed.

Lemma add_finite (x y d : Decimal) :
  is_finite x = true -> is_finite y = true -> add x y = Ok d ->
  is_finite d = true.
Proof.
  destruct x as [s1 m1 e1| |]; try discriminate.
  destruct y as [s2 m2 e2| |]; try discriminate.
  intros _ _. unfold add; simpl.
  intros (m' & e' & -> & _)%fix_finite; [done|lia].
Qed.

(** The sum of two values that are not negative is not negative. *)
Lemma add_nonneg (x y d : Decimal) :
  is_nonneg x = true -> is_nonneg y = true -> add x y = Ok d ->
  is_nonneg d = true.
Proof.
  intros (s1 & m1 & e1 & -> & H1)%nonneg_finite
         (s2 & m2 & e2 & -> & H2)%nonneg_finite.
  unfold add; simpl.
  set (k1 := e1 - Z.min e1 e2). set (k2 := e2 - Z.min e1 e2).
  pose proof (pow10_pos k1 ltac:(lia)). pose proof (pow10_pos k2 ltac:(lia)).
  assert (0 <= sval s1 m1) by (by apply nonneg_sval).
  assert (0 <= sval s2 m2) by (by apply nonneg_sval).
  set (z := sval s1 m1 * 10 ^ k1 + sval s2 m2 * 10 ^ k2).
  assert (Hz : 0 <= z) by (unfold z; nia).
  intros (m' & e' & -> & Hm')%fix_finite; [|lia]. simpl.
  destruct (Z.eqb_spec z 0) as [Hz0|Hz0].
  - rewrite Hm' by lia. by rewrite orb_true_r.
  - destruct (Z.ltb_spec z 0); [lia | done].
Qed.

Lemma gt_finite_false (s1 : bool) (m1 : N) (e1 : Z) (s2 : bool) (m2 : N) (e2 : Z) :
  gt (Finite s1 m1 e1) (Finite s2 m2 e2) = Ok false ->
  sval s1 m1 * 10 ^ (e1 - Z.min e1 e2) <= sval s2 m2 * 10 ^ (e2 - Z.min e1 e2).
Proof.
  unfold gt, cmp, rbind.
  destruct (Z.compare_spec (sval s1 m1 * 10 ^ (e1 - Z.min e1 e2))
              (sval s2 m2 * 10 ^ (e2 - Z.min e1 e2)));
    try discriminate; lia.
Qed.

Lemma sval_negb (s : bool) (m : N) : sval (negb s) m = - sval s m.
Proof. unfold sval. destruct s; simpl; lia. Qed.

(** Taking a positive amount that is not above [x] away from [x] leaves
    a value that is not negative. *)
Lemma sub_nonneg (x y d : Decimal) :
  is_finite x = true -> is_positive y = true -> gt y x = Ok false ->
  sub x y = Ok d -> is_nonneg d = true.
Proof.
  destruct x as [s1 m1 e1| |]; try discriminate. intros _.
  intros (m2 & e2 & -> & Hm2)%positive_finite Hg%gt_finite_false.
  unfold sub, add; simpl. rewrite Z.min_comm in Hg.
  set (k1 := e1 - Z.min e1 e2) in *. set (k2 := e2 - Z.min e1 e2) in *.
  change (- Z.of_N m2) with (sval true m2).
  set (z := sval s1 m1 * 10 ^ k1 + sval true m2 * 10 ^ k2).
  assert (Hz : 0 <= z) by (unfold z, sval in *; simpl in *; lia).
  intros (m' & e' & -> & Hm')%fix_finite; [|lia]. simpl.
  destruct (Z.eqb_spec z 0) as [Hz0|Hz0].
  - destruct (N.eqb_spec m2 0); [lia|]. by rewrite andb_false_r.
  - destruct (Z.ltb_spec z 0); [lia | done].
Qed.

Lemma sub_finite (x y d : Decimal) :
  is_finite x = true -> is_finite y = true -> sub x y = Ok d ->
  is_finite d = true.
Proof.
  destruct x as [s1 m1 e1| |]; try discriminate.
  destruct y as [s2 m2 e2| |]; try discriminate.
  intros _ _. unfold sub, add; simpl.
  intros (m' & e' & -> & _)%fix_finite; [done|lia].
Qed.

(** [quantize] returns a finite value of the sign of its argument, or a
    quiet NaN for a quiet NaN. *)
Lemma quantize_cases (x d : Decimal) (exp : Z) (rnd : rounding) :
  quantize x exp rnd = Ok d ->
  (x = NaN false /\ d = NaN false) \/
  exists s m e m' e', x = Finite s m e /\ d = Finite s m' e' /\
                      (m = 0%N -> m' = 0%N).
Proof.
  destruct x as [s m e|[|]|[|]]; simpl; try discriminate.
  2: { intros [= <-]. by left. }
  intros Hq. right.
  destruct (negb _); [discriminate|].
  destruct (Z.eqb_spec (Z.of_N m) 0) as [Hm|Hm].
  - apply fix_finite in Hq as (m' & e' & -> & Hm'); [|lia].
    eexists _, _, _, _, _. split; [done|]. split; [done|]. auto.
  - destruct (Emax <? _); [discriminate|].
    destruct (prec <? _); [discriminate|].
    destruct (Emax <? _); [discriminate|].
    destruct (prec <? _); [discriminate|].
    apply fix_finite in Hq as (m' & e' & -> & Hm').
    + eexists _, _, _, _, _. split; [done|]. split; [done|]. lia.
    + apply rescale_nonneg. lia.
Qed.

(** ** C3: the solvency invariant *)

Section Invariant.
Context `{PyText}.

Lemma ledger_ok_empty : ledger_ok empty_db.
Proof. split; apply map_Forall_empty. Qed.

Lemma ledger_ok_ensured (s : db) (user_id : Z) :
  ledger_ok s -> ledger_ok (ensured s user_id).
Proof.
  intros [Hu Hp]. unfold ensured.
  destruct (users s !! user_id); [done|].
  split; [|done]. simpl. by apply map_Forall_insert_2.
Qed.

Lemma ledger_ok_update_balance (s : db) (user_id : Z) (b : Decimal) :
  ledger_ok s -> is_nonneg b = true ->
  ledger_ok (sql_update_balance user_id b s).
Proof.
  intros [Hu Hp] Hb. split; [|done]. simpl.
  intros u x. rewrite lookup_alter.
  destruct (decide (user_id = u)) as [->|Hne].
  - destruct (users s !! u); simpl; [by intros [= <-] | done].
  - apply Hu.
Qed.

Lemma holdings_ok_write (s : db) (user_id : Z) (coin : string)
    (amount : Decimal) (nonpositive : bool) :
  holdings_ok s -> (nonpositive = false -> is_positive amount = true) ->
  holdings_ok (write_holding user_id coin amount nonpositive s).
Proof.
  intros Hp Ha. destruct nonpositive; simpl.
  - by apply map_Forall_delete.
  - apply map_Forall_insert_2; auto.
Qed.

Lemma ledger_ok_write (s : db) (user_id : Z) (coin : string)
    (amount : Decimal) (nonpositive : bool) :
  ledger_ok s -> (nonpositive = false -> is_positive amount = true) ->
  ledger_ok (write_holding user_id coin amount nonpositive s).
Proof.
  intros [Hu Hp] Ha. split.
  - by rewrite write_holding_users.
  - by apply holdings_ok_write.
Qed.

Lemma ledger_ok_history (s : db) t u a c x p :
  ledger_ok s -> ledger_ok (sql_insert_history t u a c x p s).
Proof. by intros [Hu Hp]. Qed.

Lemma ledger_ok_opening (s : db) (user_id : Z) :
  ledger_ok s -> is_nonneg (opening_balance s user_id) = true.
Proof.
  intros [Hu _]. unfold opening_balance.
  destruct (users s !! user_id) eqn:E; [by apply (Hu _ _ E) | done].
Qed.

Lemma holdings_ok_holding (s : db) (user_id : Z) (coin : string) :
  holdings_ok s ->
  holding s user_id coin = zero \/ is_positive (holding s user_id coin) = true.
Proof.
  intros Hp. unfold holding.
  destruct (portfolio s !! (user_id, coin)) eqn:E; simpl; [|by left].
  right. by apply (Hp _ _ E).
Qed.

Lemma holding_finite (s : db) (user_id : Z) (coin : string) :
  holdings_ok s -> is_finite (holding s user_id coin) = true.
Proof.
  intros [->|(m & e & -> & _)%positive_finite]%(holdings_ok_holding _ user_id coin);
    done.
Qed.

Lemma nonneg_is_finite (d : Decimal) : is_nonneg d = true -> is_finite d = true.
Proof. by destruct d. Qed.

(** The amount [update_portfolio] stores is a finite amount above zero. *)
Lemma stored_total_positive (have coin_amount quotient total : Decimal) :
  is_finite have = true ->
  quantize quotient COIN_STEP ROUND_DOWN = Ok coin_amount ->
  add have coin_amount = Ok total ->
  le total zero = Ok false -> is_positive total = true.
Proof.
  intros Hh Hq Ha Hle.
  apply quantize_cases in Hq as [[_ ->]|(s & m & e & m' & e' & _ & -> & _)].
  - destruct have; try discriminate. simpl in Ha. injection Ha as <-.
    discriminate.
  - apply add_finite in Ha; [|done|done].
    apply le_zero_false in Hle as [->|]; [discriminate | done].
Qed.

Lemma stored_rest_positive (have coin_amount rest : Decimal) :
  is_finite have = true -> le coin_amount zero = Ok false ->
  gt coin_amount have = Ok false ->
  sub have coin_amount = Ok rest ->
  le rest zero = Ok false -> is_positive rest = true.
Proof.
  intros Hh Hpos Hg Hs Hle.
  pose proof (accepted_amount_positive _ _ Hpos Hh Hg) as Hq.
  apply positive_finite in Hq as (m & e & -> & _).
  apply sub_finite in Hs; [|done|done].
  apply le_zero_false in Hle as [->|]; [discriminate | done].
Qed.

(** The proceeds of a sell at a harmless price are not negative. *)
Lemma gain_nonneg (coin_amount price product usd_gain : Decimal) :
  is_positive coin_amount = true -> harmless_price price = true ->
  mul coin_amount price = Ok product ->
  quantize product USD_STEP ROUND_DOWN = Ok usd_gain ->
  is_nonneg usd_gain = true.
Proof.
  intros (m & e & -> & Hm)%positive_finite Hp Hmul Hq.
  destruct price as [sp mp ep|sp|[|]]; try discriminate.
  - unfold mul in Hmul; simpl in Hmul.
    apply fix_finite in Hmul as (m' & e' & -> & Hm'); [|lia].
    apply quantize_cases in Hq as [[? _]|(s & m0 & e0 & m1 & e1 & Heq & -> & Hz)];
      [discriminate|].
    injection Heq as <- <- <-. simpl.
    destruct sp; [|done]. simpl in Hp. apply N.eqb_eq in Hp. subst mp.
    rewrite Hz; [done|]. apply Hm'. lia.
  - unfold mul in Hmul; simpl in Hmul.
    destruct (N.eqb_spec m 0); [lia|]. injection Hmul as <-. discriminate.
Qed.

End Invariant.

Section InvariantRuns.
Context `{PyText}.

Lemma committed_ok_app (I : db -> Prop) (l1 l2 : list event) :
  committed_ok I (l1 ++ l2) <-> committed_ok I l1 /\ committed_ok I l2.
Proof. unfold committed_ok. rewrite commits_app. apply Forall_app. Qed.

Lemma committed_ok_ensure (I : db -> Prop) (s : db) (user_id : Z) :
  I (ensured s user_id) -> committed_ok I (ensure_events s user_id).
Proof.
  intros Hi. unfold committed_ok, ensure_events.
  destruct (users s !! user_id); simpl; auto.
Qed.

Lemma committed_ok_fetch (I : db -> Prop) (symbol : string) :
  committed_ok I (fetch_events symbol).
Proof. unfold committed_ok. rewrite commits_fetch. constructor. Qed.

Ltac commits_ok :=
  unfold committed_ok; cbn [commits];
  repeat (apply Forall_cons_2; [cbn beta; try done|]); try apply Forall_nil_2.

Lemma buy_apply_keeps (E : env) (user_id : Z) (coin : string)
    (usd_amount : Decimal) (price : Decimal) (w : world) :
  world_ok ledger_ok w ->
  is_Some (users (store w) !! user_id) ->
  le usd_amount zero = Ok false ->
  gt usd_amount (opening_balance (store w) user_id) = Ok false ->
  world_ok ledger_ok
    (buy_apply E user_id coin usd_amount
       (opening_balance (store w) user_id) price w).2.
Proof.
  intros [Hs Hl] [b Hb] Hpos Hg.
  rewrite (buy_apply_run _ _ _ _ _ _ b) by done.
  destruct (div _ _) as [quotient|]; [|done].
  destruct (quantize quotient _ _) as [coin_amount|] eqn:Hq; [|done].
  destruct (sub _ _) as [new_balance|] eqn:Hsub; [|done].
  cbn zeta.
  pose proof (ledger_ok_opening _ user_id Hs) as Hnn.
  assert (Hfin : is_finite (opening_balance (store w) user_id) = true)
    by (by apply nonneg_is_finite).
  assert (Hnb : is_nonneg new_balance = true).
  { eapply sub_nonneg; [exact Hfin | | exact Hg | exact Hsub].
    eapply accepted_amount_positive; eauto. }
  assert (H2 : ledger_ok (sql_update_balance user_id new_balance (store w)))
    by (by apply ledger_ok_update_balance).
  assert (Hw2 : world_ok ledger_ok
    {| store := sql_update_balance user_id new_balance (store w);
       log := log w ++
         [EvCommit (sql_update_balance user_id new_balance (store w))] |}).
  { split; [done|]. cbn [log]. apply committed_ok_app. split; [done|].
    commits_ok. }
  destruct (add _ _) as [total|] eqn:Hadd; [|done].
  destruct (le total zero) as [nonpositive|] eqn:Hle; [|done].
  cbn [snd].
  assert (H3 : ledger_ok (write_holding user_id coin total nonpositive
             (sql_update_balance user_id new_balance (store w)))).
  { apply ledger_ok_write; [done|]. intros ->.
    eapply stored_total_positive; [|exact Hq|exact Hadd|exact Hle].
    apply holding_finite, Hs. }
  split; cbn [store log].
  - by apply ledger_ok_history.
  - apply committed_ok_app. split; [done|].
    commits_ok; by apply ledger_ok_history.
Qed.

Lemma sell_apply_keeps (E : env) (user_id : Z) (coin : string)
    (coin_amount : Decimal) (price : Decimal) (w : world) :
  world_ok ledger_ok w ->
  is_Some (users (store w) !! user_id) ->
  harmless_price price = true ->
  le coin_amount zero = Ok false ->
  gt coin_amount (holding (store w) user_id coin) = Ok false ->
  world_ok ledger_ok
    (sell_apply E user_id coin coin_amount
       (holding (store w) user_id coin) price w).2.
Proof.
  intros [Hs Hl] [b Hb] Hprice Hpos Hg.
  rewrite (sell_apply_run _ _ _ _ _ _ b) by done.
  destruct (mul _ _) as [product|] eqn:Hmul; [|done].
  destruct (quantize product _ _) as [usd_gain|] eqn:Hq; [|done].
  destruct (sub _ _) as [rest|] eqn:Hsub; [|done].
  destruct (le rest zero) as [nonpositive|] eqn:Hle; [|done].
  cbn zeta.
  assert (Hfin : is_finite (holding (store w) user_id coin) = true)
    by apply holding_finite, Hs.
  assert (H2 : ledger_ok (write_holding user_id coin rest nonpositive (store w))).
  { apply ledger_ok_write; [done|]. intros ->.
    exact (stored_rest_positive _ _ _ Hfin Hpos Hg Hsub Hle). }
  assert (Hw2 : committed_ok ledger_ok
    (log w ++ [EvCommit (write_holding user_id coin rest nonpositive (store w))])).
  { apply committed_ok_app. split; [done|]. commits_ok. }
  destruct (add _ _) as [new_balance|] eqn:Hadd; [|done].
  cbn [snd].
  assert (Hnb : is_nonneg new_balance = true).
  { eapply add_nonneg; [| |exact Hadd].
    - destruct Hs as [Hu _]. by apply (Hu _ _ Hb).
    - eapply gain_nonneg; [|exact Hprice|exact Hmul|exact Hq].
      eapply accepted_amount_positive; eauto. }
  assert (H3 : ledger_ok (sql_update_balance user_id new_balance
             (write_holding user_id coin rest nonpositive (store w))))
    by (by apply ledger_ok_update_balance).
  split; cbn [store log].
  - by apply ledger_ok_history.
  - apply committed_ok_app. split; [done|].
    commits_ok; by apply ledger_ok_history.
Qed.

Lemma ensured_world_ok (w : world) (user_id : Z) (l : list event) :
  world_ok ledger_ok w -> committed_ok ledger_ok l ->
  world_ok ledger_ok
    {| store := ensured (store w) user_id;
       log := (log w ++ ensure_events (store w) user_id) ++ l |}.
Proof.
  intros [Hs Hl] Hl'. split; cbn [store log].
  - by apply ledger_ok_ensured.
  - apply committed_ok_app. split; [|done].
    apply committed_ok_app. split; [done|].
    by apply committed_ok_ensure, ledger_ok_ensured.
Qed.

Lemma ensured_world_ok' (w : world) (user_id : Z) :
  world_ok ledger_ok w ->
  world_ok ledger_ok
    {| store := ensured (store w) user_id;
       log := log w ++ ensure_events (store w) user_id |}.
Proof.
  intros Hw. pose proof (ensured_world_ok w user_id [] Hw) as Hx.
  rewrite app_nil_r in Hx. apply Hx. constructor.
Qed.

(** A handler keeps the invariant in the store and in every store it
    commits on the way, whatever its outcome. *)
Lemma handle_keeps (r : request) (w : world) :
  harmless_env (env_of r) ->
  world_ok ledger_ok w -> world_ok ledger_ok (handle r w).2.
Proof.
  intros He Hw. destruct r as [E msg|E msg]; cbn [handle env_of] in *.
  - rewrite cmd_buy_run.
    destruct (str_split _) as [|coin [|text [|? ?]]]; try done.
    destruct (dict_get _ _) as [symbol|]; [|done].
    destruct (positive_amount text) as [amount|] eqn:Ha; [|done].
    apply positive_amount_inv in Ha as [_ Hpos].
    cbn zeta.
    destruct (gt amount _) as [[|]|] eqn:Hg; cbn [snd store log];
      try (by apply ensured_world_ok').
    destruct (price_of E symbol) as [price|] eqn:Hp.
    + rewrite <- (ensured_opening (store w) (from_user_id msg)) in Hg |- *.
      apply (buy_apply_keeps E (from_user_id msg) coin amount price
               {| store := ensured (store w) (from_user_id msg);
                  log := (log w ++ ensure_events (store w) (from_user_id msg))
                         ++ fetch_events symbol |}).
      * apply ensured_world_ok; [done | apply committed_ok_fetch].
      * cbn [store]. rewrite ensured_users. eauto.
      * done.
      * done.
    + apply ensured_world_ok; [done | apply committed_ok_fetch].
  - rewrite cmd_sell_run.
    destruct (str_split _) as [|coin [|text [|? ?]]]; try done.
    destruct (dict_get _ _) as [symbol|]; [|done].
    destruct (positive_amount text) as [amount|] eqn:Ha; [|done].
    apply positive_amount_inv in Ha as [_ Hpos].
    cbn zeta.
    destruct (gt amount _) as [[|]|] eqn:Hg; cbn [snd store log];
      try (by apply ensured_world_ok').
    destruct (price_of E symbol) as [price|] eqn:Hp.
    + rewrite <- (ensured_portfolio_holding (store w) (from_user_id msg)) in Hg |- *.
      apply (sell_apply_keeps E (from_user_id msg) coin amount price
               {| store := ensured (store w) (from_user_id msg);
                  log := (log w ++ ensure_events (store w) (from_user_id msg))
                         ++ fetch_events symbol |}).
      * apply ensured_world_ok; [done | apply committed_ok_fetch].
      * cbn [store]. rewrite ensured_users. eauto.
      * by apply (He symbol).
      * done.
      * done.
    + apply ensured_world_ok; [done | apply committed_ok_fetch].
Qed.

End InvariantRuns.

(** C3 (amended). Starting from the empty store, after every sequence of
    buy and sell commands in which no fetched price is a negative number
    or a quiet NaN, every balance is a finite decimal not below zero and
    every stored holding is a finite decimal above zero -- in the final
    store and in every store committed on the way; a holding that would
    be zero or less is deleted, never stored. *)
Theorem ledger_invariant `{PyText} (rs : list request) :
  Forall (fun r => harmless_env (env_of r)) rs ->
  world_ok ledger_ok (run_all rs (fresh_world empty_db)).
Proof.
  assert (Hgen : forall w, world_ok ledger_ok w ->
            Forall (fun r => harmless_env (env_of r)) rs ->
            world_ok ledger_ok (run_all rs w)).
  { induction rs as [|r rs IH]; intros w Hw Hrs; [done|].
    inversion Hrs as [|? ? Hr Hrest]; subst. cbn [run_all].
    apply IH; [|done]. by apply handle_keeps. }
  intros Hrs. apply Hgen; [|done].
  split; [apply ledger_ok_empty | constructor].
Qed.

(** ** C7: the order of the steps *)

Section Order.
Context `{PyText}.

Lemma buy_apply_log E user_id coin usd_amount balance price b w :
  users (store w) !! user_id = Some b ->
  exists writes,
    log (buy_apply E user_id coin usd_amount balance price w).2
      = log w ++ writes
    /\ requests writes = [].
Proof.
  intros Hb. rewrite (buy_apply_run _ _ _ _ _ _ b) by done.
  destruct (div _ _); [|exists []; by rewrite app_nil_r].
  destruct (quantize _ COIN_STEP _); [|exists []; by rewrite app_nil_r].
  destruct (sub _ _); [|exists []; by rewrite app_nil_r].
  cbn zeta.
  destruct (add _ _); [|by eexists].
  destruct (le _ _); by eexists.
Qed.

Lemma sell_apply_log E user_id coin coin_amount have price b w :
  users (store w) !! user_id = Some b ->
  exists writes,
    log (sell_apply E user_id coin coin_amount have price w).2
      = log w ++ writes
    /\ requests writes = [].
Proof.
  intros Hb. rewrite (sell_apply_run _ _ _ _ _ _ b) by done.
  destruct (mul _ _); [|exists []; by rewrite app_nil_r].
  destruct (quantize _ USD_STEP _); [|exists []; by rewrite app_nil_r].
  destruct (sub _ _); [|exists []; by rewrite app_nil_r].
  destruct (le _ _); [|exists []; by rewrite app_nil_r].
  cbn zeta.
  destruct (add _ _); by eexists.
Qed.

Lemma fetch_events_request (symbol sym : string) :
  In sym (requests (fetch_events symbol)) ->
  sym = symbol /\ fetch_events symbol = [EvHttpGet symbol].
Proof.
  unfold fetch_events. destruct (String.eqb symbol "USDTUSDT"); simpl; [done|].
  by intros [<-|[]].
Qed.

End Order.

(** C7 (amended). Both handlers go Validate, CheckSufficiency,
    FetchPrice, Apply, and take no lock: an invalid input ends the
    handler with nothing fetched and nothing written; a failed
    sufficiency check ends it with nothing fetched; a price request is
    sent only once the input is valid and the check has passed, and every
    write of the trade comes after it. *)
Theorem check_precedes_fetch `{PyText} (r : request) (s : db) :
  let ev := events (handle r) s in
  let user_id := from_user_id (msg_of r) in
  (forall a, outcome (handle r) s = Ok a -> is_invalid_input a = true ->
     ev = []) /\
  (forall a, outcome (handle r) s = Ok a -> is_insufficient a = true ->
     ev = ensure_events s user_id /\ requests ev = []) /\
  (forall sym, In sym (requests ev) ->
     exists coin text amount writes,
       parts_of r = [coin; text] /\
       dict_get AVAILABLE_COINS coin = Some sym /\
       positive_amount text = Ok amount /\
       sufficient r s coin amount /\
       ev = ensure_events s user_id ++ [EvHttpGet sym] ++ writes /\
       requests writes = []).
Proof.
  cbn zeta. rewrite run_outcome, run_events.
  destruct r as [E msg|E msg]; unfold parts_of, sufficient; cbn [handle msg_of].
  - rewrite cmd_buy_run.
    destruct (str_split (str_lower (get_args msg))) as [|coin [|text [|? ?]]] eqn:Hp;
      cbn [fst snd store log fresh_world];
      try (split; [done|]; split; [by intros a [= <-]|]; by intros sym []).
    destruct (dict_get AVAILABLE_COINS coin) as [symbol|] eqn:Hc;
      [|split; [done|]; split; [by intros a [= <-]|]; by intros sym []].
    destruct (positive_amount text) as [amount|e] eqn:Ha;
      [|split; [done|]; split; [by intros a [= <-]|]; by intros sym []].
    cbn zeta.
    destruct (gt amount _) as [[|]|e] eqn:Hg; cbn [fst snd store log fresh_world app].
    + split; [|split].
      * intros a Ho. destruct (quantize _ _ _); [|done]. by injection Ho as <-.
      * intros a _ _. split; [done|]. apply requests_ensure.
      * intros sym. by rewrite requests_ensure.
    + assert (Hu : users (ensured s (from_user_id msg)) !! from_user_id msg
                   = Some (opening_balance s (from_user_id msg)))
        by apply ensured_users.
      destruct (price_of E symbol) as [price|] eqn:Hpr.
      * set (w2 := {| store := ensured s (from_user_id msg);
                      log := ensure_events s (from_user_id msg)
                             ++ fetch_events symbol |}).
        destruct (buy_apply_log E (from_user_id msg) coin amount
                    (opening_balance s (from_user_id msg)) price _ w2 Hu)
          as (writes & Hlog & Hreq).
        split; [|split].
        -- intros a Ho Hi. exfalso.
           pose proof (buy_apply_not_rejected _ _ _ _ _ _ _ w2 a Hu Ho) as Hr.
           by destruct a.
        -- intros a Ho Hi. exfalso.
           pose proof (buy_apply_not_rejected _ _ _ _ _ _ _ w2 a Hu Ho) as Hr.
           by destruct a.
        -- rewrite Hlog. cbn [log w2].
           rewrite !requests_app, requests_ensure, Hreq, app_nil_r, app_nil_l.
           intros sym [-> Hf]%fetch_events_request.
           exists coin, text, amount, writes. rewrite Hf.
           split_and!; try done. by rewrite <- app_assoc.
      * cbn [fst snd store log].
        split; [by intros a [= <-]|]. split; [by intros a [= <-]|]. rewrite requests_app, requests_ensure, app_nil_l.
        intros sym [-> Hf]%fetch_events_request.
        exists coin, text, amount, []. rewrite Hf.
        split_and!; try done.
    + split; [done|]. split; [done|]. intros sym. by rewrite requests_ensure.
  - rewrite cmd_sell_run.
    destruct (str_split (str_lower (get_args msg))) as [|coin [|text [|? ?]]] eqn:Hp;
      cbn [fst snd store log fresh_world];
      try (split; [done|]; split; [by intros a [= <-]|]; by intros sym []).
    destruct (dict_get AVAILABLE_COINS coin) as [symbol|] eqn:Hc;
      [|split; [done|]; split; [by intros a [= <-]|]; by intros sym []].
    destruct (positive_amount text) as [amount|e] eqn:Ha;
      [|split; [done|]; split; [by intros a [= <-]|]; by intros sym []].
    cbn zeta.
    destruct (gt amount _) as [[|]|e] eqn:Hg; cbn [fst snd store log fresh_world app].
    + split; [|split].
      * by intros a [= <-].
      * intros a _ _. split; [done|]. apply requests_ensure.
      * intros sym. by rewrite requests_ensure.
    + assert (Hu : users (ensured s (from_user_id msg)) !! from_user_id msg
                   = Some (opening_balance s (from_user_id msg)))
        by apply ensured_users.
      destruct (price_of E symbol) as [price|] eqn:Hpr.
      * set (w2 := {| store := ensured s (from_user_id msg);
                      log := ensure_events s (from_user_id msg)
                             ++ fetch_events symbol |}).
        destruct (sell_apply_log E (from_user_id msg) coin amount
                    (holding s (from_user_id msg) coin) price _ w2 Hu)
          as (writes & Hlog & Hreq).
        split; [|split].
        -- intros a Ho Hi. exfalso.
           pose proof (sell_apply_not_rejected _ _ _ _ _ _ _ w2 a Hu Ho) as Hr.
           by destruct a.
        -- intros a Ho Hi. exfalso.
           pose proof (sell_apply_not_rejected _ _ _ _ _ _ _ w2 a Hu Ho) as Hr.
           by destruct a.
        -- rewrite Hlog. cbn [log w2].
           rewrite !requests_app, requests_ensure, Hreq, app_nil_r, app_nil_l.
           intros sym [-> Hf]%fetch_events_request.
           exists coin, text, amount, writes. rewrite Hf.
           split_and!; try done. by rewrite <- app_assoc.
      * cbn [fst snd store log].
        split; [by intros a [= <-]|]. split; [by intros a [= <-]|]. rewrite requests_app, requests_ensure, app_nil_l.
        intros sym [-> Hf]%fetch_events_request.
        exists coin, text, amount, []. rewrite Hf.
        split_and!; try done.
    + split; [done|]. split; [done|]. intros sym. by rewrite requests_ensure.
Qed.

(** The claim of C7 fails on a buy the account cannot pay: the handler
    answers that the funds are insufficient and has sent no request. *)
Lemma insufficient_buy_fetches_nothing :
  let r := Buy (quote "50000.00" 1700000000) (command 7 "btc 20000") in
  outcome (handle (H := ascii_text) r) empty_db
    = Ok (NotEnoughUsd (Finite false 1000000 (-2))) /\
  requests (events (handle (H := ascii_text) r) empty_db) = [] /\
  ~ @fetch_before_check ascii_text.
Proof.
  split; [vm_compute; reflexivity|]. split; [vm_compute; reflexivity|].
  intros Hclaim.
  apply (Hclaim (Buy (quote "50000.00" 1700000000) (command 7 "btc 20000"))
           empty_db (NotEnoughUsd (Finite false 1000000 (-2)))).
  - vm_compute; reflexivity.
  - reflexivity.
  - vm_compute; reflexivity.
Qed.

(** ** C5: the three writes *)

(** The claim of C5 fails on the first buy of the scenario: the store
    committed by the balance update has the new balance, no holding and
    no history row. *)
Lemma balance_write_is_visible_alone :
  let s2 := sql_update_balance 7 (Finite false 990000 (-2))
              (ensured empty_db 7) in
  In s2 (commits (events (handle (H := ascii_text) first_buy) empty_db)) /\
  users s2 !! 7 = Some (Finite false 990000 (-2)) /\
  portfolio s2 = ∅ /\ history s2 = [] /\
  portfolio after_first_buy !! (7, "btc"%string) = Some (Finite false 20 (-4)) /\
  length (history after_first_buy) = 1%nat /\
  ~ @all_or_nothing ascii_text.
Proof.
  cbn zeta.
  assert (Hin : In (sql_update_balance 7 (Finite false 990000 (-2))
                      (ensured empty_db 7))
                  (commits (events (handle (H := ascii_text) first_buy) empty_db))).
  { assert (Hl : commits (events (handle (H := ascii_text) first_buy) empty_db)
                   !! 1%nat
                 = Some (sql_update_balance 7 (Finite false 990000 (-2))
                           (ensured empty_db 7)))
      by (vm_compute; reflexivity).
    apply list_elem_of_lookup_2 in Hl. by apply list_elem_of_In in Hl. }
  split; [exact Hin|]. split; [vm_compute; reflexivity|].
  split; [vm_compute; reflexivity|]. split; [reflexivity|].
  split; [vm_compute; reflexivity|]. split; [vm_compute; reflexivity|].
  intros Hclaim. destruct (Hclaim first_buy empty_db _ Hin) as [Heq|Heq].
  - apply (f_equal (fun s => users s !! 7)) in Heq. vm_compute in Heq. discriminate.
  - apply (f_equal (fun s => length (history s))) in Heq. vm_compute in Heq.
    discriminate.
Qed.


Section Kinds.
Context `{PyText}.

Lemma buy_apply_reply E user_id coin usd_amount balance price b w a :
  users (store w) !! user_id = Some b ->
  (buy_apply E user_id coin usd_amount balance price w).1 = Ok a ->
  exists coin_amount shown, a = Bought coin_amount coin usd_amount shown.
Proof.
  intros Hb. rewrite (buy_apply_run _ _ _ _ _ _ b) by done.
  destruct (div _ _); [|discriminate].
  destruct (quantize _ COIN_STEP _); [|discriminate].
  destruct (sub _ _); [|discriminate].
  cbn zeta.
  destruct (add _ _); [|discriminate].
  destruct (le _ _); [|discriminate].
  cbn [fst].
  destruct (quantize _ USD_STEP _); [|discriminate].
  intros [= <-]. eauto.
Qed.

Lemma sell_apply_reply E user_id coin coin_amount have price b w a :
  users (store w) !! user_id = Some b ->
  (sell_apply E user_id coin coin_amount have price w).1 = Ok a ->
  exists usd_gain shown, a = Sold coin_amount coin usd_gain shown.
Proof.
  intros Hb. rewrite (sell_apply_run _ _ _ _ _ _ b) by done.
  destruct (mul _ _); [|discriminate].
  destruct (quantize _ USD_STEP ROUND_DOWN); [|discriminate].
  destruct (sub _ _); [|discriminate].
  destruct (le _ _); [|discriminate].
  cbn zeta.
  destruct (add _ _); [|discriminate].
  cbn [fst].
  destruct (quantize _ USD_STEP _); [|discriminate].
  intros [= <-]. eauto.
Qed.

(** A buy never answers [Sold] and a sell never answers [Bought]. *)
Lemma cmd_buy_not_sold (E : env) (msg : message) (s : db) a b c d :
  outcome (cmd_buy E msg) s <> Ok (Sold a b c d).
Proof.
  rewrite run_outcome, cmd_buy_run.
  destruct (str_split _) as [|coin [|text [|? ?]]]; try discriminate.
  destruct (dict_get _ _); [|discriminate].
  destruct (positive_amount text); [|discriminate].
  cbn zeta.
  destruct (gt _ _) as [[|]|]; cbn [fst]; [| |discriminate].
  - by destruct (quantize _ _ _).
  - destruct (price_of _ _); [|discriminate].
    intros Ho. eapply buy_apply_reply in Ho as (? & ? & [=]).
    cbn [store]. apply ensured_users.
Qed.

Lemma cmd_sell_not_bought (E : env) (msg : message) (s : db) a b c d :
  outcome (cmd_sell E msg) s <> Ok (Bought a b c d).
Proof.
  rewrite run_outcome, cmd_sell_run.
  destruct (str_split _) as [|coin [|text [|? ?]]]; try discriminate.
  destruct (dict_get _ _); [|discriminate].
  destruct (positive_amount text); [|discriminate].
  cbn zeta.
  destruct (gt _ _) as [[|]|]; cbn [fst]; try discriminate.
  destruct (price_of _ _); [|discriminate].
  intros Ho. eapply sell_apply_reply in Ho as (? & ? & [=]).
  cbn [store]. apply ensured_users.
Qed.

End Kinds.
(** C5 (amended). A trade that completes has made its three writes as
    three statements, each committed on its own, in the order balance,
    holding, history for a buy and holding, balance, history for a sell:
    the store after the first and the one after the second are committed
    stores that hold only part of the trade.  Sufficiency is checked once,
    before the price is fetched; nothing is checked again at the writes
    and no transaction encloses them. *)
Theorem trade_commits_three_writes `{PyText} (r : request) (s : db) (a : reply) :
  outcome (handle r) s = Ok a ->
  is_executed a = true ->
  let user_id := from_user_id (msg_of r) in
  exists s2 s3 s4 coin amount,
    commits (events (handle r) s)
      = commits (ensure_events s user_id) ++ [s2; s3; s4] /\
    final (handle r) s = s4 /\
    sufficient r s coin amount /\
    history s2 = history s /\ history s3 = history s /\
    (exists row, history s4 = history s ++ [row]) /\
    users s4 = users s3 /\ portfolio s4 = portfolio s3 /\
    match r with
    | Buy _ _ =>
        (exists b, s2 = sql_update_balance user_id b (ensured s user_id)) /\
        portfolio s2 = portfolio s /\ users s3 = users s2
    | Sell _ _ =>
        users s2 = users (ensured s user_id) /\
        (exists b, s3 = sql_update_balance user_id b s2) /\
        portfolio s3 = portfolio s2
    end.
Proof.
  intros Ho Ha. destruct r as [E msg|E msg]; cbn [handle msg_of] in *.
  - destruct a; try discriminate; [|by apply cmd_buy_not_sold in Ho].
    apply buy_executed_inv in Ho
      as (text & symbol & price & quotient & nb & total & np & Hp & Hc & Hamt
          & Hg & Hpr & Hd & Hq & Hs & Hadd & Hle & Hsh & Hst).
    unfold buy_stores in Hst. destruct Hst as [Hfin Hev].
    eexists _, _, _, coin, usd_amount. rewrite Hev, Hfin.
    rewrite !commits_app, commits_fetch. cbn [commits app].
    split_and!; try done.
    + cbn. apply (proj1 (ensured_history s _)).
    + destruct np; cbn; apply (proj1 (ensured_history s _)).
    + eexists. destruct np; cbn; by rewrite (proj1 (ensured_history s _)).
    + by eexists.
    + cbn. apply ensured_portfolio.
    + by rewrite write_holding_users.
  - destruct a; try discriminate; [by apply cmd_sell_not_bought in Ho|].
    apply sell_executed_inv in Ho
      as (text & symbol & price & product & rest & nb & np & Hp & Hc & Hamt
          & Hg & Hpr & Hm & Hq & Hs & Hle & Hadd & Hsh & Hst).
    unfold sell_stores in Hst. destruct Hst as [Hfin Hev].
    eexists _, _, _, coin, coin_amount. rewrite Hev, Hfin.
    rewrite !commits_app, commits_fetch. cbn [commits app].
    split_and!; try done.
    + destruct np; cbn; apply (proj1 (ensured_history s _)).
    + destruct np; cbn; apply (proj1 (ensured_history s _)).
    + eexists. destruct np; cbn; by rewrite (proj1 (ensured_history s _)).
    + by rewrite write_holding_users.
    + by eexists.
Qed.

(** ** C4: rejected trades, from the cause to the reply *)

Lemma fix_ok (s : bool) (m e : Z) :
  0 <= m -> ndigits m <= prec -> Etiny <= e <= Etop ->
  exists d, fix_ s m e = Ok d.
Proof.
  intros Hm Hn He. unfold fix_.
  destruct (m =? 0); [by eexists|].
  destruct (Z.ltb_spec Etop (ndigits m + e - prec)); [lia|].
  destruct (Z.ltb_spec e (Z.max (ndigits m + e - prec) Etiny)); [lia|].
  by eexists.
Qed.

(** A balance below [10^25] in magnitude can be shown at 2 places. *)
Lemma quantize_shows (b : Decimal) :
  shows_to_cents b = true ->
  exists shown, quantize b USD_STEP ROUND_HALF_EVEN = Ok shown.
Proof.
  destruct b as [s m e| |]; try discriminate. cbn [shows_to_cents].
  intros Hb. unfold quantize, USD_STEP.
  change (negb ((Etiny <=? -2) && (-2 <=? Emax))) with false. cbv iota.
  destruct (Z.eqb_spec (Z.of_N m) 0) as [Hz|Hz].
  { apply fix_ok; [lia | by vm_compute | by vm_compute]. }
  apply orb_true_iff in Hb as [Hb%N.eqb_eq|Hb%Z.leb_le]; [lia|].
  pose proof (ndigits_spec (Z.of_N m) ltac:(lia)) as [Hlo Hhi].
  pose proof (ndigits_pos (Z.of_N m)) as Hnd.
  set (nd := ndigits (Z.of_N m)) in *.
  destruct (Z.ltb_spec Emax (nd + e - 1)); [unfold Emax in *; lia|].
  destruct (Z.ltb_spec prec (nd + e - 1 - -2 + 1)); [unfold prec in *; lia|].
  assert (Hc : 0 <= rescale ROUND_HALF_EVEN (Z.of_N m) e (-2) < 10 ^ 28).
  { split; [apply rescale_nonneg; lia|].
    unfold rescale. destruct (Z.eqb_spec (Z.of_N m) 0) as [|_]; [lia|].
    destruct (Z.leb_spec (-2) e) as [Hk|Hk].
    - assert (Z.of_N m * 10 ^ (e - -2) < 10 ^ nd * 10 ^ (e - -2)).
      { apply Z.mul_lt_mono_pos_r; [apply pow10_pos; lia|done]. }
      rewrite <- Z.pow_add_r in H1 by lia.
      assert (10 ^ (nd + (e - -2)) <= 10 ^ 28)
        by (apply Z.pow_le_mono_r; lia).
      lia.
    - pose proof (round_half_even_bounds (Z.of_N m) (-2 - e)
                    ltac:(lia) ltac:(lia)) as [_ Hup].
      assert (Z.of_N m / 10 ^ (-2 - e) < 10 ^ 27); [|lia].
      apply Z.div_lt_upper_bound; [apply pow10_pos; lia|].
      rewrite <- Z.pow_add_r by lia.
      eapply Z.lt_le_trans; [exact Hhi|].
      apply Z.pow_le_mono_r; lia. }
  set (c := rescale ROUND_HALF_EVEN (Z.of_N m) e (-2)) in *.
  assert (Hcn : ndigits c <= 28) by (apply ndigits_le; lia).
  pose proof (ndigits_pos c).
  destruct (Z.ltb_spec Emax (ndigits c + -2 - 1)); [unfold Emax in *; lia|].
  destruct (Z.ltb_spec prec (ndigits c)); [unfold prec in *; lia|].
  apply fix_ok; [lia | done | by vm_compute].
Qed.

Lemma malformed_trade `{PyText} (r : request) (s : db) :
  length (parts_of r) <> 2%nat ->
  outcome (handle r) s = Ok (usage_reply r) /\
  final (handle r) s = s /\ events (handle r) s = [].
Proof.
  intros Hlen. rewrite run_outcome, run_final, run_events.
  unfold parts_of in Hlen.
  destruct r as [E msg|E msg]; cbn [handle msg_of usage_reply] in *.
  - rewrite cmd_buy_run.
    by destruct (str_split _) as [|? [|? [|? ?]]].
  - rewrite cmd_sell_run.
    by destruct (str_split _) as [|? [|? [|? ?]]].
Qed.

(** C4 (amended).  From the cause to the reply: a command that is not
    two words gets the usage reply, an unknown coin and a refused amount
    their replies, all three with nothing written and nothing fetched;
    an amount above the holding gets "not enough coin", an amount above
    the balance "not enough USD" -- unless the balance cannot be shown at
    2 places within 28 digits, when the handler raises instead, which
    cannot happen for a balance below [10^25]; a sufficient trade that
    gets no price gets "no price".  From the reply to the cause: every
    failure reply was given for its cause.  A rejected trade leaves every
    balance that existed, every holding and the history as they were;
    the only write it can make, and makes whenever the command passed
    validation, is the creation of the account of a new user with
    10000.00 by [ensure_user]. *)
Theorem rejected_trade_changes_nothing `{PyText} (r : request) (s : db) :
  let user_id := from_user_id (msg_of r) in
  let s' := final (handle r) s in
  let created := ensured s user_id in
  (length (parts_of r) <> 2%nat ->
     outcome (handle r) s = Ok (usage_reply r) /\ s' = s /\
     events (handle r) s = []) /\
  (forall coin text, parts_of r = [coin; text] ->
     match dict_get AVAILABLE_COINS coin with
     | None =>
         outcome (handle r) s = Ok UnknownCoin /\ s' = s /\
         events (handle r) s = []
     | Some symbol =>
         match positive_amount text with
         | Raise _ =>
             outcome (handle r) s = Ok (bad_amount_reply r) /\ s' = s /\
             events (handle r) s = []
         | Ok amount =>
             match gt amount (available r s coin) with
             | Raise e =>
                 outcome (handle r) s = Raise e /\ s' = created /\
                 events (handle r) s = ensure_events s user_id
             | Ok true =>
                 outcome (handle r) s
                 = match r with
                   | Buy _ _ =>
                       rbind (quantize (opening_balance s user_id) USD_STEP
                                ROUND_HALF_EVEN)
                             (fun shown => Ok (NotEnoughUsd shown))
                   | Sell _ _ =>
                       Ok (NotEnoughCoin coin (holding s user_id coin))
                   end /\
                 (shows_to_cents (opening_balance s user_id) = true ->
                    exists a, outcome (handle r) s = Ok a /\
                      is_insufficient a = true) /\
                 s' = created /\
                 events (handle r) s = ensure_events s user_id
             | Ok false =>
                 price_of (env_of r) symbol = None ->
                 outcome (handle r) s = Ok PriceFailed /\ s' = created /\
                 events (handle r) s
                 = ensure_events s user_id ++ fetch_events symbol
             end
         end
     end) /\
  (forall a, outcome (handle r) s = Ok a -> is_rejection a = true ->
     rejection_cause r s a /\
     (forall u, opening_balance s' u = opening_balance s u) /\
     portfolio s' = portfolio s /\
     history s' = history s /\
     (s' = s \/ s' = created) /\
     Forall (fun c => c = created) (commits (events (handle r) s)) /\
     (is_invalid_input a = true -> s' = s /\ events (handle r) s = [])) /\
  (is_Some (users s !! user_id) -> created = s) /\
  (users s !! user_id = None ->
     users created = <[user_id := INITIAL_USD_BALANCE]> (users s)) /\
  (forall u, u <> user_id -> users created !! u = users s !! u) /\
  portfolio created = portfolio s /\
  history created = history s.
Proof.
  cbn zeta.
  split; [apply malformed_trade|]. split.
  { intros coin text Hp. rewrite run_outcome, run_final, run_events.
    unfold parts_of in Hp.
    destruct r as [E msg|E msg]; cbn [handle msg_of env_of available
                                        bad_amount_reply] in *.
    - rewrite cmd_buy_run, Hp.
      destruct (dict_get AVAILABLE_COINS coin) as [symbol|]; [|done].
      destruct (positive_amount text) as [amount|e]; [|done].
      cbn zeta. cbn [store log fresh_world app].
      destruct (gt amount _) as [[|]|e]; [| |done].
      + cbn [fst snd store log]. split; [done|]. split; [|done].
        intros [shown ->]%quantize_shows. by eexists.
      + intros ->. done.
    - rewrite cmd_sell_run, Hp.
      destruct (dict_get AVAILABLE_COINS coin) as [symbol|]; [|done].
      destruct (positive_amount text) as [amount|e]; [|done].
      cbn zeta. cbn [store log fresh_world app].
      destruct (gt amount _) as [[|]|e]; [| |done].
      + cbn [fst snd store log]. split; [done|]. split; [|done].
        intros _. by eexists.
      + intros ->. done. }
  split; [intros a Ho Ha; exact (rejection_inv r s a Ho Ha)|].
  split.
  { intros [b Hb]. unfold ensured. by rewrite Hb. }
  split.
  { intros Hn. unfold ensured. by rewrite Hn. }
  split.
  { intros u Hu. unfold ensured. destruct (users s !! _); [done|].
    cbn. by rewrite lookup_insert_ne. }
  split; [apply ensured_portfolio | apply ensured_history].
Qed.

(** ** Concrete instances *)

Lemma quote_harmless (text : string) (t : Z) (d : Decimal) :
  ascii_decimal text = Some d -> harmless_price d = true ->
  @harmless_env ascii_text (quote text t).
Proof.
  intros Hd Hh symbol p. unfold price_of.
  destruct (String.eqb symbol "USDTUSDT"); [by intros [= <-]|].
  cbn. rewrite Hd. cbn. by intros [= <-].
Qed.

(** C4 fails in both of its halves.  After two rounds of trades at the
    prices 1E-19 and 990, none negative, the balance of user 7 is
    197999999999999999999990000.0; a buy of 1E+30 USD is then refused
    for lack of funds, yet the handler ends with InvalidOperation in
    place of the reply, since the balance cannot be shown at 2 places.
    And the first command of a user, refused for lack of funds, writes
    the account: the balance [get_usd_balance] reads goes from 0 to
    10000.00. *)
Lemma refused_buy_raises :
  Forall (fun r => @harmless_env ascii_text (env_of r)) rich_trades /\
  users rich_store !! 7
    = Some (Finite false 1979999999999999999999900000 (-1)) /\
  @parts_of ascii_text overbid = ["btc"; "1e30"]%string /\
  dict_get AVAILABLE_COINS "btc" = Some "BTCUSDT"%string /\
  @positive_amount ascii_text "1e30" = Ok (Finite false 1 30) /\
  gt (Finite false 1 30) (available overbid rich_store "btc") = Ok true /\
  outcome (handle (H := ascii_text) overbid) rich_store
    = Raise InvalidOperation /\
  users empty_db !! 7 = None /\
  outcome (get_usd_balance 7) empty_db = Ok zero /\
  outcome (handle (H := ascii_text) first_overbid) empty_db
    = Ok (NotEnoughUsd (Finite false 1000000 (-2))) /\
  outcome (get_usd_balance 7)
    (final (handle (H := ascii_text) first_overbid) empty_db)
    = Ok (Finite false 1000000 (-2)).
Proof.
  assert (Hh : Forall (fun r => @harmless_env ascii_text (env_of r))
                 rich_trades).
  { unfold rich_trades.
    repeat (apply Forall_cons_2; [|]); [| | | |apply Forall_nil_2].
    - apply (quote_harmless _ _ (Finite false 1 (-19))); reflexivity.
    - apply (quote_harmless _ _ (Finite false 990 0)); reflexivity.
    - apply (quote_harmless _ _ (Finite false 1 (-19))); reflexivity.
    - apply (quote_harmless _ _ (Finite false 990 0)); reflexivity. }
  assert (H1 : users rich_store !! 7
               = Some (Finite false 1979999999999999999999900000 (-1)))
    by (vm_compute; reflexivity).
  assert (H2 : gt (Finite false 1 30) (available overbid rich_store "btc")
               = Ok true) by (vm_compute; reflexivity).
  assert (H3 : outcome (handle (H := ascii_text) overbid) rich_store
               = Raise InvalidOperation) by (vm_compute; reflexivity).
  assert (H4 : outcome (handle (H := ascii_text) first_overbid) empty_db
               = Ok (NotEnoughUsd (Finite false 1000000 (-2))))
    by (vm_compute; reflexivity).
  assert (H5 : outcome (get_usd_balance 7)
                 (final (handle (H := ascii_text) first_overbid) empty_db)
               = Ok (Finite false 1000000 (-2)))
    by (vm_compute; reflexivity).
  split; [exact Hh|]. split; [exact H1|].
  split; [reflexivity|]. split; [reflexivity|]. split; [reflexivity|].
  split; [exact H2|]. split; [exact H3|].
  split; [reflexivity|]. split; [reflexivity|].
  split; [exact H4|exact H5].
Qed.

Lemma ledger_invariant_witness :
  Forall (fun r => @harmless_env ascii_text (env_of r)) [first_buy; first_sell] /\
  world_ok ledger_ok
    (run_all (H := ascii_text) [first_buy; first_sell] (fresh_world empty_db)).
Proof.
  assert (Hh : Forall (fun r => @harmless_env ascii_text (env_of r))
                 [first_buy; first_sell]).
  { apply Forall_cons_2; [|apply Forall_cons_2; [|apply Forall_nil_2]].
    - apply (quote_harmless _ _ (Finite false 5000000 (-2))); reflexivity.
    - apply (quote_harmless _ _ (Finite false 6000000 (-2))); reflexivity. }
  split; [exact Hh|]. exact (ledger_invariant _ Hh).
Defined.

Lemma trade_commits_three_writes_witness :
  let a := Bought (Finite false 20 (-4)) "btc" (Finite false 100 0)
             (Finite false 990000 (-2)) in
  outcome (handle (H := ascii_text) first_buy) empty_db = Ok a /\
  is_executed a = true /\
  exists s2 s3 s4,
    commits (events (handle (H := ascii_text) first_buy) empty_db)
      = [ensured empty_db 7; s2; s3; s4].
Proof.
  cbn zeta.
  assert (Ho : outcome (handle (H := ascii_text) first_buy) empty_db
               = Ok (Bought (Finite false 20 (-4)) "btc" (Finite false 100 0)
                       (Finite false 990000 (-2))))
    by (vm_compute; reflexivity).
  split; [exact Ho|]. split; [reflexivity|].
  destruct (trade_commits_three_writes _ _ _ Ho eq_refl)
    as (s2 & s3 & s4 & _ & _ & Hc & _).
  exists s2, s3, s4. exact Hc.
Defined.

(** The claim of C3 fails when the endpoint answers a negative price:
    selling the 0.0020 BTC of the scenario at -10000000 leaves the balance
    at -10100.00. *)
Lemma negative_price_breaks_solvency :
  let rs := [first_buy;
             Sell (quote "-10000000" 1700000060) (command 7 "btc 0.0020")] in
  users (store (run_all (H := ascii_text) rs (fresh_world empty_db))) !! 7
    = Some (Finite true 1010000 (-2)) /\
  ~ @always_solvent ascii_text.
Proof.
  cbn zeta.
  assert (Hb : users (store (run_all (H := ascii_text)
                 [first_buy;
                  Sell (quote "-10000000" 1700000060) (command 7 "btc 0.0020")]
                 (fresh_world empty_db))) !! 7
               = Some (Finite true 1010000 (-2)))
    by (vm_compute; reflexivity).
  split; [exact Hb|].
  intros Hclaim.
  destruct (Hclaim [first_buy;
                    Sell (quote "-10000000" 1700000060) (command 7 "btc 0.0020")])
    as [[Hu _] _].
  specialize (Hu _ _ Hb). discriminate.
Qed.

(** ** C10: a price of zero *)

Lemma div_by_zero (x : Decimal) (sp : bool) (ep : Z) :
  is_positive x = true -> div x (Finite sp 0 ep) = Raise DivisionByZero.
Proof.
  intros (m & e & -> & Hm)%positive_finite. unfold div. simpl.
  destruct (Z.eqb_spec (Z.of_N m) 0); [lia | done].
Qed.

(** C10. [get_price] lets a price of zero through -- only a missing
    price is turned into [None] -- and a buy that passed validation and
    the sufficiency check then divides the amount by it: the handler ends
    with DivisionByZero, after the account was created and before any
    write of the trade. *)
Theorem buy_at_zero_price_raises `{PyText} (E : env) (msg : message) (s : db)
    (coin text symbol : string) (amount : Decimal) (v : pyobj)
    (sp : bool) (ep : Z) :
  let user_id := from_user_id msg in
  str_split (str_lower (get_args msg)) = [coin; text] ->
  dict_get AVAILABLE_COINS coin = Some symbol ->
  positive_amount text = Ok amount ->
  is_finite (opening_balance s user_id) = true ->
  gt amount (opening_balance s user_id) = Ok false ->
  String.eqb symbol "USDTUSDT" = false ->
  http E symbol = JsonObject (Some v) ->
  Decimal_of_obj v = Ok (Finite sp 0 ep) ->
  price_of E symbol = Some (Finite sp 0 ep) /\
  outcome (cmd_buy E msg) s = Raise DivisionByZero /\
  final (cmd_buy E msg) s = ensured s user_id /\
  events (cmd_buy E msg) s = ensure_events s user_id ++ [EvHttpGet symbol].
Proof.
  intros user_id Hp Hc Ha Hfin Hg Hsym Hhttp Hv.
  assert (Hprice : price_of E symbol = Some (Finite sp 0 ep)).
  { unfold price_of, get_price_try. by rewrite Hsym, Hhttp, Hv. }
  split; [exact Hprice|].
  rewrite run_outcome, run_final, run_events, cmd_buy_run, Hp, Hc, Ha.
  cbn zeta. cbn [store log fresh_world]. fold user_id. rewrite Hg, Hprice.
  rewrite (buy_apply_run _ _ _ _ _ _ (opening_balance s user_id))
    by (cbn [store]; apply ensured_users).
  rewrite div_by_zero.
  - cbn [fst snd store log app]. unfold fetch_events. by rewrite Hsym.
  - apply positive_amount_inv in Ha as [_ Hpos].
    eapply accepted_amount_positive; eauto.
Qed.

Lemma buy_at_zero_price_witness :
  let E := quote "0" 1700000000 in
  let msg := command 7 "btc 100" in
  @str_split ascii_text (@str_lower ascii_text (get_args msg)) = ["btc"; "100"]%string /\
  dict_get AVAILABLE_COINS "btc" = Some "BTCUSDT"%string /\
  @positive_amount ascii_text "100" = Ok (Finite false 100 0) /\
  outcome (cmd_buy (H := ascii_text) E msg) empty_db = Raise DivisionByZero.
Proof.
  cbn zeta.
  split; [reflexivity|]. split; [reflexivity|]. split; [reflexivity|].
  apply (buy_at_zero_price_raises (H := ascii_text) (quote "0" 1700000000)
           (command 7 "btc 100") empty_db "btc" "100" "BTCUSDT"
           (Finite false 100 0) (PyStr "0") false 0);
    reflexivity.
Defined.

(** ** C8: the history *)

Section History.
Context `{PyText}.

Lemma insert_desc_perm (r : history_row) (l : list history_row) :
  Permutation (r :: l) (insert_desc r l).
Proof.
  induction l as [|x l IH]; simpl; [done|].
  destruct (h_timestamp x <? h_timestamp r); [done|].
  rewrite <- IH. apply perm_swap.
Qed.

Lemma insert_desc_sorted (r : history_row) (l : list history_row) :
  sorted_desc l -> sorted_desc (insert_desc r l).
Proof.
  induction l as [|x l IH]; simpl; [by auto|].
  intros [Hx Hl].
  destruct (Z.ltb_spec (h_timestamp x) (h_timestamp r)) as [Hlt|Hge]; simpl.
  - split; [|done]. apply Forall_cons_2; [lia|].
    eapply Forall_impl; [exact Hx|]. simpl. intros; lia.
  - split; [|by apply IH].
    rewrite <- insert_desc_perm. by apply Forall_cons_2.
Qed.

Lemma order_by_timestamp_desc_spec (rows : list history_row) :
  sorted_desc (order_by_timestamp_desc rows) /\
  Permutation (order_by_timestamp_desc rows) rows.
Proof.
  unfold order_by_timestamp_desc.
  assert (Hgen : forall acc, sorted_desc acc ->
    sorted_desc (fold_left (fun acc r => insert_desc r acc) rows acc) /\
    Permutation (fold_left (fun acc r => insert_desc r acc) rows acc)
                (acc ++ rows)).
  { induction rows as [|r rows IH]; intros acc Hacc; simpl.
    - by rewrite app_nil_r.
    - destruct (IH (insert_desc r acc)) as [Hs Hp];
        [by apply insert_desc_sorted|].
      split; [done|]. rewrite Hp, <- insert_desc_perm.
      apply Permutation_middle. }
  destruct (Hgen [] I) as [Hs Hp]. by split.
Qed.

Lemma sorted_desc_firstn (n : nat) (l : list history_row) :
  sorted_desc l -> sorted_desc (firstn n l).
Proof.
  revert n. induction l as [|x l IH]; intros [|n]; simpl; try done.
  intros [Hx Hl]. split; [|by apply IH].
  apply Forall_take. exact Hx.
Qed.

Lemma sql_limit_spec {A} (n : Z) (l : list A) :
  exists rest, l = sql_limit n l ++ rest /\
    length (sql_limit n l)
      = (if n <? 0 then length l else Nat.min (Z.to_nat n) (length l)).
Proof.
  unfold sql_limit. destruct (n <? 0).
  - exists []. by rewrite app_nil_r.
  - exists (skipn (Z.to_nat n) l). split.
    + symmetry. apply firstn_skipn.
    + apply length_firstn.
Qed.

Lemma write_holding_history user_id coin amount np (s : db) :
  history (write_holding user_id coin amount np s) = history s /\
  history_seq (write_holding user_id coin amount np s) = history_seq s.
Proof. by destruct np. Qed.

(** A handler leaves the history rows it found and adds at most one. *)
Lemma handle_history (r : request) (w : world) :
  exists rows, history (store (handle r w).2) = history (store w) ++ rows
               /\ (length rows <= 1)%nat.
Proof.
  assert (Hnil : forall l : list history_row, exists rows, l = l ++ rows
                   /\ (length rows <= 1)%nat).
  { intros l. exists []. rewrite app_nil_r. simpl. split; [done|lia]. }
  assert (He : forall u, history (ensured (store w) u) = history (store w))
    by (intros u; apply ensured_history).
  destruct r as [E msg|E msg]; cbn [handle].
  - rewrite cmd_buy_run.
    destruct (str_split _) as [|coin [|text [|? ?]]]; try apply Hnil.
    destruct (dict_get _ _) as [symbol|]; [|apply Hnil].
    destruct (positive_amount text) as [amount|]; [|apply Hnil].
    cbn zeta.
    destruct (gt amount _) as [[|]|]; cbn [snd store]; rewrite ?He;
      try apply Hnil.
    destruct (price_of E symbol) as [price|]; cbn [snd store]; rewrite ?He;
      [|apply Hnil].
    rewrite (buy_apply_run _ _ _ _ _ _ (opening_balance (store w) (from_user_id msg)))
      by (cbn [store]; apply ensured_users).
    destruct (div _ _); cbn [snd store]; rewrite ?He; [|apply Hnil].
    destruct (quantize _ COIN_STEP _); cbn [snd store]; rewrite ?He; [|apply Hnil].
    destruct (sub _ _); cbn [snd store]; rewrite ?He; [|apply Hnil].
    cbn zeta.
    destruct (add _ _); cbn [snd store];
      [|cbn; rewrite He; apply Hnil].
    destruct (le _ _) as [np|]; cbn [snd store];
      [|cbn; rewrite He; apply Hnil].
    eexists [_]. split; [|simpl; lia].
    destruct np; cbn; by rewrite He.
  - rewrite cmd_sell_run.
    destruct (str_split _) as [|coin [|text [|? ?]]]; try apply Hnil.
    destruct (dict_get _ _) as [symbol|]; [|apply Hnil].
    destruct (positive_amount text) as [amount|]; [|apply Hnil].
    cbn zeta.
    destruct (gt amount _) as [[|]|]; cbn [snd store]; rewrite ?He;
      try apply Hnil.
    destruct (price_of E symbol) as [price|]; cbn [snd store]; rewrite ?He;
      [|apply Hnil].
    rewrite (sell_apply_run _ _ _ _ _ _ (opening_balance (store w) (from_user_id msg)))
      by (cbn [store]; apply ensured_users).
    destruct (mul _ _); cbn [snd store]; rewrite ?He; [|apply Hnil].
    destruct (quantize _ USD_STEP _); cbn [snd store]; rewrite ?He; [|apply Hnil].
    destruct (sub _ _); cbn [snd store]; rewrite ?He; [|apply Hnil].
    destruct (le _ _) as [np|]; cbn [snd store]; rewrite ?He; [|apply Hnil].
    cbn zeta.
    destruct (add _ _); cbn [snd store];
      [|destruct np; cbn; rewrite He; apply Hnil].
    eexists [_]. split; [|simpl; lia].
    destruct np; cbn; by rewrite He.
Qed.

End History.

Lemma at_time_cons (t : Z) (x : history_row) (l : list history_row) :
  at_time t (x :: l)
  = if h_timestamp x =? t then x :: at_time t l else at_time t l.
Proof. reflexivity. Qed.

Lemma at_time_below (t : Z) (l : list history_row) :
  Forall (fun y => h_timestamp y < t) l -> at_time t l = [].
Proof.
  induction l as [|x l IH]; [done|]. intros [Hx Hl]%Forall_cons_1.
  rewrite at_time_cons.
  destruct (Z.eqb_spec (h_timestamp x) t); [lia|]. by apply IH.
Qed.

(** [insert_desc] puts a row after the rows of its own timestamp. *)
Lemma insert_desc_at_time (t : Z) (r : history_row) (l : list history_row) :
  sorted_desc l ->
  at_time t (insert_desc r l)
  = if h_timestamp r =? t then at_time t l ++ [r] else at_time t l.
Proof.
  induction l as [|x l IH]; cbn [insert_desc sorted_desc].
  { intros _. rewrite at_time_cons. by destruct (_ =? _). }
  intros [Hx Hl].
  destruct (Z.ltb_spec (h_timestamp x) (h_timestamp r)) as [Hlt|Hge].
  - rewrite (at_time_cons t r).
    destruct (Z.eqb_spec (h_timestamp r) t) as [Ht|Ht]; [|done].
    rewrite (at_time_below t (x :: l)); [done|].
    apply Forall_cons_2; [lia|].
    eapply Forall_impl; [exact Hx|]. cbn. intros; lia.
  - rewrite !(at_time_cons t x), (IH Hl).
    destruct (h_timestamp x =? t), (h_timestamp r =? t); done.
Qed.

(** The sort is stable: the rows of one timestamp keep their order. *)
Lemma order_at_time (t : Z) (rows : list history_row) :
  at_time t (order_by_timestamp_desc rows) = at_time t rows.
Proof.
  unfold order_by_timestamp_desc.
  assert (Hgen : forall acc, sorted_desc acc ->
    at_time t (fold_left (fun acc r => insert_desc r acc) rows acc)
    = at_time t acc ++ at_time t rows).
  { induction rows as [|r rows IH]; intros acc Hacc; cbn [fold_left].
    - by rewrite app_nil_r.
    - rewrite IH by (by apply insert_desc_sorted).
      rewrite insert_desc_at_time by done. rewrite (at_time_cons t r).
      destruct (h_timestamp r =? t); [by rewrite <- app_assoc|done]. }
  by rewrite (Hgen [] I).
Qed.

(** C8 (what the code does).  A trade that completes appends exactly
    one history row, with the next id and the current time, and no
    handler changes or removes a row.  [get_history] sorts the rows of
    the user by descending timestamp and by nothing else -- rows of one
    timestamp stay in insertion order, the earlier one first -- and
    returns the first [limit] rows of that order (all of them for a
    negative limit, at most 10 by default): every row it cuts is no
    later than every row it returns, and among rows of the last second
    returned it is the latest ones that are cut. *)
Theorem history_append_only `{PyText} (r : request) (s : db) (user_id limit : Z) :
  (exists rows, history (final (handle r) s) = history s ++ rows
                /\ (length rows <= 1)%nat) /\
  (forall a, outcome (handle r) s = Ok a -> is_executed a = true ->
     exists row, history (final (handle r) s) = history s ++ [row] /\
       h_id row = history_seq s + 1 /\
       h_user row = from_user_id (msg_of r) /\
       h_timestamp row = now (env_of r)) /\
  (let mine := List.filter (fun x => h_user x =? user_id) (history s) in
   let shown := select_history user_id limit s in
   outcome (get_history user_id limit) s = Ok shown /\
   sorted_desc shown /\
   (exists rest,
      Permutation (shown ++ rest) mine /\
      sorted_desc (shown ++ rest) /\
      forall t, at_time t (shown ++ rest) = at_time t mine) /\
   length shown = (if limit <? 0 then length mine
                   else Nat.min (Z.to_nat limit) (length mine)) /\
   length (select_history user_id default_limit s)
   = Nat.min 10 (length mine)).
Proof.
  split; [|split].
  - rewrite run_final. apply handle_history.
  - intros a Ho Ha. destruct r as [E msg|E msg]; cbn [handle msg_of env_of] in *.
    + destruct a; try discriminate; [|by apply cmd_buy_not_sold in Ho].
      apply buy_executed_inv in Ho
        as (text & symbol & price & quotient & nb & total & np & _ & _ & _
            & _ & _ & _ & _ & _ & _ & _ & _ & Hst).
      unfold buy_stores in Hst. destruct Hst as [-> _].
      exists {| h_id := history_seq s + 1; h_user := from_user_id msg;
                h_action := "buy"; h_coin := coin; h_amount := coin_amount;
                h_price := price; h_timestamp := now E |}.
      split; [|by repeat split].
      cbn [history sql_insert_history history_seq].
      rewrite (proj1 (write_holding_history _ _ _ _ _)),
              (proj2 (write_holding_history _ _ _ _ _)).
      cbn [history sql_update_balance set_users history_seq].
      by rewrite (proj1 (ensured_history s _)), (proj2 (ensured_history s _)).
    + destruct a; try discriminate; [by apply cmd_sell_not_bought in Ho|].
      apply sell_executed_inv in Ho
        as (text & symbol & price & product & rest & nb & np & _ & _ & _
            & _ & _ & _ & _ & _ & _ & _ & _ & Hst).
      unfold sell_stores in Hst. destruct Hst as [-> _].
      exists {| h_id := history_seq s + 1; h_user := from_user_id msg;
                h_action := "sell"; h_coin := coin; h_amount := coin_amount;
                h_price := price; h_timestamp := now E |}.
      split; [|by repeat split].
      cbn [history sql_insert_history history_seq sql_update_balance set_users].
      rewrite (proj1 (write_holding_history _ _ _ _ _)),
              (proj2 (write_holding_history _ _ _ _ _)).
      by rewrite (proj1 (ensured_history s _)), (proj2 (ensured_history s _)).
  - cbn zeta. unfold select_history.
    set (mine := List.filter (fun x => h_user x =? user_id) (history s)).
    destruct (order_by_timestamp_desc_spec mine) as [Hs Hp].
    destruct (sql_limit_spec limit (order_by_timestamp_desc mine))
      as (rest & Hrest & Hlen).
    split; [by rewrite run_outcome|].
    split; [|split; [|split]].
    + unfold sql_limit. destruct (limit <? 0); [done|].
      by apply sorted_desc_firstn.
    + exists rest. rewrite <- Hrest. split; [done|]. split; [done|].
      intros t. apply order_at_time.
    + rewrite Hlen. by rewrite (Permutation_length Hp).
    + destruct (sql_limit_spec default_limit (order_by_timestamp_desc mine))
        as (rest' & _ & Hlen').
      rewrite Hlen'. by rewrite (Permutation_length Hp).
Qed.

(** C8 fails on two trades of the same second: the rows come back in
    insertion order, the earlier one first, and a limit of 1 keeps the
    earlier trade and cuts the latest one. *)
Lemma same_second_rows_oldest_first :
  let s := final (handle (H := ascii_text) same_second_sell) after_first_buy in
  map (fun r => (h_id r, h_action r, h_timestamp r)) (select_history 7 10 s)
    = [(1, "buy"%string, 1700000000); (2, "sell"%string, 1700000000)] /\
  map (fun r => (h_id r, h_action r, h_timestamp r)) (select_history 7 1 s)
    = [(1, "buy"%string, 1700000000)] /\
  map h_id (history s) = [1; 2] /\
  ~ newest_first (select_history 7 10 s) /\
  ~ history_ties_by_id.
Proof.
  cbn zeta.
  set (s := final (handle (H := ascii_text) same_second_sell) after_first_buy).
  assert (Hrows : exists r1 r2, select_history 7 10 s = [r1; r2] /\
            h_id r1 = 1 /\ h_id r2 = 2 /\
            h_timestamp r1 = 1700000000 /\ h_timestamp r2 = 1700000000 /\
            h_action r1 = "buy"%string /\ h_action r2 = "sell"%string).
  { eexists _, _. split; [vm_compute; reflexivity|]. by repeat split. }
  destruct Hrows as (r1 & r2 & Heq & H1 & H2 & T1 & T2 & A1 & A2).
  assert (Hone : map (fun r => (h_id r, h_action r, h_timestamp r))
                   (select_history 7 1 s)
                 = [(1, "buy"%string, 1700000000)])
    by (vm_compute; reflexivity).
  assert (Hids : map h_id (history s) = [1; 2]) by (vm_compute; reflexivity).
  assert (Hnot : ~ newest_first (select_history 7 10 s)).
  { rewrite Heq. simpl. intros [Hf _].
    apply Forall_cons in Hf as [Hf _]. lia. }
  split; [|split; [exact Hone|split; [exact Hids|split; [exact Hnot|]]]].
  - rewrite Heq. simpl. by rewrite H1, H2, T1, T2, A1, A2.
  - intros Hclaim. apply Hnot, Hclaim.
Qed.

(** ** Handlers and the log *)

Section Frame.
Context `{PyText}.

Lemma buy_apply_frame E user_id coin usd_amount balance price b w :
  users (store w) !! user_id = Some b ->
  buy_apply E user_id coin usd_amount balance price w
  = extend (log w)
      (buy_apply E user_id coin usd_amount balance price (fresh_world (store w))).
Proof.
  intros Hb. rewrite !(buy_apply_run _ _ _ _ _ _ b) by done.
  unfold extend. cbn [store log fresh_world].
  destruct (div _ _); [|by rewrite app_nil_r; destruct w].
  destruct (quantize _ COIN_STEP _); [|by rewrite app_nil_r; destruct w].
  destruct (sub _ _); [|by rewrite app_nil_r; destruct w].
  cbn zeta.
  destruct (add _ _); [|done].
  destruct (le _ _); done.
Qed.

Lemma sell_apply_frame E user_id coin coin_amount have price b w :
  users (store w) !! user_id = Some b ->
  sell_apply E user_id coin coin_amount have price w
  = extend (log w)
      (sell_apply E user_id coin coin_amount have price (fresh_world (store w))).
Proof.
  intros Hb. rewrite !(sell_apply_run _ _ _ _ _ _ b) by done.
  unfold extend. cbn [store log fresh_world].
  destruct (mul _ _); [|by rewrite app_nil_r; destruct w].
  destruct (quantize _ USD_STEP _); [|by rewrite app_nil_r; destruct w].
  destruct (sub _ _); [|by rewrite app_nil_r; destruct w].
  destruct (le _ _); [|by rewrite app_nil_r; destruct w].
  cbn zeta.
  destruct (add _ _); done.
Qed.

(** A handler reads the store only: on a world with a log it does what
    it does on the bare store, and appends its events to the log. *)
Lemma handle_frame (r : request) (w : world) :
  handle r w = extend (log w) (handle r (fresh_world (store w))).
Proof.
  assert (Hnil : forall a : reply,
            (Ok a, w) = extend (log w) (Ok a, fresh_world (store w))).
  { intros a. unfold extend. cbn. rewrite app_nil_r. by destruct w. }
  destruct r as [E msg|E msg]; cbn [handle].
  - rewrite !cmd_buy_run.
    destruct (str_split _) as [|coin [|text [|? ?]]]; try apply Hnil.
    destruct (dict_get _ _) as [symbol|]; [|apply Hnil].
    destruct (positive_amount text) as [amount|]; [|apply Hnil].
    cbn zeta. cbn [store log fresh_world app].
    destruct (gt amount _) as [[|]|]; [done| |done].
    destruct (price_of E symbol) as [price|]; [|unfold extend; cbn; by rewrite app_assoc].
    rewrite (buy_apply_frame _ _ _ _ _ _ (opening_balance (store w) (from_user_id msg)))
      by (cbn [store]; apply ensured_users).
    rewrite (buy_apply_frame _ _ _ _ _ _ (opening_balance (store w) (from_user_id msg))
               {| store := _; log := ensure_events _ _ ++ _ |})
      by (cbn [store]; apply ensured_users).
    unfold extend. cbn [fst snd store log]. by rewrite app_assoc, app_assoc.
  - rewrite !cmd_sell_run.
    destruct (str_split _) as [|coin [|text [|? ?]]]; try apply Hnil.
    destruct (dict_get _ _) as [symbol|]; [|apply Hnil].
    destruct (positive_amount text) as [amount|]; [|apply Hnil].
    cbn zeta. cbn [store log fresh_world app].
    destruct (gt amount _) as [[|]|]; [done| |done].
    destruct (price_of E symbol) as [price|]; [|unfold extend; cbn; by rewrite app_assoc].
    rewrite (sell_apply_frame _ _ _ _ _ _ (opening_balance (store w) (from_user_id msg)))
      by (cbn [store]; apply ensured_users).
    rewrite (sell_apply_frame _ _ _ _ _ _ (opening_balance (store w) (from_user_id msg))
               {| store := _; log := ensure_events _ _ ++ _ |})
      by (cbn [store]; apply ensured_users).
    unfold extend. cbn [fst snd store log]. by rewrite app_assoc, app_assoc.
Qed.

Lemma handle_split (r : request) (w : world) :
  (handle r w).1 = outcome (handle r) (store w) /\
  store (handle r w).2 = final (handle r) (store w) /\
  log (handle r w).2 = log w ++ events (handle r) (store w).
Proof.
  rewrite handle_frame, run_outcome, run_final, run_events. by unfold extend.
Qed.

End Frame.

(** ** C9: concurrent sells of the whole holding *)

Lemma le_false_gt_true (x : Decimal) :
  le x zero = Ok false -> gt x zero = Ok true.
Proof. unfold le, gt, rbind. by destruct (cmp x zero) as [[| |]|]. Qed.

Lemma sval_zero (s : bool) : sval s 0 = 0.
Proof. by destruct s. Qed.

Lemma sell_all_leaves_nothing (amount have rest : Decimal) :
  cmp amount have = Ok Eq -> sub have amount = Ok rest ->
  le rest zero = Ok true.
Proof.
  destruct amount as [s1 m1 e1|s1|?], have as [s2 m2 e2|s2|?];
    unfold cmp; try discriminate.
  - intros [= Hc]. apply Z.compare_eq_iff in Hc.
    unfold sub, add; simpl. rewrite sval_negb.
    rewrite (Z.min_comm e2 e1).
    replace (sval s2 m2 * 10 ^ (e2 - Z.min e1 e2)
             + - sval s1 m1 * 10 ^ (e1 - Z.min e1 e2)) with 0 by lia.
    intros (m' & e' & -> & Hm')%fix_finite; [|done].
    rewrite Hm' by done. unfold le, cmp, zero, rbind.
    rewrite !sval_zero, !Z.mul_0_l. done.
  - destruct s2; discriminate.
  - destruct s1; discriminate.
  - destruct s1, s2; simpl; try discriminate; intros _; unfold sub, add; simpl;
      discriminate.
Qed.

Lemma is_sold_inv (r : result reply) :
  is_sold r = true -> exists ca c g sh, r = Ok (Sold ca c g sh).
Proof. destruct r as [[]|]; try discriminate. eauto. Qed.

Section Concurrent.
Context `{PyText}.
Variables (s : db) (msg : message) (envs : list env).
Variables (coin text symbol : string) (amount : Decimal).
Let user_id := from_user_id msg.

Hypothesis Hparts : str_split (str_lower (get_args msg)) = [coin; text].
Hypothesis Hcoin : dict_get AVAILABLE_COINS coin = Some symbol.
Hypothesis Hamount : positive_amount text = Ok amount.
Hypothesis Hall : cmp amount (holding s user_id coin) = Ok Eq.
Hypothesis Hserved :
  forall E, In E envs -> is_sold (outcome (cmd_sell E msg) s) = true.
Hypothesis Hok : holdings_ok s.

Local Abbreviation untouched := (untouched s msg envs).
Local Abbreviation sold_out := (sold_out msg coin).

(** The first body to run sells the holding. *)
Lemma first_body (E : env) (w : world) :
  In E envs -> store w = s -> committed_ok holdings_ok (log w) ->
  let x := cmd_sell E msg w in
  is_sold x.1 = true /\
  portfolio (store x.2) !! (user_id, coin) = None /\
  is_Some (users (store x.2) !! user_id) /\
  holdings_ok (store x.2) /\
  committed_ok holdings_ok (log x.2).
Proof.
  intros HE Hs Hl. cbn zeta.
  destruct (handle_split (Sell E msg) w) as (Ho & Hf & Hlog).
  cbn [handle] in *. rewrite Ho, Hf, Hlog, Hs.
  pose proof (Hserved E HE) as Hsold.
  split; [exact Hsold|].
  destruct (is_sold_inv _ Hsold) as (ca & c & g & sh & Hout).
  apply sell_executed_inv in Hout
    as (text' & symbol' & price & product & rest & nb & np & Hp & Hc & Hamt
        & Hg & Hpr & Hm & Hq & Hsub & Hle & Hadd & Hsh & Hst).
  rewrite Hparts in Hp. injection Hp as <- <-.
  rewrite Hamount in Hamt. injection Hamt as <-.
  clear Hsold.
  fold user_id in Hsub, Hst.
  pose proof (sell_all_leaves_nothing _ _ _ Hall Hsub) as Hnp.
  rewrite Hle in Hnp. injection Hnp as ->.
  unfold sell_stores in Hst. destruct Hst as [-> ->].
  assert (Hd : holdings_ok (write_holding user_id coin rest true
                              (ensured s user_id))).
  { apply holdings_ok_write; [|done]. unfold holdings_ok.
    by rewrite ensured_portfolio. }
  split; [apply lookup_delete_eq|].
  split; [cbn; rewrite lookup_alter_eq, ensured_users; by eexists|].
  split; [exact Hd|].
  apply committed_ok_app. split; [done|].
  apply committed_ok_app. split.
  - apply committed_ok_ensure. unfold holdings_ok. by rewrite ensured_portfolio.
  - apply committed_ok_app. split; [apply committed_ok_fetch|].
    unfold committed_ok. cbn [commits].
    repeat (apply Forall_cons_2; [exact Hd|]). apply Forall_nil_2.
Qed.

(** Every later body finds nothing to sell and changes nothing. *)
Lemma later_body (E : env) (w : world) :
  portfolio (store w) !! (user_id, coin) = None ->
  is_Some (users (store w) !! user_id) ->
  cmd_sell E msg w = (Ok (NotEnoughCoin coin zero), w).
Proof.
  intros Hnone [b Hb]. rewrite cmd_sell_run, Hparts, Hcoin, Hamount.
  cbn zeta. fold user_id. unfold holding. rewrite Hnone. cbn [default].
  apply positive_amount_inv in Hamount as [_ Hpos].
  rewrite (le_false_gt_true _ Hpos).
  unfold ensured, ensure_events. rewrite Hb, app_nil_r. by destruct w.
Qed.

Lemma step_keeps (k : nat) (t : task) (tasks : list task) (w : world) :
  tasks !! k = Some t ->
  (untouched tasks w \/ exists i, sold_out i tasks w) ->
  let x := step_task t w in
  exists i, sold_out i (<[k := x.1]> tasks) x.2.
Proof.
  intros Hk [(Ht & Hs & Hl)|(i & Hnone & Hu & Hh & Hl & Hi & Hothers)]; cbn zeta.
  - subst tasks. unfold sell_tasks in Hk.
    apply list_lookup_fmap_Some in Hk as (E & -> & HE).
    assert (HinE : In E envs) by (by eapply list_elem_of_In, list_elem_of_lookup_2).
    cbn [step_task].
    destruct (first_body E w HinE Hs Hl) as (Hsold & Hnone & Hu & Hh & Hl').
    destruct (cmd_sell E msg w) as [r w'] eqn:Hrun. cbn [fst snd] in *.
    exists k. split_and!; try done.
    + exists r. split; [done|]. left.
      apply list_lookup_insert_eq. unfold sell_tasks. rewrite length_map.
      by eapply lookup_lt_Some.
    + intros j t Hj. rewrite list_lookup_insert_ne by done.
      intros (E' & -> & _)%list_lookup_fmap_Some. left. by eexists.
  - exists i.
    assert (Hklen : (k < length tasks)%nat) by (by eapply lookup_lt_Some).
    destruct t as [body|r|r]; cbn [step_task].
    + (* a body: it is not the winner, so it is a sell of the batch *)
      destruct (decide (k = i)) as [->|Hne].
      { destruct Hi as (r & _ & [Hr|Hr]); rewrite Hk in Hr; discriminate. }
      destruct (Hothers k _ Hne Hk) as [[E [= ->]]|[have [?|?]]]; try discriminate.
      rewrite (later_body E w Hnone Hu). cbn [fst snd].
      split_and!; try done.
      * destruct Hi as (r & Hr & Hi). exists r. split; [done|].
        by rewrite list_lookup_insert_ne.
      * intros j t Hj. destruct (decide (j = k)) as [->|Hjk].
        -- rewrite list_lookup_insert_eq by done. intros [= <-].
           right. exists zero. by left.
        -- rewrite list_lookup_insert_ne by done. by apply Hothers.
    + cbn [fst snd]. split_and!; try done.
      * destruct Hi as (r' & Hr & Hi). destruct (decide (k = i)) as [->|Hne].
        -- destruct Hi as [Hi|Hi]; rewrite Hk in Hi; [|discriminate].
           injection Hi as <-. exists r. split; [done|]. right.
           by rewrite list_lookup_insert_eq.
        -- exists r'. by rewrite list_lookup_insert_ne.
      * intros j t Hj. destruct (decide (j = k)) as [->|Hjk].
        -- rewrite list_lookup_insert_eq by done. intros [= <-].
           destruct (Hothers k _ Hj Hk) as [[E ?]|[have [?|?]]]; try discriminate.
           simplify_eq. right. exists have. by right.
        -- rewrite list_lookup_insert_ne by done. by apply Hothers.
    + cbn [fst snd]. rewrite list_insert_id by done. by split_and!.
Qed.

Lemma schedule_keeps (sched : list nat) (tasks : list task) (w : world) :
  (untouched tasks w \/ exists i, sold_out i tasks w) ->
  let x := run_schedule sched tasks w in
  length x.1 = length tasks /\
  (untouched x.1 x.2 \/ exists i, sold_out i x.1 x.2).
Proof.
  revert tasks w. induction sched as [|k sched IH]; intros tasks w Hinv;
    cbn [run_schedule]; [done|].
  destruct (tasks !! k) as [t|] eqn:Hk; [|by apply IH].
  pose proof (step_keeps k t tasks w Hk Hinv) as Hstep. cbn zeta in Hstep.
  destruct (step_task t w) as [t' w'] eqn:Hst. cbn [fst snd] in Hstep.
  destruct (IH (<[k := t']> tasks) w' (or_intror Hstep)) as [Hlen Hres].
  rewrite length_insert in Hlen. by split.
Qed.

End Concurrent.

(** The claim of C9 fails when the first sell to run gets no price: it
    ends with "no price", not with "not enough", and the second one
    sells. *)
Lemma unpriced_sell_is_not_refused :
  let envs := [unreachable 1700000060; quote "60000.00" 1700000061] in
  let msg := command 7 "btc 0.0020" in
  let x := run_schedule [0; 1; 0; 1]%nat (sell_tasks (H := ascii_text) envs msg)
             (fresh_world after_first_buy) in
  x.1 = [Finished (Ok PriceFailed);
         Finished (Ok (Sold (Finite false 20 (-4)) "btc"
                         (Finite false 12000 (-2)) (Finite false 1002000 (-2))))]
  /\ ~ @sell_all_race ascii_text.
Proof.
  cbn zeta.
  assert (Hx : (run_schedule [0; 1; 0; 1]%nat
                  (sell_tasks (H := ascii_text)
                     [unreachable 1700000060; quote "60000.00" 1700000061]
                     (command 7 "btc 0.0020"))
                  (fresh_world after_first_buy)).1
               = [Finished (Ok PriceFailed);
                  Finished (Ok (Sold (Finite false 20 (-4)) "btc"
                                  (Finite false 12000 (-2))
                                  (Finite false 1002000 (-2))))])
    by (vm_compute; reflexivity).
  split; [exact Hx|].
  intros Hclaim.
  specialize (Hclaim after_first_buy (command 7 "btc 0.0020")
                [unreachable 1700000060; quote "60000.00" 1700000061]
                "btc"%string "0.0020"%string (Finite false 20 (-4))
                [0; 1; 0; 1]%nat).
  rewrite Hx in Hclaim.
  destruct Hclaim as (i & r & Hi & Hsold & Hrest).
  - simpl. lia.
  - vm_compute; reflexivity.
  - vm_compute; reflexivity.
  - vm_compute; reflexivity.
  - repeat (apply Forall_cons_2; [by eexists|]). apply Forall_nil_2.
  - clear Hx. destruct i as [|[|i]]; cbn in Hi; [| |discriminate Hi].
    + injection Hi as <-. discriminate Hsold.
    + destruct (Hrest 0%nat (Finished (Ok PriceFailed))) as [have Hh];
        [lia | reflexivity | discriminate Hh].
Qed.

(** C9 (amended). Handlers interleave only at their [await]s, so the
    body of a sell runs undisturbed.  When [n > 1] sells of one user each
    ask for the whole holding of a coin, and each of them would be served
    if it ran alone (its price arrives and its proceeds can be
    computed), then under every schedule that lets all of them answer
    exactly one sells and the other [n - 1] are refused for lack of the
    coin; the holding is deleted, and no committed store holds an amount
    that is not above zero. *)
Theorem concurrent_sell_all `{PyText} (s : db) (msg : message)
    (envs : list env) (coin text symbol : string) (amount : Decimal)
    (sched : list nat) :
  (1 < length envs)%nat ->
  str_split (str_lower (get_args msg)) = [coin; text] ->
  dict_get AVAILABLE_COINS coin = Some symbol ->
  positive_amount text = Ok amount ->
  cmp amount (holding s (from_user_id msg) coin) = Ok Eq ->
  (forall E, In E envs -> is_sold (outcome (cmd_sell E msg) s) = true) ->
  holdings_ok s ->
  let x := run_schedule sched (sell_tasks envs msg) (fresh_world s) in
  all_finished x.1 ->
  length x.1 = length envs /\
  one_sold_rest_refused coin x.1 /\
  portfolio (store x.2) !! (from_user_id msg, coin) = None /\
  holdings_ok (store x.2) /\
  committed_ok holdings_ok (log x.2).
Proof.
  intros Hn Hparts Hcoin Hamount Hall Hserved Hok x Hfin.
  destruct (schedule_keeps s msg envs coin text symbol amount
              Hparts Hcoin Hamount Hall Hserved Hok sched
              (sell_tasks envs msg) (fresh_world s)) as [Hlen Hres].
  { left. split; [done|]. split; [done|]. apply Forall_nil_2. }
  fold x in Hlen, Hres.
  split; [by rewrite Hlen; unfold sell_tasks; rewrite length_map|].
  destruct Hres as [(Ht & _)|(i & Hnone & Hu & Hh & Hl & (r & Hr & Hi) & Hothers)].
  - exfalso. unfold all_finished in Hfin. rewrite Ht in Hfin.
    destruct envs as [|E envs']; [simpl in Hn; lia|].
    apply Forall_cons in Hfin as [[? Hx] _]. discriminate.
  - split; [|done].
    exists i, r. split; [|split; [done|]].
    + destruct Hi as [Hi|Hi]; [|done]. exfalso.
      apply (Forall_lookup_1 _ _ _ _ Hfin) in Hi as [? Hx]. discriminate.
    + intros j t Hj Ht.
      pose proof (Forall_lookup_1 _ _ _ _ Hfin Ht) as [a Ha].
      destruct (Hothers j t Hj Ht) as [[E ->]|[have [->| ->]]];
        [discriminate|discriminate|by eexists].
Qed.

Lemma after_first_buy_ok : ledger_ok after_first_buy.
Proof.
  unfold after_first_buy. rewrite run_final.
  apply (handle_keeps (H := ascii_text)).
  - apply (quote_harmless _ _ (Finite false 5000000 (-2))); reflexivity.
  - split; [apply ledger_ok_empty | apply Forall_nil_2].
Qed.

Lemma concurrent_sell_all_witness :
  let envs := [quote "60000.00" 1700000060; quote "61000.00" 1700000061] in
  let msg := command 7 "btc 0.0020" in
  let x := run_schedule [1; 0; 0; 1]%nat (sell_tasks (H := ascii_text) envs msg)
             (fresh_world after_first_buy) in
  (1 < length envs)%nat /\ all_finished x.1 /\
  one_sold_rest_refused "btc" x.1.
Proof.
  cbn zeta.
  assert (Hfin : all_finished
            (run_schedule [1; 0; 0; 1]%nat
               (sell_tasks (H := ascii_text)
                  [quote "60000.00" 1700000060; quote "61000.00" 1700000061]
                  (command 7 "btc 0.0020"))
               (fresh_world after_first_buy)).1).
  { assert (Hx : exists r1 r2,
       (run_schedule [1; 0; 0; 1]%nat
          (sell_tasks (H := ascii_text)
             [quote "60000.00" 1700000060; quote "61000.00" 1700000061]
             (command 7 "btc 0.0020"))
          (fresh_world after_first_buy)).1 = [Finished r1; Finished r2])
      by (eexists _, _; vm_compute; reflexivity).
    destruct Hx as (r1 & r2 & ->).
    repeat (apply Forall_cons_2; [by eexists|]). apply Forall_nil_2. }
  split; [simpl; lia|]. split; [exact Hfin|].
  apply (concurrent_sell_all (H := ascii_text) after_first_buy
           (command 7 "btc 0.0020")
           [quote "60000.00" 1700000060; quote "61000.00" 1700000061]
           "btc" "0.0020" "BTCUSDT" (Finite false 20 (-4)) [1; 0; 0; 1]%nat).
  - simpl; lia.
  - vm_compute; reflexivity.
  - reflexivity.
  - vm_compute; reflexivity.
  - vm_compute; reflexivity.
  - intros E [<-|[<-|[]]]; vm_compute; reflexivity.
  - apply after_first_buy_ok.
  - exact Hfin.
Defined.

(** ** The values of decimals *)

Lemma ten_nonzero : ~ (inject_Z 10 == 0)%Q.
Proof. discriminate. Qed.

Lemma pow10Q_pos (e : Z) : (0 < Qpower (inject_Z 10) e)%Q.
Proof. apply Qpower_0_lt. reflexivity. Qed.

(** A decimal written at a smaller exponent. *)
Lemma scale_value (a : Z) (e e0 : Z) :
  e0 <= e ->
  (inject_Z a * Qpower (inject_Z 10) e
   == inject_Z (a * 10 ^ (e - e0)) * Qpower (inject_Z 10) e0)%Q.
Proof.
  intros He. rewrite inject_Z_mult, Zpower_Qpower by lia.
  rewrite <- Qmult_assoc, <- Qpower_plus by apply ten_nonzero.
  by replace (e - e0 + e0)%Z with e by lia.
Qed.

Lemma DtoQ_scale (s : bool) (m : N) (e e0 : Z) :
  e0 <= e ->
  (DtoQ (Finite s m e)
   == inject_Z (sval s m * 10 ^ (e - e0)) * Qpower (inject_Z 10) e0)%Q.
Proof. intros He. unfold DtoQ. by apply scale_value. Qed.

Lemma DtoQ_negate (x : Decimal) : (DtoQ (copy_negate x) == - DtoQ x)%Q.
Proof.
  destruct x as [s m e| |]; simpl; [|reflexivity|reflexivity].
  rewrite sval_negb, inject_Z_opp. ring.
Qed.

Lemma DtoQ_zero (s : bool) (e : Z) : (DtoQ (Finite s 0 e) == 0)%Q.
Proof. unfold DtoQ. rewrite sval_zero. apply Qmult_0_l. Qed.

Lemma sval_abs (z : Z) (zs : bool) :
  sval (if z =? 0 then zs else z <? 0) (Z.to_N (Z.abs z)) = z.
Proof.
  unfold sval. destruct (Z.eqb_spec z 0) as [->|Hz].
  - by destruct zs.
  - destruct (Z.ltb_spec z 0); lia.
Qed.

(** [add] is exact when the exact sum fits the context. *)
Lemma add_exact (x y d : Decimal) :
  exact_sum x y = true -> add x y = Ok d ->
  (DtoQ d == DtoQ x + DtoQ y)%Q.
Proof.
  destruct x as [s1 m1 e1| |]; try discriminate.
  destruct y as [s2 m2 e2| |]; try discriminate.
  unfold exact_sum, add; simpl.
  set (e := Z.min e1 e2).
  set (z := sval s1 m1 * 10 ^ (e1 - e) + sval s2 m2 * 10 ^ (e2 - e)).
  intros [Hn He]%andb_true_iff Hfix.
  apply Z.leb_le in Hn, He.
  rewrite (DtoQ_scale s1 m1 e1 e), (DtoQ_scale s2 m2 e2 e) by lia.
  rewrite <- Qmult_plus_distr_l, <- inject_Z_plus. fold z.
  destruct (Z.eq_dec z 0) as [Hz|Hz].
  - rewrite Hz in *. apply fix_finite in Hfix as (m' & e' & -> & Hm'); [|done].
    rewrite Hm' by done. rewrite DtoQ_zero. symmetry. apply Qmult_0_l.
  - apply fix_exact in Hfix; [|lia|done|done]. subst d.
    unfold DtoQ. rewrite sval_abs. reflexivity.
Qed.

Lemma exact_sum_finite (x y : Decimal) :
  exact_sum x y = true -> is_finite x = true /\ is_finite y = true.
Proof. by destruct x, y. Qed.

Lemma sub_exact (x y d : Decimal) :
  exact_sum x (copy_negate y) = true -> sub x y = Ok d ->
  (DtoQ d == DtoQ x - DtoQ y)%Q.
Proof.
  intros Hex Hsub.
  destruct (exact_sum_finite _ _ Hex) as [Hx Hy].
  destruct x as [s1 m1 e1| |]; try discriminate.
  destruct y as [s2 m2 e2| |]; try discriminate.
  unfold sub in Hsub. simpl in Hsub.
  rewrite (add_exact _ _ _ Hex Hsub), DtoQ_negate. reflexivity.
Qed.

(** [mul] is exact when the product of the coefficients fits the
    context. *)
Lemma mul_exact (x y d : Decimal) :
  exact_product x y = true -> mul x y = Ok d ->
  (DtoQ d == DtoQ x * DtoQ y)%Q.
Proof.
  destruct x as [s1 m1 e1| |]; try discriminate.
  destruct y as [s2 m2 e2| |]; try discriminate.
  unfold exact_product, mul; simpl.
  intros [Hn He]%andb_true_iff Hfix.
  apply Z.leb_le in Hn, He.
  assert (Hval : (inject_Z (sval (xorb s1 s2) (Z.to_N (Z.of_N m1 * Z.of_N m2)))
                  == inject_Z (sval s1 m1) * inject_Z (sval s2 m2))%Q).
  { rewrite <- inject_Z_mult. unfold sval.
    destruct s1, s2; simpl; rewrite Z2N.id by lia; f_equiv; lia. }
  destruct (Z.eq_dec (Z.of_N m1 * Z.of_N m2) 0) as [Hz|Hz].
  - rewrite Hz in *. apply fix_finite in Hfix as (m' & e' & -> & Hm'); [|done].
    rewrite Hm' by done.
    assert (H0 : (inject_Z (sval s1 m1) * inject_Z (sval s2 m2) == 0)%Q).
    { rewrite <- Hval. unfold sval. by destruct (xorb s1 s2). }
    rewrite DtoQ_zero. unfold DtoQ.
    transitivity (inject_Z (sval s1 m1) * inject_Z (sval s2 m2)
                  * (Qpower (inject_Z 10) e1 * Qpower (inject_Z 10) e2))%Q; [|ring].
    rewrite H0. symmetry. apply Qmult_0_l.
  - apply fix_exact in Hfix; [|lia|done|done]. subst d.
    unfold DtoQ. rewrite Hval, Qpower_plus by apply ten_nonzero. ring.
Qed.

(** [quantize] with ROUND_DOWN on a finite value cuts it to the
    exponent. *)
Lemma quantize_down_truncates (x t : Decimal) (k : Z) :
  is_finite x = true -> quantize x k ROUND_DOWN = Ok t ->
  truncated_to k x t.
Proof.
  destruct x as [s m e| |]; try discriminate. intros _.
  unfold quantize.
  destruct ((Etiny <=? k) && (k <=? Emax)) eqn:Hrange; [|discriminate].
  apply andb_true_iff in Hrange as [Hlo%Z.leb_le Hhi%Z.leb_le].
  cbn [negb].
  assert (Hzero : forall d, fix_ s 0 k = Ok d -> d = Finite s 0 k).
  { unfold fix_. simpl. intros d [= <-]. f_equal. lia. }
  pose proof (pow10Q_pos k) as Hk. pose proof (pow10Q_pos e) as He.
  destruct (Z.eqb_spec (Z.of_N m) 0) as [Hm|Hm].
  - intros ->%Hzero. exists s, m, e, 0%N. split; [done|]. split; [done|].
    replace m with 0%N by lia. simpl. split.
    + rewrite !Qmult_0_l. apply Qle_refl.
    + rewrite Qmult_0_l, Qplus_0_l, Qmult_1_l. exact Hk.
  - destruct (Emax <? _); [discriminate|].
    destruct (prec <? _); [discriminate|].
    destruct (Emax <? _); [discriminate|].
    destruct (Z.ltb_spec prec (ndigits (rescale ROUND_DOWN (Z.of_N m) e k)))
      as [|Hnd]; [discriminate|].
    set (c := rescale ROUND_DOWN (Z.of_N m) e k) in *.
    assert (Hc0 : 0 <= c) by (apply rescale_nonneg; lia).
    intros Hfix.
    assert (Ht : t = Finite s (Z.to_N c) k).
    { destruct (Z.eq_dec c 0) as [Hc|Hc].
      - rewrite Hc in *. by apply Hzero in Hfix.
      - apply fix_exact in Hfix; [done|lia|done|done]. }
    exists s, m, e, (Z.to_N c). split; [done|]. split; [done|].
    rewrite Z2N.id by done.
    unfold c, rescale. destruct (Z.eqb_spec (Z.of_N m) 0) as [|_]; [done|].
    destruct (Z.leb_spec k e) as [Hke|Hke].
    + rewrite (scale_value (Z.of_N m) e k) by done. split; [apply Qle_refl|].
      apply Qmult_lt_compat_r; [done|].
      rewrite <- (Qplus_0_r (inject_Z _)) at 1.
      apply Qplus_lt_r. reflexivity.
    + unfold round_down.
      pose proof (pow10_pos (k - e) ltac:(lia)) as Hp.
      pose proof (Z.div_mod (Z.of_N m) (10 ^ (k - e)) ltac:(lia)) as Hdm.
      pose proof (Z.mod_pos_bound (Z.of_N m) (10 ^ (k - e)) Hp) as Hmb.
      set (q := Z.of_N m / 10 ^ (k - e)) in *.
      change 1%Q with (inject_Z 1). rewrite <- inject_Z_plus.
      rewrite (scale_value q k e), (scale_value (q + 1) k e) by lia.
      split.
      * apply Qmult_le_compat_r; [|by apply Qlt_le_weak].
        rewrite <- Zle_Qle. lia.
      * apply Qmult_lt_compat_r; [done|].
        rewrite <- Zlt_Qlt. lia.
Qed.

Lemma le_zero_value (d : Decimal) (np : bool) :
  is_finite d = true -> le d zero = Ok np ->
  if np then (DtoQ d <= 0)%Q else (0 < DtoQ d)%Q.
Proof.
  destruct d as [s m e| |]; try discriminate. intros _.
  unfold le, cmp, zero, rbind. rewrite sval_zero, Z.mul_0_l.
  pose proof (pow10_pos (e - Z.min e 0) ltac:(lia)) as Hp.
  pose proof (pow10Q_pos e) as He.
  unfold DtoQ.
  destruct (Z.compare_spec (sval s m * 10 ^ (e - Z.min e 0)) 0) as [Hc|Hc|Hc];
    intros [= <-].
  - assert (sval s m = 0) as -> by nia. rewrite Qmult_0_l. apply Qle_refl.
  - assert (Hs : sval s m <= 0) by nia.
    rewrite <- (Qmult_0_l (Qpower (inject_Z 10) e)).
    apply Qmult_le_compat_r; [|by apply Qlt_le_weak].
    change 0%Q with (inject_Z 0). by rewrite <- Zle_Qle.
  - assert (Hs : 0 < sval s m) by nia.
    rewrite <- (Qmult_0_l (Qpower (inject_Z 10) e)).
    apply Qmult_lt_compat_r; [done|].
    change 0%Q with (inject_Z 0). by rewrite <- Zlt_Qlt.
Qed.

Lemma le_finite_or_inf (d : Decimal) (np : bool) :
  le d zero = Ok np -> d <> NaN false /\ d <> NaN true.
Proof. by destruct d as [| |[|]]. Qed.

(** ** C1: conservation in a buy *)

(** The claim of C1 fails on a buy of 1E-29 USD: the difference
    10000.00 - 1E-29 takes 33 digits, the context keeps 28, and the
    balance stays at 10000 while the claim wants it lower. *)
Lemma tiny_buy_keeps_balance :
  outcome (handle (H := ascii_text) tiny_buy) empty_db
    = Ok (Bought (Finite false 0 (-4)) "btc" (Finite false 1 (-29))
            (Finite false 1000000 (-2))) /\
  users (final (handle (H := ascii_text) tiny_buy) empty_db) !! 7
    = Some (Finite false 1000000000000000000000000000 (-23)) /\
  ~ @buy_conserves ascii_text.
Proof.
  assert (Ho : outcome (handle (H := ascii_text) tiny_buy) empty_db
               = Ok (Bought (Finite false 0 (-4)) "btc" (Finite false 1 (-29))
                       (Finite false 1000000 (-2))))
    by (vm_compute; reflexivity).
  assert (Hb : users (final (handle (H := ascii_text) tiny_buy) empty_db) !! 7
               = Some (Finite false 1000000000000000000000000000 (-23)))
    by (vm_compute; reflexivity).
  split; [exact Ho|]. split; [exact Hb|].
  intros Hclaim. unfold tiny_buy in Ho, Hb. cbn [handle] in Ho, Hb.
  specialize (Hclaim _ _ empty_db _ _ _ _ ledger_ok_empty Ho).
  unfold opening_balance in Hclaim. cbn [from_user_id command] in Hclaim.
  rewrite Hb in Hclaim. clear Ho Hb.
  vm_compute in Hclaim. discriminate Hclaim.
Qed.

(** C1 (amended).  For every buy that completes, with balance [B],
    amount [U] and fetched price [P]: [0 < U <= B]; the new balance is
    [B - U] as [Decimal] computes it, which is exactly [B - U] whenever
    that difference, written at the smaller exponent of the two, takes at
    most 28 digits; the coin amount is the quotient [U / P] as [Decimal]
    computes it (28 significant digits), cut toward zero to 4 decimal
    places; the holding becomes the old holding plus the coin amount
    (exact under the same condition), its row being absent when that sum
    is not above zero; no other balance and no other holding changes. *)
Theorem buy_conservation `{PyText} (E : env) (msg : message) (s : db)
    (coin_amount : Decimal) (coin : string) (usd_amount shown : Decimal) :
  ledger_ok s ->
  outcome (cmd_buy E msg) s = Ok (Bought coin_amount coin usd_amount shown) ->
  let user_id := from_user_id msg in
  let balance := opening_balance s user_id in
  let have := holding s user_id coin in
  let s' := final (cmd_buy E msg) s in
  exists symbol price quotient new_balance total nonpositive,
    dict_get AVAILABLE_COINS coin = Some symbol /\
    price_of E symbol = Some price /\
    is_positive usd_amount = true /\
    gt usd_amount balance = Ok false /\
    sub balance usd_amount = Ok new_balance /\
    users s' !! user_id = Some new_balance /\
    is_nonneg new_balance = true /\
    (exact_sum balance (copy_negate usd_amount) = true ->
       (DtoQ new_balance == DtoQ balance - DtoQ usd_amount)%Q) /\
    div usd_amount price = Ok quotient /\
    quantize quotient COIN_STEP ROUND_DOWN = Ok coin_amount /\
    truncated_to COIN_STEP quotient coin_amount /\
    add have coin_amount = Ok total /\
    le total zero = Ok nonpositive /\
    portfolio s' !! (user_id, coin)
      = (if nonpositive then None else Some total) /\
    (if nonpositive then (DtoQ total <= 0)%Q else (0 < DtoQ total)%Q) /\
    (exact_sum have coin_amount = true ->
       (DtoQ total == DtoQ have + DtoQ coin_amount)%Q) /\
    (forall u, u <> user_id -> users s' !! u = users s !! u) /\
    (forall u c, (u, c) <> (user_id, coin) ->
       portfolio s' !! (u, c) = portfolio s !! (u, c)).
Proof.
  intros Hok Ho. cbn zeta.
  apply buy_executed_inv in Ho
    as (text & symbol & price & quotient & nb & total & np & Hp & Hc & Hamt
        & Hg & Hpr & Hd & Hq & Hs & Hadd & Hle & Hsh & Hst).
  unfold buy_stores in Hst. destruct Hst as [Hfin _].
  set (user_id := from_user_id msg) in *.
  apply positive_amount_inv in Hamt as [_ Hpos].
  pose proof (ledger_ok_opening s user_id Hok) as Hnn.
  pose proof (nonneg_is_finite _ Hnn) as Hbfin.
  pose proof (accepted_amount_positive _ _ Hpos Hbfin Hg) as HU.
  assert (Hhfin : is_finite (holding s user_id coin) = true)
    by apply holding_finite, Hok.
  assert (Hcafin : is_finite coin_amount = true).
  { pose proof (quantize_cases _ _ _ _ Hq)
      as [[_ ->]|(? & ? & ? & ? & ? & _ & -> & _)]; [|done].
    exfalso. destruct (holding s user_id coin); try discriminate.
    simpl in Hadd. injection Hadd as <-. discriminate. }
  assert (Hqfin : is_finite quotient = true).
  { pose proof (quantize_cases _ _ _ _ Hq)
      as [[_ ->]|(? & ? & ? & ? & ? & -> & _ & _)]; [discriminate|done]. }
  exists symbol, price, quotient, nb, total, np.
  rewrite Hfin.
  split_and!; try done.
  - cbn [users sql_insert_history]. rewrite write_holding_users.
    cbn [users sql_update_balance set_users].
    by rewrite lookup_alter_eq, ensured_users.
  - exact (sub_nonneg _ _ _ Hbfin HU Hg Hs).
  - intros Hex. by apply sub_exact.
  - by apply quantize_down_truncates.
  - destruct np; cbn [portfolio sql_insert_history write_holding
                        sql_delete_holding sql_upsert_holding set_portfolio];
      [apply lookup_delete_eq | apply lookup_insert_eq].
  - apply le_zero_value; [|done]. exact (add_finite _ _ _ Hhfin Hcafin Hadd).
  - intros Hex. by apply add_exact.
  - intros u Hu. cbn [users sql_insert_history]. rewrite write_holding_users.
    cbn [users sql_update_balance set_users].
    rewrite lookup_alter_ne by done. unfold ensured.
    destruct (users s !! user_id) eqn:Hus; [done|].
    cbn [users sql_insert_user set_users].
    by rewrite lookup_insert_ne.
  - intros u c Huc.
    destruct np; cbn [portfolio sql_insert_history write_holding
                      sql_delete_holding sql_upsert_holding set_portfolio
                      sql_update_balance set_users];
      [rewrite lookup_delete_ne by done | rewrite lookup_insert_ne by done];
      by rewrite ensured_portfolio.
Qed.

Lemma buy_conservation_witness :
  ledger_ok empty_db /\
  outcome (cmd_buy (H := ascii_text) (quote "50000.00" 1700000000)
             (command 7 "btc 100")) empty_db
    = Ok (Bought (Finite false 20 (-4)) "btc" (Finite false 100 0)
            (Finite false 990000 (-2))) /\
  exists new_balance,
    users after_first_buy !! 7 = Some new_balance /\
    is_nonneg new_balance = true.
Proof.
  assert (Ho : outcome (cmd_buy (H := ascii_text) (quote "50000.00" 1700000000)
                          (command 7 "btc 100")) empty_db
               = Ok (Bought (Finite false 20 (-4)) "btc" (Finite false 100 0)
                       (Finite false 990000 (-2))))
    by (vm_compute; reflexivity).
  split; [apply ledger_ok_empty|]. split; [exact Ho|].
  destruct (buy_conservation _ _ _ _ _ _ _ ledger_ok_empty Ho)
    as (symbol & price & quotient & nb & total & np & _ & _ & _ & _ & _
        & Hu & Hnn & _).
  exists nb. split; [exact Hu | exact Hnn].
Defined.

(** ** C2: conservation in a sell *)

(** The claim of C2 fails on a sell of 1E-31 BTC out of 0.0020: the
    difference takes 29 digits, the context keeps 28, and the holding
    stays at 0.002 while the claim wants it lower. *)
Lemma tiny_sell_keeps_holding :
  outcome (handle (H := ascii_text) tiny_sell) after_first_buy
    = Ok (Sold (Finite false 1 (-31)) "btc" (Finite false 0 (-2))
            (Finite false 990000 (-2))) /\
  portfolio (final (handle (H := ascii_text) tiny_sell) after_first_buy)
    !! (7, "btc"%string)
    = Some (Finite false 2000000000000000000000000000 (-30)) /\
  ~ @sell_conserves ascii_text.
Proof.
  assert (Ho : outcome (handle (H := ascii_text) tiny_sell) after_first_buy
               = Ok (Sold (Finite false 1 (-31)) "btc" (Finite false 0 (-2))
                       (Finite false 990000 (-2))))
    by (vm_compute; reflexivity).
  assert (Hb : portfolio (final (handle (H := ascii_text) tiny_sell)
                            after_first_buy) !! (7, "btc"%string)
               = Some (Finite false 2000000000000000000000000000 (-30)))
    by (vm_compute; reflexivity).
  assert (Hh : portfolio after_first_buy !! (7, "btc"%string)
               = Some (Finite false 20 (-4)))
    by (vm_compute; reflexivity).
  split; [exact Ho|]. split; [exact Hb|].
  intros Hclaim. unfold tiny_sell in Ho, Hb. cbn [handle] in Ho, Hb.
  specialize (Hclaim _ _ after_first_buy _ _ _ _ after_first_buy_ok Ho).
  unfold holding in Hclaim. cbn [from_user_id command] in Hclaim.
  rewrite Hb, Hh in Hclaim. clear Ho Hb Hh.
  vm_compute in Hclaim. discriminate Hclaim.
Qed.

(** C2 (amended).  For every sell that completes, with holding [H],
    quantity [Q] and fetched price [P]: [0 < Q <= H]; the new holding is
    [H - Q] as [Decimal] computes it -- exactly [H - Q] whenever that
    difference, written at the smaller exponent of the two, takes at most
    28 digits -- and its row is deleted exactly when the result is not
    above zero; for a finite price the proceeds are the product [Q * P]
    as [Decimal] computes it (exact when the product of the coefficients
    takes at most 28 digits), cut toward zero to 2 decimal places; the
    new balance is the old balance plus the proceeds (exact under the
    same condition on the sum); no other balance and no other holding
    changes. *)
Theorem sell_conservation `{PyText} (E : env) (msg : message) (s : db)
    (coin_amount : Decimal) (coin : string) (usd_gain shown : Decimal) :
  ledger_ok s ->
  outcome (cmd_sell E msg) s = Ok (Sold coin_amount coin usd_gain shown) ->
  let user_id := from_user_id msg in
  let balance := opening_balance s user_id in
  let have := holding s user_id coin in
  let s' := final (cmd_sell E msg) s in
  exists symbol price product rest new_balance nonpositive,
    dict_get AVAILABLE_COINS coin = Some symbol /\
    price_of E symbol = Some price /\
    is_positive coin_amount = true /\
    gt coin_amount have = Ok false /\
    sub have coin_amount = Ok rest /\
    le rest zero = Ok nonpositive /\
    portfolio s' !! (user_id, coin)
      = (if nonpositive then None else Some rest) /\
    (if nonpositive then (DtoQ rest <= 0)%Q else (0 < DtoQ rest)%Q) /\
    is_nonneg rest = true /\
    (exact_sum have (copy_negate coin_amount) = true ->
       (DtoQ rest == DtoQ have - DtoQ coin_amount)%Q) /\
    mul coin_amount price = Ok product /\
    quantize product USD_STEP ROUND_DOWN = Ok usd_gain /\
    (is_finite price = true -> truncated_to USD_STEP product usd_gain) /\
    (exact_product coin_amount price = true ->
       (DtoQ product == DtoQ coin_amount * DtoQ price)%Q) /\
    add balance usd_gain = Ok new_balance /\
    users s' !! user_id = Some new_balance /\
    (exact_sum balance usd_gain = true ->
       (DtoQ new_balance == DtoQ balance + DtoQ usd_gain)%Q) /\
    (forall u, u <> user_id -> users s' !! u = users s !! u) /\
    (forall u c, (u, c) <> (user_id, coin) ->
       portfolio s' !! (u, c) = portfolio s !! (u, c)).
Proof.
  intros Hok Ho. cbn zeta.
  apply sell_executed_inv in Ho
    as (text & symbol & price & product & rest & nb & np & Hp & Hc & Hamt
        & Hg & Hpr & Hm & Hq & Hs & Hle & Hadd & Hsh & Hst).
  unfold sell_stores in Hst. destruct Hst as [Hfin _].
  set (user_id := from_user_id msg) in *.
  apply positive_amount_inv in Hamt as [_ Hpos].
  assert (Hhfin : is_finite (holding s user_id coin) = true)
    by apply holding_finite, Hok.
  pose proof (accepted_amount_positive _ _ Hpos Hhfin Hg) as HQ.
  assert (HQfin : is_finite coin_amount = true)
    by (by apply nonneg_is_finite, positive_nonneg).
  exists symbol, price, product, rest, nb, np.
  rewrite Hfin.
  split_and!; try done.
  - destruct np; cbn [portfolio sql_insert_history write_holding
                      sql_delete_holding sql_upsert_holding set_portfolio
                      sql_update_balance set_users];
      [apply lookup_delete_eq | apply lookup_insert_eq].
  - apply le_zero_value; [|done]. exact (sub_finite _ _ _ Hhfin HQfin Hs).
  - exact (sub_nonneg _ _ _ Hhfin HQ Hg Hs).
  - intros Hex. by apply sub_exact.
  - intros Hpf. apply quantize_down_truncates; [|done].
    destruct coin_amount as [sq mq eq| |]; try discriminate.
    destruct price as [sp mp ep| |]; try discriminate.
    unfold mul in Hm. simpl in Hm.
    by apply fix_finite in Hm as (? & ? & -> & _); [|lia].
  - intros Hex. by apply mul_exact.
  - cbn [users sql_insert_history sql_update_balance set_users].
    rewrite lookup_alter_eq, write_holding_users. by rewrite ensured_users.
  - intros Hex. by apply add_exact.
  - intros u Hu. cbn [users sql_insert_history sql_update_balance set_users].
    rewrite lookup_alter_ne by done. rewrite write_holding_users.
    unfold ensured.
    destruct (users s !! user_id) eqn:Hus; [done|].
    cbn [users sql_insert_user set_users].
    by rewrite lookup_insert_ne.
  - intros u c Huc.
    destruct np; cbn [portfolio sql_insert_history write_holding
                      sql_delete_holding sql_upsert_holding set_portfolio
                      sql_update_balance set_users];
      [rewrite lookup_delete_ne by done | rewrite lookup_insert_ne by done];
      by rewrite ensured_portfolio.
Qed.

Lemma sell_conservation_witness :
  ledger_ok after_first_buy /\
  outcome (cmd_sell (H := ascii_text) (quote "60000.00" 1700000060)
             (command 7 "btc 0.0020")) after_first_buy
    = Ok (Sold (Finite false 20 (-4)) "btc" (Finite false 12000 (-2))
            (Finite false 1002000 (-2))) /\
  portfolio after_first_sell !! (7, "btc"%string) = None.
Proof.
  assert (Ho : outcome (cmd_sell (H := ascii_text) (quote "60000.00" 1700000060)
                          (command 7 "btc 0.0020")) after_first_buy
               = Ok (Sold (Finite false 20 (-4)) "btc" (Finite false 12000 (-2))
                       (Finite false 1002000 (-2))))
    by (vm_compute; reflexivity).
  split; [apply after_first_buy_ok|]. split; [exact Ho|].
  destruct (sell_conservation _ _ _ _ _ _ _ after_first_buy_ok Ho)
    as (symbol & price & product & rest & nb & np & _ & _ & _ & _ & Hsub
        & Hle & Hport & _).
  assert (Hnp : np = true).
  { assert (Hh : holding after_first_buy 7 "btc" = Finite false 20 (-4))
      by (vm_compute; reflexivity).
    cbn [from_user_id command] in Hsub. rewrite Hh in Hsub.
    vm_compute in Hsub. injection Hsub as <-.
    vm_compute in Hle. by injection Hle as <-. }
  rewrite Hnp in Hport. exact Hport.
Defined.

(** * Further properties of the helpers and handlers *)

(** ** The account helpers *)

(** X1.  [ensure_user] creates the account with 10000.00 when the user has no
    row and writes nothing otherwise: a balance that exists is never
    reset, a second call changes nothing, and no other user, holding or
    history row is touched. *)
Theorem ensure_user_creates_once (user_id : Z) (s : db) :
  let s1 := final (ensure_user user_id) s in
  outcome (ensure_user user_id) s = Ok tt /\
  users s1 !! user_id
    = Some (match users s !! user_id with
            | Some b => b
            | None => INITIAL_USD_BALANCE
            end) /\
  (is_Some (users s !! user_id) -> s1 = s /\ events (ensure_user user_id) s = []) /\
  final (ensure_user user_id) s1 = s1 /\
  events (ensure_user user_id) s1 = [] /\
  (forall u, u <> user_id -> users s1 !! u = users s !! u) /\
  portfolio s1 = portfolio s /\ history s1 = history s.
Proof.
  cbn zeta. rewrite !run_outcome, !run_final, !run_events, !ensure_user_run.
  cbn [fst snd store log fresh_world app].
  rewrite ensured_idem.
  split; [done|]. split; [apply ensured_users|].
  split.
  { intros [b Hb]. unfold ensured, ensure_events. by rewrite Hb. }
  split; [done|]. split.
  { unfold ensure_events. by rewrite ensured_users. }
  split; [|split; [apply ensured_portfolio | apply ensured_history]].
  intros u Hu. unfold ensured. destruct (users s !! user_id); [done|].
  cbn. by rewrite lookup_insert_ne.
Qed.

(** X2.  [update_usd_balance] followed by [get_usd_balance] reads the balance
    written when the user has a row; when the user has none the UPDATE
    matches nothing, the store is unchanged and the balance read is 0.
    No other user and no holding is touched. *)
Theorem balance_write_then_read (user_id : Z) (new_balance : Decimal) (s : db) :
  let s' := final (update_usd_balance user_id new_balance) s in
  outcome (update_usd_balance user_id new_balance) s = Ok tt /\
  outcome (get_usd_balance user_id) s'
    = Ok (match users s !! user_id with
          | Some _ => new_balance
          | None => zero
          end) /\
  (users s !! user_id = None -> s' = s) /\
  (forall u, u <> user_id ->
     outcome (get_usd_balance u) s' = outcome (get_usd_balance u) s) /\
  portfolio s' = portfolio s /\ history s' = history s.
Proof.
  cbn zeta. rewrite !run_outcome, !run_final.
  unfold update_usd_balance, get_usd_balance, commit, bind, read, ret.
  cbn [fst snd store log fresh_world].
  split; [done|]. unfold sql_update_balance. cbn [users set_users].
  rewrite lookup_alter_eq.
  split; [by destruct (users s !! user_id)|].
  split.
  { intros Hn. destruct s as [us ps hs sq]. unfold set_users. cbn in *.
    f_equal. apply map_eq. intros u. rewrite lookup_alter.
    destruct (decide (user_id = u)) as [->|]; [by rewrite Hn | done]. }
  split; [|done].
  intros u Hu. rewrite !run_outcome. cbn [fst snd store log fresh_world].
  unfold sql_update_balance. cbn [users set_users].
  by rewrite lookup_alter_ne.
Qed.

Lemma update_portfolio_run (user_id : Z) (coin : string) (amount : Decimal)
    (w : world) :
  update_portfolio user_id coin amount w =
  match le amount zero with
  | Raise e => (Raise e, w)
  | Ok nonpositive =>
      if (negb nonpositive && bool_decide (users (store w) !! user_id = None))%bool
      then (Raise IntegrityError, w)
      else
        let s' := write_holding user_id coin amount nonpositive (store w) in
        (Ok tt, {| store := s'; log := log w ++ [EvCommit s'] |})
  end.
Proof.
  unfold update_portfolio, bind, lift, read, commit.
  destruct (le amount zero) as [[|]|e]; [done| |done].
  cbn [negb andb write_holding].
  destruct (users (store w) !! user_id) eqn:Hu; by rewrite ?Hu.
Qed.

(** X3.  [update_portfolio] followed by [get_portfolio]: an amount above zero
    is read back under its coin, an amount of zero or less leaves no entry
    for the coin; the other coins of the user and the portfolios of the
    other users are as before.  An amount that cannot be compared with
    zero and an upsert for a user without a row raise and write
    nothing. *)
Theorem portfolio_write_then_read (user_id : Z) (coin : string)
    (amount : Decimal) (s : db) :
  let s' := final (update_portfolio user_id coin amount) s in
  let read := outcome (get_portfolio user_id) s' in
  match le amount zero with
  | Raise e =>
      outcome (update_portfolio user_id coin amount) s = Raise e /\ s' = s
  | Ok true =>
      outcome (update_portfolio user_id coin amount) s = Ok tt /\
      exists d, read = Ok d /\ d !! coin = None
  | Ok false =>
      match users s !! user_id with
      | None =>
          outcome (update_portfolio user_id coin amount) s
            = Raise IntegrityError /\ s' = s
      | Some _ =>
          outcome (update_portfolio user_id coin amount) s = Ok tt /\
          exists d, read = Ok d /\ d !! coin = Some amount
      end
  end /\
  (forall c, c <> coin ->
     select_portfolio user_id s' !! c = select_portfolio user_id s !! c) /\
  (forall u, u <> user_id -> select_portfolio u s' = select_portfolio u s) /\
  users s' = users s /\ history s' = history s.
Proof.
  cbn zeta. rewrite !run_outcome, !run_final, update_portfolio_run.
  unfold get_portfolio, read. cbn [fst snd store log fresh_world].
  destruct (le amount zero) as [[|]|e]; cbn [fst snd store log negb andb].
  - split; [split; [done|]|].
    + eexists. split; [reflexivity|].
      rewrite select_portfolio_lookup. apply lookup_delete_eq.
    + split; [|split; [|done]].
      * intros c Hc. rewrite !select_portfolio_lookup. cbn.
        apply lookup_delete_ne. congruence.
      * intros u Hu. apply map_eq. intros c.
        rewrite !select_portfolio_lookup. cbn.
        apply lookup_delete_ne. congruence.
  - destruct (users s !! user_id) as [b|] eqn:Hb; cbn [fst snd store log].
    + rewrite bool_decide_eq_false_2 by done. cbn [fst snd store log].
      split; [split; [done|]|].
      * eexists. split; [reflexivity|].
        rewrite select_portfolio_lookup. apply lookup_insert_eq.
      * split; [|split; [|done]].
        -- intros c Hc. rewrite !select_portfolio_lookup. cbn.
           apply lookup_insert_ne. congruence.
        -- intros u Hu. apply map_eq. intros c.
           rewrite !select_portfolio_lookup. cbn.
           apply lookup_insert_ne. congruence.
    + rewrite bool_decide_eq_true_2 by done. done.
  - done.
Qed.

(** ** The history helpers *)

Lemma filter_user_app (user_id : Z) (l1 l2 : list history_row) :
  List.filter (fun r => h_user r =? user_id) (l1 ++ l2)
  = List.filter (fun r => h_user r =? user_id) l1
    ++ List.filter (fun r => h_user r =? user_id) l2.
Proof. apply List.filter_app. Qed.

(** X4.  [add_history] followed by [get_history]: for a user with an account
    the row is appended with the next id and the current time, and the
    user's unbounded history gains exactly that row; the histories of
    the other users, the balances and the holdings are as before.  For a
    user without an account the foreign key fails: the call raises and
    writes nothing. *)
Theorem history_write_then_read (E : env) (user_id : Z) (action coin : string)
    (amount price : Decimal) (s : db) :
  let m := add_history E user_id action coin amount price in
  let s' := final m s in
  let row := {| h_id := history_seq s + 1; h_user := user_id;
                h_action := action; h_coin := coin; h_amount := amount;
                h_price := price; h_timestamp := now E |} in
  match users s !! user_id with
  | None => outcome m s = Raise IntegrityError /\ s' = s /\ events m s = []
  | Some _ =>
      outcome m s = Ok tt /\
      history s' = history s ++ [row] /\
      history_seq s' = history_seq s + 1 /\
      exists shown, outcome (get_history user_id (-1)) s' = Ok shown /\
        Permutation shown (row :: select_history user_id (-1) s)
  end /\
  (forall u limit, u <> user_id ->
     select_history u limit s' = select_history u limit s) /\
  users s' = users s /\ portfolio s' = portfolio s.
Proof.
  cbn zeta. rewrite !run_outcome, !run_final, !run_events.
  unfold add_history, get_history, bind, read, lift, commit.
  cbn [fst snd store log fresh_world].
  destruct (users s !! user_id) as [b|] eqn:Hb; cbn [fst snd store log].
  - split; [|split; [|done]].
    + split; [done|]. split; [done|]. split; [done|].
      eexists. split; [reflexivity|].
      cbn [fst snd store fresh_world].
      unfold select_history, sql_limit. cbn [Z.ltb Z.compare history sql_insert_history].
      rewrite filter_user_app. cbn [List.filter h_user].
      rewrite Z.eqb_refl.
      rewrite (proj2 (order_by_timestamp_desc_spec _)).
      rewrite (proj2 (order_by_timestamp_desc_spec _)).
      by rewrite <- Permutation_cons_append.
    + intros u limit Hu. unfold select_history.
      cbn [history sql_insert_history]. rewrite filter_user_app.
      cbn [List.filter h_user].
      destruct (Z.eqb_spec user_id u) as [->|_]; [done|].
      by rewrite app_nil_r.
  - done.
Qed.

Lemma increasing_filter (f : history_row -> bool) (l : list history_row) :
  increasing_timestamps l -> increasing_timestamps (List.filter f l).
Proof.
  induction l as [|x l IH]; simpl; [done|].
  intros [Hx Hl]. destruct (f x); simpl; [|by apply IH].
  split; [|by apply IH].
  apply List.Forall_forall. intros y Hy. apply List.filter_In in Hy as [Hy _].
  rewrite List.Forall_forall in Hx. by apply Hx.
Qed.

Lemma order_increasing (rows : list history_row) :
  increasing_timestamps rows -> order_by_timestamp_desc rows = rev rows.
Proof.
  unfold order_by_timestamp_desc.
  assert (Hgen : forall acc,
    Forall (fun a => Forall (fun y => h_timestamp a < h_timestamp y) rows) acc ->
    increasing_timestamps rows ->
    fold_left (fun acc r => insert_desc r acc) rows acc = rev rows ++ acc).
  { induction rows as [|r rows IH]; intros acc Hacc Hinc; [done|].
    destruct Hinc as [Hr Hinc]. cbn [fold_left rev].
    assert (Hi : insert_desc r acc = r :: acc).
    { destruct acc as [|a acc]; [done|]. simpl.
      apply Forall_cons_1 in Hacc as [Ha _].
      apply Forall_cons_1 in Ha as [Ha _].
      by rewrite (proj2 (Z.ltb_lt _ _) Ha). }
    rewrite Hi, IH; [by rewrite <- app_assoc | | done].
    apply Forall_cons_2; [done|].
    eapply Forall_impl; [exact Hacc|]. cbn beta.
    intros a Ha. by apply Forall_cons_1 in Ha as [_ Ha]. }
  intros Hinc. rewrite Hgen; [by rewrite app_nil_r | constructor | done].
Qed.

(** X5.  When the timestamps of the history rows grow with the row id (no two
    trades in one second), [get_history] returns the rows of the user
    latest trade first, in the reverse of the order in which they were
    written, cut to the limit. *)
Theorem history_latest_first (s : db) (user_id limit : Z) :
  increasing_timestamps (history s) ->
  outcome (get_history user_id limit) s
  = Ok (sql_limit limit
          (rev (List.filter (fun r => h_user r =? user_id) (history s)))).
Proof.
  intros Hinc. rewrite run_outcome. unfold get_history, read, select_history.
  cbn [fst]. by rewrite order_increasing by by apply increasing_filter.
Qed.

Lemma history_latest_first_witness :
  increasing_timestamps (history after_first_sell) /\
  outcome (get_history 7 10) after_first_sell
  = Ok (sql_limit 10
          (rev (List.filter (fun r => h_user r =? 7) (history after_first_sell)))).
Proof.
  assert (Hinc : increasing_timestamps (history after_first_sell)).
  { vm_compute. repeat constructor. }
  split; [exact Hinc|].
  exact (history_latest_first after_first_sell 7 10 Hinc).
Defined.

(** ** The informational handlers *)

Lemma round_half_even_close (m k : Z) :
  0 <= m -> 0 <= k ->
  2 * Z.abs (round_half_even m k * 10 ^ k - m) <= 10 ^ k.
Proof.
  intros Hm Hk. unfold round_half_even.
  pose proof (pow10_pos k Hk) as Hp.
  pose proof (Z.div_mod m (10 ^ k) ltac:(lia)) as Hdm.
  pose proof (Z.mod_pos_bound m (10 ^ k) Hp) as Hmb.
  set (q := m / 10 ^ k) in *. set (r := m mod 10 ^ k) in *.
  destruct (Z.ltb_spec (10 ^ k) (2 * r)) as [Hlt|Hge]; cbn [orb].
  - nia.
  - destruct (Z.eqb_spec (2 * r) (10 ^ k)) as [Heq|Hne]; cbn [andb].
    + destruct (Z.odd q); nia.
    + nia.
Qed.

(** [quantize] with ROUND_HALF_EVEN on a finite value gives a value at
    the exponent within half a unit of it. *)
Lemma quantize_half_even_rounds (x t : Decimal) (k : Z) :
  is_finite x = true -> quantize x k ROUND_HALF_EVEN = Ok t ->
  rounded_to k x t.
Proof.
  destruct x as [s m e| |]; try discriminate. intros _.
  unfold quantize.
  destruct ((Etiny <=? k) && (k <=? Emax)) eqn:Hrange; [|discriminate].
  apply andb_true_iff in Hrange as [Hlo%Z.leb_le Hhi%Z.leb_le].
  cbn [negb].
  assert (Hzero : forall d, fix_ s 0 k = Ok d -> d = Finite s 0 k).
  { unfold fix_. simpl. intros d [= <-]. f_equal. lia. }
  pose proof (pow10Q_pos k) as Hk. pose proof (pow10Q_pos e) as He.
  assert (Hhalf : (0 <= Qpower (inject_Z 10) k / inject_Z 2)%Q).
  { apply Qlt_le_weak, Qlt_shift_div_l; [reflexivity|].
    by rewrite Qmult_0_l. }
  destruct (Z.eqb_spec (Z.of_N m) 0) as [Hm|Hm].
  - intros ->%Hzero. exists s, m, e, 0%N. split; [done|]. split; [done|].
    replace m with 0%N by lia.
    change (inject_Z (Z.of_N 0)) with 0%Q. rewrite !Qmult_0_l.
    exact Hhalf.
  - destruct (Emax <? _); [discriminate|].
    destruct (prec <? _); [discriminate|].
    destruct (Emax <? _); [discriminate|].
    destruct (Z.ltb_spec prec (ndigits (rescale ROUND_HALF_EVEN (Z.of_N m) e k)))
      as [|Hnd]; [discriminate|].
    set (c := rescale ROUND_HALF_EVEN (Z.of_N m) e k) in *.
    assert (Hc0 : 0 <= c) by (apply rescale_nonneg; lia).
    intros Hfix.
    assert (Ht : t = Finite s (Z.to_N c) k).
    { destruct (Z.eq_dec c 0) as [Hc|Hc].
      - rewrite Hc in *. by apply Hzero in Hfix.
      - apply fix_exact in Hfix; [done|lia|done|done]. }
    exists s, m, e, (Z.to_N c). split; [done|]. split; [done|].
    rewrite Z2N.id by done.
    unfold c, rescale. destruct (Z.eqb_spec (Z.of_N m) 0) as [|_]; [done|].
    destruct (Z.leb_spec k e) as [Hke|Hke].
    + rewrite (scale_value (Z.of_N m) e k) by done.
      unfold Qminus. rewrite Qplus_opp_r. exact Hhalf.
    + pose proof (round_half_even_close (Z.of_N m) (k - e) ltac:(lia) ltac:(lia))
        as Hcl.
      set (c' := round_half_even (Z.of_N m) (k - e)) in *.
      rewrite (scale_value c' k e) by lia.
      assert (Hd : (inject_Z (c' * 10 ^ (k - e)) * Qpower (inject_Z 10) e
                    - inject_Z (Z.of_N m) * Qpower (inject_Z 10) e
                    == inject_Z (c' * 10 ^ (k - e) - Z.of_N m)
                       * Qpower (inject_Z 10) e)%Q)
        by (unfold Z.sub; rewrite inject_Z_plus, inject_Z_opp; ring).
      rewrite Hd, Qabs_Qmult, (Qabs_pos (Qpower _ e)) by by apply Qlt_le_weak.
      change (Qabs (inject_Z (c' * 10 ^ (k - e) - Z.of_N m)))
        with (inject_Z (Z.abs (c' * 10 ^ (k - e) - Z.of_N m))).
      apply Qle_shift_div_l; [reflexivity|].
      assert (Hs : (Qpower (inject_Z 10) k
                    == inject_Z (10 ^ (k - e)) * Qpower (inject_Z 10) e)%Q).
      { rewrite <- (Qmult_1_l (Qpower _ k)). change 1%Q with (inject_Z 1).
        rewrite (scale_value 1 k e) by lia. by rewrite Z.mul_1_l. }
      rewrite Hs.
      rewrite <- Qmult_assoc, (Qmult_comm (Qpower _ e)), Qmult_assoc.
      apply Qmult_le_compat_r; [|by apply Qlt_le_weak].
      rewrite <- inject_Z_mult, <- Zle_Qle. lia.
Qed.

Section Informational.
Context `{PyText} `{PyStrip}.

Lemma cmd_balance_run (msg : message) (w : world) :
  cmd_balance msg w
  = (rbind (quantize (opening_balance (store w) (from_user_id msg))
              USD_STEP ROUND_HALF_EVEN)
           (fun shown => Ok (BalanceIs shown)),
     {| store := ensured (store w) (from_user_id msg);
        log := log w ++ ensure_events (store w) (from_user_id msg) |}).
Proof.
  unfold cmd_balance. cbn zeta. unfold bind at 1. rewrite ensure_user_run.
  unfold bind at 1, get_usd_balance at 1, bind at 1, read, ret.
  cbn [store log]. rewrite ensured_users.
  unfold bind, lift, ret. by destruct (quantize _ _ _).
Qed.

Lemma cmd_price_run (E : env) (msg : message) (w : world) :
  cmd_price E msg w =
  let arg := str_lower (str_strip (get_args msg)) in
  if String.eqb arg "" then (Ok UsagePrice, w)
  else
    match dict_get AVAILABLE_COINS arg with
    | None => (Ok (UnknownCoinOf (dict_keys AVAILABLE_COINS)), w)
    | Some symbol =>
        (match price_of E symbol with
         | None => Ok (PriceFailedFor arg)
         | Some price =>
             rbind (quantize price USD_STEP ROUND_HALF_EVEN)
                   (fun shown => Ok (PriceIs arg shown))
         end,
         {| store := store w; log := log w ++ fetch_events symbol |})
    end.
Proof.
  unfold cmd_price. cbn zeta.
  destruct (String.eqb _ ""); [done|].
  destruct (dict_get _ _) as [symbol|]; [|done].
  unfold bind at 1. rewrite get_price_run.
  destruct (price_of E symbol) as [price|]; [|done].
  unfold bind, lift, ret. by destruct (quantize _ _ _).
Qed.

End Informational.

(** X6.  [cmd_balance] creates the account of a new user and writes nothing
    else, and sends no request.  It answers the balance rounded half-even
    to cents: 10000.00 for a new user, and for a user with a finite
    balance an amount within half a cent of the stored one. *)
Theorem cmd_balance_shows_balance (msg : message) (s : db) :
  let user_id := from_user_id msg in
  let balance := opening_balance s user_id in
  final (cmd_balance msg) s = ensured s user_id /\
  events (cmd_balance msg) s = ensure_events s user_id /\
  (users s !! user_id = None ->
     outcome (cmd_balance msg) s = Ok (BalanceIs INITIAL_USD_BALANCE)) /\
  (forall a, outcome (cmd_balance msg) s = Ok a ->
     exists shown, a = BalanceIs shown /\
       quantize balance USD_STEP ROUND_HALF_EVEN = Ok shown /\
       (is_finite balance = true -> rounded_to USD_STEP balance shown)).
Proof.
  cbn zeta. rewrite run_outcome, run_final, run_events, cmd_balance_run.
  cbn [fst snd store log fresh_world app].
  split; [done|]. split; [done|]. split.
  - intros Hn. unfold opening_balance. by rewrite Hn.
  - intros a.
    destruct (quantize _ _ _) as [shown|] eqn:Hq; [|discriminate].
    intros [= <-]. exists shown. split; [done|]. split; [done|].
    intros Hfin. by apply quantize_half_even_rounds.
Qed.

(** X7.  [cmd_price] never writes.  It sends at most one request, and only
    for a listed coin other than usdt; an empty argument gets the usage
    line, an unlisted coin the list of coins, a failed fetch the failure
    line, and a finite price is shown rounded half-even to cents. *)
Theorem cmd_price_answers `{PyText} `{PyStrip} (E : env) (msg : message) (s : db) :
  let arg := str_lower (str_strip (get_args msg)) in
  let m := cmd_price E msg in
  final m s = s /\
  commits (events m s) = [] /\
  match dict_get AVAILABLE_COINS arg with
  | None =>
      events m s = [] /\
      outcome m s = Ok (if String.eqb arg "" then UsagePrice
                        else UnknownCoinOf (dict_keys AVAILABLE_COINS))
  | Some symbol =>
      requests (events m s)
        = (if String.eqb symbol "USDTUSDT" then [] else [symbol]) /\
      match price_of E symbol with
      | None => outcome m s = Ok (PriceFailedFor arg)
      | Some price =>
          forall a, outcome m s = Ok a ->
            exists shown, a = PriceIs arg shown /\
              (is_finite price = true -> rounded_to USD_STEP price shown)
      end
  end.
Proof.
  cbn zeta. rewrite run_outcome, run_final, run_events, cmd_price_run.
  cbn zeta.
  destruct (String.eqb_spec (str_lower (str_strip (get_args msg))) "")
    as [Harg|Harg].
  { rewrite Harg. cbn. done. }
  destruct (dict_get _ _) as [symbol|]; cbn [fst snd store log fresh_world app];
    [|done].
  split; [done|]. split; [apply commits_fetch|].
  split; [unfold fetch_events; by destruct (String.eqb symbol _)|].
  destruct (price_of E symbol) as [price|]; [|done].
  intros a. destruct (quantize _ _ _) as [shown|] eqn:Hq; [|discriminate].
  intros [= <-]. exists shown. split; [done|].
  intros Hfin. by apply quantize_half_even_rounds.
Qed.

(** X8.  [cmd_coins] writes nothing and sends nothing, and the coins it lists
    are the ones the other handlers accept: [cmd_buy] and [cmd_sell]
    answer "unknown coin" for exactly the coins that are not listed, and
    so does [cmd_price]. *)
Theorem listed_coins_are_accepted `{PyText} `{PyStrip} (s : db) :
  exists names,
    outcome cmd_coins s = Ok (Coins names) /\
    final cmd_coins s = s /\ events cmd_coins s = [] /\
    NoDup names /\
    (forall E msg coin text,
       str_split (str_lower (get_args msg)) = [coin; text] ->
       (In coin names <-> outcome (cmd_buy E msg) s <> Ok UnknownCoin) /\
       (In coin names <-> outcome (cmd_sell E msg) s <> Ok UnknownCoin)) /\
    (forall E msg,
       let arg := str_lower (str_strip (get_args msg)) in
       arg <> "" ->
       (In arg names <->
        outcome (cmd_price E msg) s <> Ok (UnknownCoinOf names))).
Proof.
  exists (dict_keys AVAILABLE_COINS).
  split; [done|]. split; [done|]. split; [done|].
  assert (Hin : forall coin,
            In coin (dict_keys AVAILABLE_COINS)
            <-> is_Some (dict_get AVAILABLE_COINS coin)).
  { intros coin. unfold AVAILABLE_COINS, dict_keys. cbn [map fst dict_get In].
    repeat match goal with
           | |- context [String.eqb ?a coin] =>
               destruct (String.eqb_spec a coin) as [<-|?]
           end.
    all: split; [intros Hx | intros [x Hx]].
    all: try (by eauto).
    all: try discriminate Hx.
    all: try (by intuition congruence).
    all: auto 10. }
  split.
  { unfold AVAILABLE_COINS, dict_keys. cbn [map fst].
    repeat (apply NoDup_cons_2;
              [rewrite ?elem_of_cons, elem_of_nil; intuition discriminate|]).
    apply NoDup_nil_2. }
  split.
  - intros E msg coin text Hparts. rewrite !Hin, !run_outcome.
    rewrite cmd_buy_run, cmd_sell_run, Hparts.
    destruct (dict_get AVAILABLE_COINS coin) as [symbol|].
    + split; (split; [intros _|by eauto]).
      * destruct (positive_amount text); [|discriminate]. cbn zeta.
        destruct (gt _ _) as [[|]|]; cbn [fst]; [| |discriminate].
        -- by destruct (quantize _ _ _).
        -- destruct (price_of _ _); [|discriminate].
           intros Ho. eapply buy_apply_reply in Ho as (? & ? & [=]).
           cbn [store]. apply ensured_users.
      * destruct (positive_amount text); [|discriminate]. cbn zeta.
        destruct (gt _ _) as [[|]|]; cbn [fst]; [discriminate| |discriminate].
        destruct (price_of _ _); [|discriminate].
        intros Ho. eapply sell_apply_reply in Ho as (? & ? & [=]).
        cbn [store]. apply ensured_users.
    + split; (split; [by intros [? ?]|]); cbn [fst]; done.
  - intros E msg arg Harg. rewrite Hin, run_outcome, cmd_price_run. cbn zeta.
    fold arg. rewrite (proj2 (String.eqb_neq _ _) Harg).
    destruct (dict_get AVAILABLE_COINS arg) as [symbol|].
    + split; [intros _|by eauto]. cbn [fst].
      destruct (price_of _ _); [|discriminate].
      by destruct (quantize _ _ _).
    + split; [by intros [? ?]|]. cbn [fst]. done.
Qed.

(** ** The exceptions of the decimal operations *)

Lemma fix_signal (s : bool) (m e : Z) (x : exn) :
  fix_ s m e = Raise x -> is_decimal_signal x = true.
Proof.
  unfold fix_. repeat case_match; by intros [= <-].
Qed.

Lemma check_nans_signal (x y : Decimal) (e : exn) :
  check_nans x y = Some (Raise e) -> is_decimal_signal e = true.
Proof.
  unfold check_nans. repeat case_match; by intros [= <-].
Qed.

Lemma add_signal (x y : Decimal) (e : exn) :
  add x y = Raise e -> is_decimal_signal e = true.
Proof.
  unfold add. destruct (check_nans x y) as [r|] eqn:Hn.
  { intros ->. by apply check_nans_signal in Hn. }
  destruct x, y; try discriminate; try apply fix_signal.
  case_match; [discriminate|by intros [= <-]].
Qed.

Lemma sub_signal (x y : Decimal) (e : exn) :
  sub x y = Raise e -> is_decimal_signal e = true.
Proof.
  unfold sub. destruct (check_nans x y) as [r|] eqn:Hn.
  { intros ->. by apply check_nans_signal in Hn. }
  apply add_signal.
Qed.

Lemma mul_signal (x y : Decimal) (e : exn) :
  mul x y = Raise e -> is_decimal_signal e = true.
Proof.
  unfold mul. destruct (check_nans x y) as [r|] eqn:Hn.
  { intros ->. by apply check_nans_signal in Hn. }
  destruct x, y; try discriminate; try apply fix_signal;
    case_match; (discriminate || by intros [= <-]).
Qed.

Lemma div_signal (x y : Decimal) (e : exn) :
  div x y = Raise e -> is_decimal_signal e = true.
Proof.
  unfold div. destruct (check_nans x y) as [r|] eqn:Hn.
  { intros ->. by apply check_nans_signal in Hn. }
  destruct x, y; try discriminate; [|by intros [= <-]].
  cbn zeta. repeat case_match; try (by intros [= <-]); apply fix_signal.
Qed.

Lemma quantize_signal (x : Decimal) (k : Z) (rnd : rounding) (e : exn) :
  quantize x k rnd = Raise e -> is_decimal_signal e = true.
Proof.
  unfold quantize. repeat case_match; try discriminate;
    try (by intros [= <-]); apply fix_signal.
Qed.

Lemma cmp_signal (x y : Decimal) (e : exn) :
  cmp x y = Raise e -> is_decimal_signal e = true.
Proof. destruct x, y; cbn; try discriminate; by intros [= <-]. Qed.

Lemma le_signal (x y : Decimal) (e : exn) :
  le x y = Raise e -> is_decimal_signal e = true.
Proof.
  unfold le, rbind. destruct (cmp x y) eqn:Hc; [discriminate|].
  intros [= <-]. by apply cmp_signal in Hc.
Qed.

Lemma gt_signal (x y : Decimal) (e : exn) :
  gt x y = Raise e -> is_decimal_signal e = true.
Proof.
  unfold gt, rbind. destruct (cmp x y) eqn:Hc; [discriminate|].
  intros [= <-]. by apply cmp_signal in Hc.
Qed.

(** ** [cmd_portfolio] *)

Section Portfolio.
Context `{PyText}.

Lemma price_of_coin_run (E : env) (coin : string) (w : world) :
  exists price,
    price_of_coin E coin w
    = (Ok price, {| store := store w; log := log w ++ coin_events coin |}).
Proof.
  unfold price_of_coin, coin_events.
  destruct (dict_get _ _) as [symbol|].
  - destruct (String.eqb symbol "").
    + exists None. unfold ret. rewrite app_nil_r. by destruct w.
    + exists (price_of E symbol). apply get_price_run.
  - exists None. unfold ret. rewrite app_nil_r. by destruct w.
Qed.

Lemma portfolio_loop_cons (E : env) (coin : string) (amt : Decimal)
    (items : list (string * Decimal)) (total : Decimal)
    (lines : list holding_line) (w : world) :
  let w1 := {| store := store w; log := log w ++ coin_events coin |} in
  exists value : result Decimal,
    (forall e, value = Raise e -> is_decimal_signal e = true) /\
    portfolio_loop E ((coin, amt) :: items) total lines w =
    match value with
    | Raise e => (Raise e, w1)
    | Ok value =>
        match add total value with
        | Raise e => (Raise e, w1)
        | Ok total' =>
            match quantize amt COIN_STEP ROUND_HALF_EVEN with
            | Raise e => (Raise e, w1)
            | Ok shown =>
                portfolio_loop E items total'
                  (lines ++ [{| l_coin := coin; l_amount := shown;
                                l_value := value |}]) w1
            end
        end
    end.
Proof.
  cbn zeta. cbn [portfolio_loop]. unfold bind at 1.
  destruct (price_of_coin_run E coin w) as [price ->].
  set (w1 := {| store := store w; log := log w ++ coin_events coin |}).
  assert (Hvalue : exists value : result Decimal,
    (forall e, value = Raise e -> is_decimal_signal e = true) /\
    (match price with
     | Some price0 =>
         if truthy price0
         then let* product := lift (mul amt price0)
              in lift (quantize product USD_STEP ROUND_HALF_EVEN)
         else ret zero
     | None => ret zero
     end) w1 = (value, w1)).
  { destruct price as [p|]; [|by exists (Ok zero)].
    destruct (truthy p); [|by exists (Ok zero)].
    unfold bind, lift. destruct (mul amt p) as [product|e0] eqn:Hm.
    - exists (quantize product USD_STEP ROUND_HALF_EVEN).
      split; [|done]. intros e. apply quantize_signal.
    - exists (Raise e0). split; [|done].
      intros e [= <-]. by apply mul_signal in Hm. }
  destruct Hvalue as (value & Hsig & Hvalue). exists value.
  split; [exact Hsig|].
  unfold bind at 1. rewrite Hvalue.
  destruct value as [value|e]; [|done].
  unfold bind at 1, lift at 1.
  destruct (add total value) as [total'|e]; [|done].
  unfold bind at 1, lift at 1.
  by destruct (quantize amt COIN_STEP ROUND_HALF_EVEN) as [shown|e].
Qed.

(** The loop sends the requests of the items it reaches, in their order,
    and writes nothing; when it ends without an exception it has reached
    every item and added one line for each. *)
Lemma portfolio_loop_run (E : env) (items : list (string * Decimal))
    (total : Decimal) (lines : list holding_line) (w : world) :
  exists asked,
    asked `prefix_of` items /\
    store (portfolio_loop E items total lines w).2 = store w /\
    log (portfolio_loop E items total lines w).2
      = log w ++ flat_map (fun i => coin_events i.1) asked /\
    forall tl, (portfolio_loop E items total lines w).1 = Ok tl ->
      asked = items /\
      exists added, tl.2 = lines ++ added /\ map l_coin added = map fst items.
Proof.
  revert total lines w.
  induction items as [|[coin amt] items IH]; intros total lines w.
  - exists []. cbn. rewrite app_nil_r. split; [done|]. split; [done|].
    split; [done|]. intros tl [= <-]. split; [done|].
    exists []. by rewrite app_nil_r.
  - destruct (portfolio_loop_cons E coin amt items total lines w)
      as (value & _ & ->).
    set (w1 := {| store := store w; log := log w ++ coin_events coin |}).
    assert (Hstop : forall e : exn,
      exists asked, asked `prefix_of` (coin, amt) :: items /\
        store (@Raise (Decimal * list holding_line) e, w1).2 = store w /\
        log (@Raise (Decimal * list holding_line) e, w1).2
          = log w ++ flat_map (fun i : string * Decimal => coin_events i.1) asked /\
        forall tl : Decimal * list holding_line,
          (@Raise (Decimal * list holding_line) e, w1).1 = Ok tl ->
          asked = (coin, amt) :: items /\
          exists added, tl.2 = lines ++ added /\
            map l_coin added = map fst ((coin, amt) :: items)).
    { intros e. exists [(coin, amt)].
      split; [apply prefix_cons, prefix_nil|]. split; [done|].
      split; [cbn; by rewrite app_nil_r|]. discriminate. }
    destruct value as [value|e]; [|apply Hstop].
    destruct (add total value) as [total'|e]; [|apply Hstop].
    destruct (quantize amt COIN_STEP ROUND_HALF_EVEN) as [shown|e];
      [|apply Hstop].
    destruct (IH total'
                (lines ++ [{| l_coin := coin; l_amount := shown;
                              l_value := value |}]) w1)
      as (asked & Hpre & Hst & Hlog & Hok).
    exists ((coin, amt) :: asked). split; [by apply prefix_cons|].
    split; [by rewrite Hst|]. split.
    + rewrite Hlog. cbn [flat_map fst log w1]. by rewrite app_assoc.
    + intros tl Htl. apply Hok in Htl as [-> (added & Hadd & Hcoins)].
      split; [done|]. eexists (_ :: added).
      split; [by rewrite Hadd, <- app_assoc|].
      cbn [map l_coin fst]. by rewrite Hcoins.
Qed.

Lemma flat_coin_events_commits (l : list (string * Decimal)) :
  commits (flat_map (fun i => coin_events i.1) l) = [].
Proof.
  induction l as [|[c a] l IHl]; [done|]. cbn [flat_map fst].
  rewrite commits_app, IHl, app_nil_r. unfold coin_events.
  destruct (dict_get _ _) as [symbol|]; [|done].
  destruct (String.eqb symbol ""); [done|apply commits_fetch].
Qed.

Lemma cmd_portfolio_run (E : env)
    (scan : gmap string Decimal -> list (string * Decimal))
    (msg : message) (w : world) :
  cmd_portfolio E scan msg w =
  let user_id := from_user_id msg in
  let held := select_portfolio user_id (store w) in
  let w1 := {| store := ensured (store w) user_id;
               log := log w ++ ensure_events (store w) user_id |} in
  if decide (held = ∅) then (Ok PortfolioEmpty, w1)
  else
    match portfolio_loop E (scan held) zero [] w1 with
    | (Raise e, w2) => (Raise e, w2)
    | (Ok tl, w2) =>
        (rbind (quantize tl.1 USD_STEP ROUND_HALF_EVEN)
               (fun shown => Ok (PortfolioIs tl.2 shown)), w2)
    end.
Proof.
  unfold cmd_portfolio. cbn zeta. unfold bind at 1.
  rewrite ensure_user_run. unfold bind at 1, get_portfolio, read.
  cbn [store log].
  assert (Hsel : select_portfolio (from_user_id msg)
                   (ensured (store w) (from_user_id msg))
                 = select_portfolio (from_user_id msg) (store w)).
  { apply map_eq. intros c.
    by rewrite !select_portfolio_lookup, ensured_portfolio. }
  rewrite Hsel.
  destruct (decide (_ = ∅)); [done|].
  unfold bind at 1.
  destruct (portfolio_loop _ _ _ _ _) as [[tl|e] w2]; [|done].
  unfold bind, lift, ret. by destruct (quantize _ _ _).
Qed.

End Portfolio.

(** X9.  [cmd_portfolio] creates the account of a new user and writes nothing
    else.  With no holding it answers that the portfolio is empty and
    sends no request; otherwise it sends, in the order of the rows, one
    request for each held coin that has a pair other than USDTUSDT, up
    to the row at which an exception ends it, and an answer lists every
    held coin once, in the order of the rows. *)
Theorem cmd_portfolio_reads_only `{PyText} (E : env)
    (scan : gmap string Decimal -> list (string * Decimal))
    (msg : message) (s : db) :
  let user_id := from_user_id msg in
  let held := select_portfolio user_id s in
  let m := cmd_portfolio E scan msg in
  final m s = ensured s user_id /\
  commits (events m s) = commits (ensure_events s user_id) /\
  (exists asked, asked `prefix_of` scan held /\
     requests (events m s)
       = requests (flat_map (fun i => coin_events i.1) asked)) /\
  (held = ∅ -> outcome m s = Ok PortfolioEmpty /\ requests (events m s) = []) /\
  (forall lines shown, outcome m s = Ok (PortfolioIs lines shown) ->
     held <> ∅ /\
     map l_coin lines = map fst (scan held) /\
     requests (events m s)
       = requests (flat_map (fun i => coin_events i.1) (scan held))).
Proof.
  cbn zeta. rewrite run_outcome, run_final, run_events, cmd_portfolio_run.
  cbn zeta. cbn [store log fresh_world app].
  set (held := select_portfolio (from_user_id msg) s).
  set (w1 := {| store := ensured s (from_user_id msg);
                log := ensure_events s (from_user_id msg) |}).
  assert (Hnoreq : requests (ensure_events s (from_user_id msg)) = [])
    by apply requests_ensure.
  destruct (decide (held = ∅)) as [Hempty|Hheld].
  { cbn [fst snd store log w1].
    split; [done|]. split; [done|]. split.
    - exists []. split; [apply prefix_nil|]. exact Hnoreq.
    - split; [done|]. intros lines shown [=]. }
  destruct (portfolio_loop_run E (scan held) zero [] w1)
    as (asked & Hpre & Hst & Hlog & Hok).
  destruct (portfolio_loop E (scan held) zero [] w1) as [[tl|e] w2] eqn:Hloop;
    cbn [fst snd] in *; rewrite Hst, Hlog; cbn [store log w1];
    rewrite commits_app, requests_app, Hnoreq, flat_coin_events_commits,
      app_nil_r; cbn [app].
  - destruct (Hok tl eq_refl) as [-> (added & Hadd & Hcoins)].
    split; [done|]. split; [done|]. split; [by exists (scan held)|].
    split; [done|]. intros lines shown'.
    destruct (quantize tl.1 USD_STEP ROUND_HALF_EVEN) as [shown|e];
      [|discriminate].
    intros [= <- <-]. split; [done|]. split; [|done]. by rewrite Hadd.
  - split; [done|]. split; [done|]. split; [by exists asked|].
    split; [done|]. intros lines shown [=].
Qed.

(** ** The bot as a whole: what a sequence of commands can do *)

Lemma last_cons_default {A} (x : A) (l : list A) (d d' : A) :
  List.last (x :: l) d = List.last (x :: l) d'.
Proof.
  revert x. induction l as [|y l IH]; intros x; [done|].
  change (List.last (y :: l) d = List.last (y :: l) d'). apply IH.
Qed.

Lemma last_app_default {A} (l1 l2 : list A) (d : A) :
  List.last (l1 ++ l2) d = List.last l2 (List.last l1 d).
Proof.
  destruct l2 as [|x l2 _] using rev_ind; [by rewrite app_nil_r|].
  by rewrite app_assoc, !last_last.
Qed.

Lemma written_by_app (user_id : Z) (s : db) (l1 l2 : list db) :
  written_by user_id s l1 -> written_by user_id (List.last l1 s) l2 ->
  written_by user_id s (l1 ++ l2).
Proof.
  revert s. induction l1 as [|c l1 IH]; intros s; [done|].
  intros [Hc Hl1] Hl2. split; [done|]. apply IH; [done|].
  destruct l1 as [|c' l1]; [done|].
  by rewrite (last_cons_default c' l1 c s).
Qed.

Lemma did_write_nothing (account : option Z) (w : world) (l : list event) :
  commits l = [] ->
  did_write account w {| store := store w; log := log w ++ l |}.
Proof.
  intros Hl. exists []. cbn [store log]. rewrite commits_app, Hl.
  split; [done|]. split; [done|]. by destruct account.
Qed.

Lemma did_write_same (account : option Z) (w : world) :
  did_write account w w.
Proof. exists []. rewrite app_nil_r. by destruct account. Qed.

Lemma did_write_ensure (user_id : Z) (w : world) (l : list event) :
  commits l = [] ->
  did_write (Some user_id) w
    {| store := ensured (store w) user_id;
       log := (log w ++ ensure_events (store w) user_id) ++ l |}.
Proof.
  intros Hl. unfold did_write, ensured, ensure_events. cbn [store log].
  rewrite !commits_app, Hl, app_nil_r.
  destruct (users (store w) !! user_id) eqn:Hu.
  - exists []. by cbn.
  - exists [sql_insert_user user_id INITIAL_USD_BALANCE (store w)].
    cbn [commits app List.last written_by]. unfold ensured. rewrite Hu.
    split; [done|]. split; [done|]. split; [|done].
    by constructor.
Qed.

Lemma did_write_trans (user_id : Z) (w1 w2 w3 : world) :
  did_write (Some user_id) w1 w2 -> did_write (Some user_id) w2 w3 ->
  did_write (Some user_id) w1 w3.
Proof.
  intros (l1 & Hc1 & Hs1 & Hw1) (l2 & Hc2 & Hs2 & Hw2).
  exists (l1 ++ l2). rewrite Hc2, Hc1, <- app_assoc. split; [done|].
  rewrite Hs2, Hs1, last_app_default. split; [done|].
  apply written_by_app; [done|]. by rewrite <- Hs1.
Qed.

Section Trace.
Context `{PyText} `{PyStrip}.

Lemma buy_apply_did_write E user_id coin usd_amount balance price b w :
  users (store w) !! user_id = Some b ->
  did_write (Some user_id) w
    (buy_apply E user_id coin usd_amount balance price w).2.
Proof.
  intros Hb. rewrite (buy_apply_run _ _ _ _ _ _ b) by done.
  destruct (div _ _); [|apply did_write_same].
  destruct (quantize _ COIN_STEP _) as [coin_amount|]; [|apply did_write_same].
  destruct (sub _ _) as [new_balance|]; [|apply did_write_same].
  cbn zeta.
  set (s2 := sql_update_balance user_id new_balance (store w)).
  assert (H2 : write_by user_id (store w) s2) by (constructor; eauto).
  assert (Hu2 : is_Some (users s2 !! user_id))
    by (unfold s2; erewrite sql_update_balance_lookup; eauto).
  assert (Hone : did_write (Some user_id) w
            {| store := s2; log := log w ++ [EvCommit s2] |}).
  { exists [s2]. cbn [store log]. rewrite commits_app. by cbn. }
  destruct (add _ _) as [total|]; [|exact Hone].
  destruct (le total zero) as [np|]; [|exact Hone].
  cbn [snd].
  set (s3 := write_holding user_id coin total np s2).
  exists [s2; s3; sql_insert_history (now E) user_id "buy" coin coin_amount price s3].
  cbn [store log]. rewrite commits_app. cbn [commits List.last written_by].
  split; [done|]. split; [done|]. split; [done|].
  split; [by constructor|]. split; [|done].
  constructor. unfold s3. by rewrite write_holding_users.
Qed.

Lemma sell_apply_did_write E user_id coin coin_amount have price b w :
  users (store w) !! user_id = Some b ->
  did_write (Some user_id) w
    (sell_apply E user_id coin coin_amount have price w).2.
Proof.
  intros Hb. rewrite (sell_apply_run _ _ _ _ _ _ b) by done.
  destruct (mul _ _); [|apply did_write_same].
  destruct (quantize _ USD_STEP _) as [usd_gain|]; [|apply did_write_same].
  destruct (sub _ _) as [rest|]; [|apply did_write_same].
  destruct (le rest zero) as [np|]; [|apply did_write_same].
  cbn zeta.
  set (s2 := write_holding user_id coin rest np (store w)).
  assert (H2 : write_by user_id (store w) s2) by (constructor; eauto).
  assert (Hu2 : is_Some (users s2 !! user_id))
    by (unfold s2; rewrite write_holding_users; eauto).
  assert (Hone : did_write (Some user_id) w
            {| store := s2; log := log w ++ [EvCommit s2] |}).
  { exists [s2]. cbn [store log]. rewrite commits_app. by cbn. }
  destruct (add _ _) as [new_balance|]; [|exact Hone].
  cbn [snd].
  set (s3 := sql_update_balance user_id new_balance s2).
  exists [s2; s3; sql_insert_history (now E) user_id "sell" coin coin_amount price s3].
  cbn [store log]. rewrite commits_app. cbn [commits List.last written_by].
  split; [done|]. split; [done|]. split; [done|].
  split; [by constructor|]. split; [|done].
  constructor. destruct Hu2 as [b2 Hb2]. unfold s3.
  erewrite sql_update_balance_lookup; eauto.
Qed.

Lemma handle_did_write (r : request) (w : world) :
  did_write (Some (from_user_id (msg_of r))) w (handle r w).2.
Proof.
  destruct r as [E msg|E msg]; cbn [handle msg_of].
  - rewrite cmd_buy_run.
    destruct (str_split _) as [|coin [|text [|? ?]]]; try apply did_write_same.
    destruct (dict_get _ _) as [symbol|]; [|apply did_write_same].
    destruct (positive_amount text) as [amount|]; [|apply did_write_same].
    cbn zeta.
    pose proof (did_write_ensure (from_user_id msg) w [] eq_refl) as He.
    rewrite app_nil_r in He.
    destruct (gt amount _) as [[|]|]; cbn [snd]; try exact He.
    pose proof (did_write_ensure (from_user_id msg) w (fetch_events symbol)
                  (commits_fetch symbol)) as Hf.
    destruct (price_of E symbol) as [price|]; [|exact Hf].
    eapply did_write_trans; [exact Hf|].
    eapply buy_apply_did_write. cbn [store]. apply ensured_users.
  - rewrite cmd_sell_run.
    destruct (str_split _) as [|coin [|text [|? ?]]]; try apply did_write_same.
    destruct (dict_get _ _) as [symbol|]; [|apply did_write_same].
    destruct (positive_amount text) as [amount|]; [|apply did_write_same].
    cbn zeta.
    pose proof (did_write_ensure (from_user_id msg) w [] eq_refl) as He.
    rewrite app_nil_r in He.
    destruct (gt amount _) as [[|]|]; cbn [snd]; try exact He.
    pose proof (did_write_ensure (from_user_id msg) w (fetch_events symbol)
                  (commits_fetch symbol)) as Hf.
    destruct (price_of E symbol) as [price|]; [|exact Hf].
    eapply did_write_trans; [exact Hf|].
    eapply sell_apply_did_write. cbn [store]. apply ensured_users.
Qed.

(** Every handler writes through the storage helpers for its own user
    only; [cmd_coins] and [cmd_price] write nothing. *)
Lemma serve_did_write (u : update) (w : world) :
  did_write (account_of u) w (serve u w).
Proof.
  destruct u as [msg| |msg|E scan msg|E msg|r]; cbn [serve account_of].
  - unfold cmd_start_help, bind at 1. rewrite ensure_user_run.
    pose proof (did_write_ensure (from_user_id msg) w [] eq_refl) as He.
    by rewrite app_nil_r in He.
  - apply did_write_same.
  - rewrite cmd_balance_run.
    pose proof (did_write_ensure (from_user_id msg) w [] eq_refl) as He.
    by rewrite app_nil_r in He.
  - rewrite cmd_portfolio_run. cbn zeta.
    pose proof (did_write_ensure (from_user_id msg) w [] eq_refl) as He.
    rewrite app_nil_r in He.
    destruct (decide (_ = ∅)); [exact He|].
    set (w1 := {| store := ensured (store w) (from_user_id msg);
                  log := log w ++ ensure_events (store w) (from_user_id msg) |})
      in *.
    destruct (portfolio_loop_run E
                (scan (select_portfolio (from_user_id msg) (store w)))
                zero [] w1) as (asked & _ & Hst & Hlog & _).
    assert (Hw2 : did_write (Some (from_user_id msg)) w
              (portfolio_loop E
                 (scan (select_portfolio (from_user_id msg) (store w)))
                 zero [] w1).2).
    { eapply did_write_trans; [exact He|].
      destruct (portfolio_loop _ _ _ _ _).2 as [st lg]. cbn [store log] in *.
      subst st lg. apply did_write_nothing, flat_coin_events_commits. }
    by destruct (portfolio_loop _ _ _ _ _) as [[tl|e] w2].
  - rewrite cmd_price_run. cbn zeta.
    destruct (String.eqb _ ""); [apply did_write_same|].
    destruct (dict_get _ _) as [symbol|]; [|apply did_write_same].
    cbn [snd]. apply did_write_nothing, commits_fetch.
  - apply handle_did_write.
Qed.

End Trace.

Section Sequences.
Context `{PyText} `{PyStrip}.

(** A property of the store that every write for an allowed user keeps
    holds in every store committed by handlers of allowed users. *)
Lemma written_by_keeps (P : db -> Prop) (user_id : Z) :
  (forall s s', write_by user_id s s' -> P s -> P s') ->
  forall l s, written_by user_id s l -> P s ->
    Forall P l /\ P (List.last l s).
Proof.
  intros Hstep l. induction l as [|c l IH]; intros s Hl Hs; [done|].
  destruct Hl as [Hc Hl].
  assert (Pc : P c) by eauto.
  destruct (IH c Hl Pc) as [Hall Hlast].
  split; [by constructor|].
  destruct l as [|c' l]; [done|].
  change (P (List.last (c' :: l) s)).
  by rewrite (last_cons_default c' l s c).
Qed.

Lemma serve_all_keeps (P : db -> Prop) (allowed : Z -> Prop)
    (us : list update) (w : world) :
  (forall user_id s s', allowed user_id ->
     write_by user_id s s' -> P s -> P s') ->
  Forall (fun u => forall user_id, account_of u = Some user_id ->
                     allowed user_id) us ->
  P (store w) ->
  exists l, commits (log (serve_all us w)) = commits (log w) ++ l /\
    Forall P l /\ P (store (serve_all us w)).
Proof.
  intros Hstep. revert w.
  induction us as [|u us IH]; intros w Hus Hw.
  { exists []. by rewrite app_nil_r. }
  apply Forall_cons_1 in Hus as [Hu Hus]. cbn [serve_all].
  destruct (serve_did_write u w) as (l1 & Hc1 & Hs1 & Hw1).
  assert (H1 : Forall P l1 /\ P (store (serve u w))).
  { destruct (account_of u) as [user_id|].
    - rewrite Hs1.
      apply (written_by_keeps P user_id); [|done|done].
      intros s s'. by apply Hstep, Hu.
    - subst l1. by rewrite Hs1. }
  destruct H1 as [Hl1 Hp1].
  destruct (IH (serve u w) Hus Hp1) as (l2 & Hc2 & Hl2 & Hp2).
  exists (l1 ++ l2). rewrite Hc2, Hc1, <- app_assoc.
  split; [done|]. split; [|done]. by apply Forall_app.
Qed.

Lemma write_by_refs (user_id : Z) (s s' : db) :
  write_by user_id s s' -> refs_ok s -> refs_ok s'.
Proof.
  intros Hw (Hp & Hh & Hid & Hseq). destruct Hw as [s Hu|s b Hu|s c a np Hu|s t act c a p Hu].
  - split_and!; [| |done|done].
    + intros u c Hc. cbn. destruct (decide (u = user_id)) as [->|Hne].
      * by rewrite lookup_insert_eq.
      * rewrite lookup_insert_ne by done. by apply (Hp u c).
    + cbn. eapply Forall_impl; [exact Hh|]. cbn. intros r Hr.
      destruct (decide (h_user r = user_id)) as [->|Hne].
      * by rewrite lookup_insert_eq.
      * by rewrite lookup_insert_ne.
  - assert (Hkeep : forall u, is_Some (users s !! u) ->
              is_Some (users (sql_update_balance user_id b s) !! u)).
    { intros u Hs. cbn. destruct (decide (u = user_id)) as [->|Hne].
      - rewrite lookup_alter_eq. destruct Hs as [x ->]. by eexists.
      - by rewrite lookup_alter_ne. }
    split_and!; [| |done|done].
    + intros u c Hc. by apply Hkeep, (Hp u c).
    + eapply Forall_impl; [exact Hh|]. cbn beta. intros r. apply Hkeep.
  - rewrite <- (write_holding_users user_id c a np s) in Hh, Hu.
    destruct (write_holding_history user_id c a np s) as [Hhist Hsq].
    split_and!; [|by rewrite Hhist|by rewrite Hhist|by rewrite Hhist, Hsq].
    intros u c' Hc. rewrite write_holding_users.
    rewrite write_holding_users in Hu.
    destruct np; cbn in Hc.
    + destruct (decide ((user_id, c) = (u, c'))) as [Heq|Hne].
      * rewrite Heq, lookup_delete_eq in Hc. by destruct Hc.
      * rewrite lookup_delete_ne in Hc by done. by apply (Hp u c').
    + destruct (decide ((user_id, c) = (u, c'))) as [[= <- <-]|Hne]; [done|].
      rewrite lookup_insert_ne in Hc by done. by apply (Hp u c').
  - split_and!; cbn [users portfolio history history_seq sql_insert_history].
    + done.
    + apply Forall_app. split; [done|]. by apply Forall_cons_2.
    + rewrite map_app, length_app, Hid. cbn [map length h_id].
      rewrite Nat.add_1_r, seqZ_S, Hseq. do 2 f_equal. lia.
    + rewrite length_app, Hseq. cbn [length]. lia.
Qed.

Lemma rows_of_eq (v : Z) (s s' : db) :
  users s' !! v = users s !! v ->
  (forall c, portfolio s' !! (v, c) = portfolio s !! (v, c)) ->
  List.filter (fun r => h_user r =? v) (history s')
  = List.filter (fun r => h_user r =? v) (history s) ->
  rows_of v s' = rows_of v s.
Proof.
  intros Hu Hp Hh. unfold rows_of. rewrite Hu, Hh. do 2 f_equal.
  apply map_eq. intros c. by rewrite !select_portfolio_lookup.
Qed.

Lemma write_by_rows (user_id v : Z) (s s' : db) :
  user_id <> v -> write_by user_id s s' -> rows_of v s' = rows_of v s.
Proof.
  intros Hne Hw.
  destruct Hw as [s Hu|s b Hu|s c a np Hu|s t act c a p Hu];
    apply rows_of_eq.
  - cbn. by rewrite lookup_insert_ne.
  - done.
  - done.
  - cbn. by rewrite lookup_alter_ne.
  - done.
  - done.
  - by rewrite write_holding_users.
  - intros c'.
    destruct np; cbn; [apply lookup_delete_ne | apply lookup_insert_ne];
      congruence.
  - by rewrite (proj1 (write_holding_history _ _ _ _ _)).
  - done.
  - done.
  - cbn [history sql_insert_history]. rewrite List.filter_app.
    cbn [List.filter h_user].
    destruct (Z.eqb_spec user_id v) as [|_]; [done|]. by rewrite app_nil_r.
Qed.

Lemma write_by_grows (user_id : Z) (s0 s s' : db) :
  write_by user_id s s' ->
  (forall v, is_Some (users s0 !! v) -> is_Some (users s !! v)) /\
  history s0 `prefix_of` history s /\ history_seq s0 <= history_seq s ->
  (forall v, is_Some (users s0 !! v) -> is_Some (users s' !! v)) /\
  history s0 `prefix_of` history s' /\ history_seq s0 <= history_seq s'.
Proof.
  intros Hw (Hu & Hh & Hsq).
  destruct Hw as [s Hn|s b Hs|s c a np Hs|s t act c a p Hs].
  - split; [|done]. intros v Hv. cbn.
    destruct (decide (v = user_id)) as [->|Hne].
    + by rewrite lookup_insert_eq.
    + rewrite lookup_insert_ne by done. by apply Hu.
  - split; [|done]. intros v Hv. cbn.
    destruct (decide (v = user_id)) as [->|Hne].
    + rewrite lookup_alter_eq. destruct Hs as [x ->]. by eexists.
    + rewrite lookup_alter_ne by done. by apply Hu.
  - rewrite write_holding_users.
    destruct (write_holding_history user_id c a np s) as [-> ->]. done.
  - cbn [users history history_seq sql_insert_history].
    split; [done|]. split; [|lia].
    by apply prefix_app_r.
Qed.

End Sequences.

(** X10.  From the empty store, after every sequence of commands to any of
    the handlers, whatever they answer or raise, and in every store
    committed on the way: every holding and every history row belongs to
    a user with an account, and the history ids are 1, 2, ... up to the
    AUTOINCREMENT counter, in the order of the rows. *)
Theorem bot_keeps_references `{PyText} `{PyStrip} (us : list update) :
  world_ok refs_ok (serve_all us (fresh_world empty_db)).
Proof.
  destruct (serve_all_keeps refs_ok (fun _ => True) us (fresh_world empty_db))
    as (l & Hc & Hl & Hs).
  - intros user_id s s' _. apply write_by_refs.
  - apply Forall_forall. done.
  - by split_and!.
  - split; [done|]. unfold committed_ok. by rewrite Hc.
Qed.

(** X11.  The commands of other users never touch what the store holds about
    a user: after any sequence of commands none of which is sent by
    [user_id], and in every store committed on the way, the balance, the
    holdings and the history rows of [user_id] are the ones before. *)
Theorem users_are_isolated `{PyText} `{PyStrip} (us : list update)
    (w : world) (user_id : Z) :
  Forall (fun u => account_of u <> Some user_id) us ->
  rows_of user_id (store (serve_all us w)) = rows_of user_id (store w) /\
  exists l, commits (log (serve_all us w)) = commits (log w) ++ l /\
    Forall (fun c => rows_of user_id c = rows_of user_id (store w)) l.
Proof.
  intros Hus.
  destruct (serve_all_keeps
              (fun c => rows_of user_id c = rows_of user_id (store w))
              (fun u => u <> user_id) us w)
    as (l & Hc & Hl & Hs).
  - intros u s s' Hu Hw Hs. rewrite <- Hs. by apply (write_by_rows u).
  - eapply Forall_impl; [exact Hus|]. cbn beta. intros u Hu v Hv. congruence.
  - done.
  - split; [done|]. by exists l.
Qed.

(** X12.  No command removes anything: after any sequence of commands every
    account that existed still exists, the history rows that existed are
    still there, unchanged and in their place, before the new ones, and
    the AUTOINCREMENT counter has not gone back. *)
Theorem nothing_is_forgotten `{PyText} `{PyStrip} (us : list update) (w : world) :
  let w' := serve_all us w in
  (forall user_id, is_Some (users (store w) !! user_id) ->
     is_Some (users (store w') !! user_id)) /\
  history (store w) `prefix_of` history (store w') /\
  history_seq (store w) <= history_seq (store w').
Proof.
  cbn zeta.
  destruct (serve_all_keeps
              (fun c =>
                 (forall v, is_Some (users (store w) !! v) -> is_Some (users c !! v)) /\
                 history (store w) `prefix_of` history c /\
                 history_seq (store w) <= history_seq c)
              (fun _ => True) us w)
    as (l & Hc & Hl & Hs).
  - intros u s s' _. apply write_by_grows.
  - apply Forall_forall. done.
  - split; [done|]. split; [done|]. lia.
  - exact Hs.
Qed.

Lemma users_are_isolated_witness :
  Forall (fun u => account_of u <> Some 8) busy_hour /\
  rows_of 8 (store (@serve_all ascii_text ascii_strip_text busy_hour
                      (fresh_world empty_db)))
  = rows_of 8 (store (fresh_world empty_db)) /\
  exists l,
    commits (log (@serve_all ascii_text ascii_strip_text busy_hour
                    (fresh_world empty_db)))
    = commits (log (fresh_world empty_db)) ++ l /\
    Forall (fun c => rows_of 8 c = rows_of 8 (store (fresh_world empty_db))) l.
Proof.
  assert (Hus : Forall (fun u => account_of u <> Some 8) busy_hour).
  { unfold busy_hour.
    repeat (apply Forall_cons_2;
              [intros Hx; vm_compute in Hx; discriminate Hx|]).
    apply Forall_nil_2. }
  split; [exact Hus|].
  exact (@users_are_isolated ascii_text ascii_strip_text busy_hour
           (fresh_world empty_db) 8 Hus).
Defined.

(** ** What ends a handler *)

Section Failures.
Context `{PyText} `{PyStrip}.

Lemma rbind_signal {A B} (r : result A) (k : A -> B) (e : exn) :
  (forall x, r = Raise x -> is_decimal_signal x = true) ->
  rbind r (fun a => Ok (k a)) = Raise e -> is_decimal_signal e = true.
Proof. destruct r; [discriminate|]. intros Hr [= <-]. by apply Hr. Qed.

Lemma buy_apply_signal E user_id coin usd_amount balance price b w e :
  users (store w) !! user_id = Some b ->
  (buy_apply E user_id coin usd_amount balance price w).1 = Raise e ->
  is_decimal_signal e = true.
Proof.
  intros Hb. rewrite (buy_apply_run _ _ _ _ _ _ b) by done.
  destruct (div _ _) eqn:Hd;
    [|intros [= <-]; by apply div_signal in Hd].
  destruct (quantize _ COIN_STEP _) eqn:Hq;
    [|intros [= <-]; by apply quantize_signal in Hq].
  destruct (sub _ _) eqn:Hs;
    [|intros [= <-]; by apply sub_signal in Hs].
  cbn zeta.
  destruct (add _ _) eqn:Ha;
    [|intros [= <-]; by apply add_signal in Ha].
  destruct (le _ _) eqn:Hl;
    [|intros [= <-]; by apply le_signal in Hl].
  cbn [fst]. apply rbind_signal. intros x. apply quantize_signal.
Qed.

Lemma sell_apply_signal E user_id coin coin_amount have price b w e :
  users (store w) !! user_id = Some b ->
  (sell_apply E user_id coin coin_amount have price w).1 = Raise e ->
  is_decimal_signal e = true.
Proof.
  intros Hb. rewrite (sell_apply_run _ _ _ _ _ _ b) by done.
  destruct (mul _ _) eqn:Hd;
    [|intros [= <-]; by apply mul_signal in Hd].
  destruct (quantize _ USD_STEP _) eqn:Hq;
    [|intros [= <-]; by apply quantize_signal in Hq].
  destruct (sub _ _) eqn:Hs;
    [|intros [= <-]; by apply sub_signal in Hs].
  destruct (le _ _) eqn:Hl;
    [|intros [= <-]; by apply le_signal in Hl].
  cbn zeta.
  destruct (add _ _) eqn:Ha;
    [|intros [= <-]; by apply add_signal in Ha].
  cbn [fst]. apply rbind_signal. intros x. apply quantize_signal.
Qed.

Lemma handle_signal (r : request) (w : world) (e : exn) :
  (handle r w).1 = Raise e -> is_decimal_signal e = true.
Proof.
  destruct r as [E msg|E msg]; cbn [handle].
  - rewrite cmd_buy_run.
    destruct (str_split _) as [|coin [|text [|? ?]]]; try discriminate.
    destruct (dict_get _ _) as [symbol|]; [|discriminate].
    destruct (positive_amount text) as [amount|]; [|discriminate].
    cbn zeta.
    destruct (gt amount _) as [[|]|] eqn:Hg; cbn [fst].
    + apply rbind_signal. intros x. apply quantize_signal.
    + destruct (price_of E symbol) as [price|]; [|discriminate].
      eapply buy_apply_signal. cbn [store]. apply ensured_users.
    + intros [= <-]. by apply gt_signal in Hg.
  - rewrite cmd_sell_run.
    destruct (str_split _) as [|coin [|text [|? ?]]]; try discriminate.
    destruct (dict_get _ _) as [symbol|]; [|discriminate].
    destruct (positive_amount text) as [amount|]; [|discriminate].
    cbn zeta.
    destruct (gt amount _) as [[|]|] eqn:Hg; cbn [fst].
    + discriminate.
    + destruct (price_of E symbol) as [price|]; [|discriminate].
      eapply sell_apply_signal. cbn [store]. apply ensured_users.
    + intros [= <-]. by apply gt_signal in Hg.
Qed.

Lemma portfolio_loop_signal (E : env) (items : list (string * Decimal))
    (total : Decimal) (lines : list holding_line) (w : world) (e : exn) :
  (portfolio_loop E items total lines w).1 = Raise e ->
  is_decimal_signal e = true.
Proof.
  revert total lines w.
  induction items as [|[coin amt] items IH]; intros total lines w;
    [discriminate|].
  destruct (portfolio_loop_cons E coin amt items total lines w)
    as (value & Hsig & ->).
  destruct value as [value|e0]; [|intros [= <-]; by apply Hsig].
  destruct (add total value) eqn:Ha;
    [|intros [= <-]; by apply add_signal in Ha].
  destruct (quantize amt _ _) eqn:Hq;
    [|intros [= <-]; by apply quantize_signal in Hq].
  apply IH.
Qed.

End Failures.

(** X13.  Of the exceptions of the modelled code, only the signals of the
    decimal context end a handler: no handler ends with the ValueError
    of the amount check, with an exception of the price request or of
    the conversion of the price, or with a failed foreign key, since a
    handler creates the account before it writes.  [cmd_start_help] and
    [cmd_coins] never raise. *)
Theorem only_decimal_signals_escape `{PyText} `{PyStrip}
    (u : update) (w : world) (e : exn) :
  failure u w = Some e ->
  is_decimal_signal e = true /\
  u <> OnCoins /\ forall msg, u <> OnStart msg.
Proof.
  assert (Hr : forall A (x : result A * world),
            raised x = Some e -> x.1 = Raise e).
  { intros A [[a|e0] w0]; unfold raised; cbn; [discriminate|].
    by intros [= <-]. }
  destruct u as [msg| |msg|E scan msg|E msg|r]; cbn [failure];
    intros Hf%Hr.
  - unfold cmd_start_help, bind in Hf. rewrite ensure_user_run in Hf.
    discriminate Hf.
  - discriminate Hf.
  - split; [|done]. rewrite cmd_balance_run in Hf. cbn [fst] in Hf.
    revert Hf. apply rbind_signal. intros x. apply quantize_signal.
  - split; [|done]. rewrite cmd_portfolio_run in Hf. cbn zeta in Hf.
    destruct (decide (_ = ∅)); [discriminate Hf|].
    destruct (portfolio_loop _ _ _ _ _) as [[tl|e0] w2] eqn:Hloop.
    + cbn [fst] in Hf. revert Hf. apply rbind_signal.
      intros x. apply quantize_signal.
    + cbn [fst] in Hf. injection Hf as ->.
      eapply portfolio_loop_signal. by rewrite Hloop.
  - split; [|done]. rewrite cmd_price_run in Hf. cbn zeta in Hf.
    destruct (String.eqb _ ""); [discriminate Hf|].
    destruct (dict_get _ _) as [symbol|]; [|discriminate Hf].
    cbn [fst] in Hf. destruct (price_of E symbol); [|discriminate Hf].
    revert Hf. apply rbind_signal. intros x. apply quantize_signal.
  - split; [|done]. by apply handle_signal in Hf.
Qed.

Lemma only_decimal_signals_escape_witness :
  let u := OnTrade (Buy (quote "0" 1700000000) (command 7 "btc 100")) in
  @failure ascii_text ascii_strip_text u (fresh_world empty_db)
    = Some DivisionByZero /\
  is_decimal_signal DivisionByZero = true /\
  u <> OnCoins /\ forall msg, u <> OnStart msg.
Proof.
  cbn zeta.
  assert (Hf : @failure ascii_text ascii_strip_text
                 (OnTrade (Buy (quote "0" 1700000000) (command 7 "btc 100")))
                 (fresh_world empty_db) = Some DivisionByZero)
    by (vm_compute; reflexivity).
  split; [exact Hf|].
  exact (@only_decimal_signals_escape ascii_text ascii_strip_text _ _ _ Hf).
Defined.

(** ** A trade that fails half way *)

Lemma cmp_ok_not_nan (x y : Decimal) (c : comparison) :
  cmp x y = Ok c -> is_snan x = false /\ is_qnan x = false.
Proof. destruct x as [? ? ?|?|[|]], y; cbn; try discriminate; done. Qed.

(** X14.  A buy whose fetched price is a quiet NaN passes every check, debits
    the balance and then fails on the comparison of the new holding
    with zero: the handler ends with InvalidOperation, the debit is
    committed, and no holding and no history row is written. *)
Theorem buy_at_nan_price_keeps_the_debit `{PyText} (E : env) (msg : message)
    (s : db) (coin text symbol : string) (amount new_balance : Decimal) :
  let user_id := from_user_id msg in
  let m := cmd_buy E msg in
  str_split (str_lower (get_args msg)) = [coin; text] ->
  dict_get AVAILABLE_COINS coin = Some symbol ->
  positive_amount text = Ok amount ->
  gt amount (opening_balance s user_id) = Ok false ->
  price_of E symbol = Some (NaN false) ->
  sub (opening_balance s user_id) amount = Ok new_balance ->
  outcome m s = Raise InvalidOperation /\
  final m s = sql_update_balance user_id new_balance (ensured s user_id) /\
  users (final m s) !! user_id = Some new_balance /\
  portfolio (final m s) = portfolio s /\
  history (final m s) = history s /\
  commits (events m s) = commits (ensure_events s user_id) ++ [final m s].
Proof.
  intros user_id m Hp Hc Ha Hg Hprice Hsub. unfold m.
  rewrite run_outcome, run_final, run_events, cmd_buy_run, Hp, Hc, Ha.
  cbn zeta. cbn [store log fresh_world]. fold user_id. rewrite Hg, Hprice.
  rewrite (buy_apply_run _ _ _ _ _ _ (opening_balance s user_id))
    by (cbn [store]; apply ensured_users).
  assert (Hnan : is_snan amount = false /\ is_qnan amount = false).
  { unfold gt, rbind in Hg.
    destruct (cmp amount _) eqn:Hcmp; [|discriminate].
    by apply cmp_ok_not_nan in Hcmp. }
  destruct Hnan as [Hsn Hqn].
  assert (Hdiv : div amount (NaN false) = Ok (NaN false)).
  { unfold div, check_nans. rewrite Hsn, Hqn. by cbn. }
  rewrite Hdiv. cbn [quantize]. rewrite Hsub. cbn zeta. cbn [store log].
  set (h := holding (ensured s user_id) user_id coin).
  assert (Hadd : add h (NaN false) = Raise InvalidOperation \/
                 add h (NaN false) = Ok (NaN false)).
  { unfold add, check_nans. destruct (is_snan h); [by left|]. cbn.
    rewrite orb_true_r. by right. }
  assert (Hend : forall w2 (k : Decimal -> bool -> result reply * world),
    match add h (NaN false) with
    | Raise e => (Raise e, w2)
    | Ok total =>
        match le total zero with
        | Raise e => (Raise e, w2)
        | Ok np => k total np
        end
    end = (Raise InvalidOperation, w2)).
  { intros w2 k. by destruct Hadd as [-> | ->]. }
  rewrite Hend. cbn [fst snd store log].
  split; [done|]. split; [done|]. split.
  { erewrite sql_update_balance_lookup; [done|]. apply ensured_users. }
  split; [apply ensured_portfolio|]. split; [apply ensured_history|].
  rewrite !commits_app, commits_fetch, app_nil_r. done.
Qed.

Lemma buy_at_nan_price_witness :
  let E := quote "nan" 1700000100 in
  let msg := command 7 "btc 10" in
  let m := cmd_buy (H := ascii_text) E msg in
  outcome m after_first_buy = Raise InvalidOperation /\
  final m after_first_buy
    = sql_update_balance 7 (Finite false 989000 (-2))
        (ensured after_first_buy 7) /\
  users (final m after_first_buy) !! 7 = Some (Finite false 989000 (-2)) /\
  portfolio (final m after_first_buy) = portfolio after_first_buy /\
  history (final m after_first_buy) = history after_first_buy /\
  commits (events m after_first_buy)
    = commits (ensure_events after_first_buy 7) ++ [final m after_first_buy].
Proof.
  cbn zeta.
  assert (Hg : gt (Finite false 10 0) (opening_balance after_first_buy 7)
               = Ok false) by (vm_compute; reflexivity).
  assert (Hs : sub (opening_balance after_first_buy 7) (Finite false 10 0)
               = Ok (Finite false 989000 (-2))) by (vm_compute; reflexivity).
  exact (buy_at_nan_price_keeps_the_debit (H := ascii_text)
           (quote "nan" 1700000100) (command 7 "btc 10") after_first_buy
           "btc" "10" "BTCUSDT" (Finite false 10 0) (Finite false 989000 (-2))
           eq_refl eq_refl eq_refl Hg eq_refl Hs).
Defined.

(** ** The quotient of a buy *)

Lemma ndigits_ge (m k : Z) : 1 <= k -> 10 ^ (k - 1) <= m -> k <= ndigits m.
Proof.
  intros Hk Hm.
  assert (H0 : 0 < 10 ^ (k - 1)) by (apply pow10_pos; lia).
  pose proof (ndigits_spec m ltac:(lia)) as [_ Hhi].
  destruct (Z.le_gt_cases k (ndigits m)) as [|Hgt]; [done|exfalso].
  assert (10 ^ ndigits m <= 10 ^ (k - 1)) by (apply Z.pow_le_mono_r; lia).
  lia.
Qed.

(** The sticky digit of [__truediv__]: when the division [N / D] leaves a
    remainder, rounding the quotient with its last digit moved off 0 and
    5 rounds the exact quotient, to within half a unit. *)
Lemma sticky_round (N D k : Z) :
  0 <= N -> 0 < D -> 1 <= k -> N mod D <> 0 ->
  let c := N / D in
  let c' := if c mod 5 =? 0 then c + 1 else c in
  2 * Z.abs (round_half_even c' k * 10 ^ k * D - N) <= 10 ^ k * D.
Proof.
  intros HN HD Hk Hrem. cbn zeta.
  pose proof (Z.div_mod N D ltac:(lia)) as Hdm.
  pose proof (Z.mod_pos_bound N D HD) as Hmb.
  set (c := N / D) in *. set (rem := N mod D) in *.
  assert (Hc0 : 0 <= c) by (apply Z.div_pos; lia).
  set (c' := if c mod 5 =? 0 then c + 1 else c).
  assert (Hc' : (c' = c \/ c' = c + 1) /\ c' mod 5 <> 0).
  { unfold c'. destruct (Z.eqb_spec (c mod 5) 0) as [H5|H5]; [|by auto].
    split; [by auto|]. rewrite Z.add_mod, H5 by lia. by cbn. }
  destruct Hc' as [Hcc H5].
  set (h := 10 ^ (k - 1)).
  assert (Hh : 0 < h) by (apply pow10_pos; lia).
  assert (HP : 10 ^ k = 10 * h).
  { unfold h. rewrite <- Z.pow_succ_r by lia. f_equal. lia. }
  unfold round_half_even. rewrite HP.
  pose proof (Z.div_mod c' (10 * h) ltac:(lia)) as Hdm'.
  pose proof (Z.mod_pos_bound c' (10 * h) ltac:(lia)) as Hmb'.
  assert (Hr5 : (c' mod (10 * h)) mod 5 = c' mod 5).
  { apply Z.mod_mod_divide. exists (2 * h). lia. }
  set (q' := c' / (10 * h)) in *. set (r' := c' mod (10 * h)) in *.
  assert (Hne : 2 * r' <> 10 * h).
  { intros Heq. apply H5. rewrite <- Hr5.
    replace r' with (h * 5) by lia. apply Z.mod_mul. lia. }
  assert (Hr1 : 1 <= r').
  { destruct (Z.eq_dec r' 0) as [Hz|]; [|lia].
    exfalso. apply H5. rewrite <- Hr5, Hz. done. }
  destruct (Z.ltb_spec (10 * h) (2 * r')) as [Hlt|Hge]; cbn [orb].
  - replace ((q' + 1) * (10 * h) * D - N)
      with (D * (c' - c) + D * (10 * h - r') - rem) by nia.
    destruct Hcc as [-> | ->].
    + replace (c - c) with 0 by lia. nia.
    + replace (c + 1 - c) with 1 by lia. nia.
  - destruct (Z.eqb_spec (2 * r') (10 * h)) as [|_]; [done|]. cbn [andb].
    replace (q' * (10 * h) * D - N)
      with (- (D * r' + rem - D * (c' - c))) by nia.
    rewrite Z.abs_opp.
    destruct Hcc as [-> | ->].
    + replace (c - c) with 0 by lia. nia.
    + replace (c + 1 - c) with 1 by lia. nia.
Qed.

Lemma strip_zeros_value (fuel : nat) (c x ideal : Z) :
  0 < c ->
  0 < (strip_zeros fuel c x ideal).1 /\
  x <= (strip_zeros fuel c x ideal).2 /\
  c = (strip_zeros fuel c x ideal).1 * 10 ^ ((strip_zeros fuel c x ideal).2 - x).
Proof.
  revert c x. induction fuel as [|f IH]; intros c x Hc; cbn [strip_zeros].
  { cbn [fst snd]. rewrite Z.sub_diag. lia. }
  destruct (x <? ideal); cbn [andb]; [|cbn [fst snd]; rewrite Z.sub_diag; lia].
  destruct (Z.eqb_spec (c mod 10) 0) as [H10|_];
    [|cbn [fst snd]; rewrite Z.sub_diag; lia].
  pose proof (Z.div_mod c 10 ltac:(lia)) as Hdm.
  destruct (IH (c / 10) (x + 1) ltac:(lia)) as (H1 & H2 & H3).
  split; [done|]. split; [lia|].
  set (r := strip_zeros f (c / 10) (x + 1) ideal) in *.
  replace (r.2 - x) with (Z.succ (r.2 - (x + 1))) by lia.
  rewrite Z.pow_succ_r by lia. lia.
Qed.

(** What [_fix] does to a coefficient above zero: it drops [k] digits,
    rounding half-even, and none when the coefficient has at most [prec]
    digits and the exponent is not below [Etiny]. *)
Lemma fix_rounds (s : bool) (m e : Z) (d : Decimal) :
  0 < m -> fix_ s m e = Ok d ->
  exists (mq : N) (eq k : Z),
    d = Finite s mq eq /\ 0 <= k /\ e + k <= eq /\
    Z.of_N mq * 10 ^ (eq - e - k)
      = (if k =? 0 then m else round_half_even m k) /\
    (prec < ndigits m -> 1 <= k) /\
    (1 <= k -> eq <= Etiny + 1 \/ prec <= ndigits (Z.of_N mq)).
Proof.
  intros Hm. unfold fix_.
  destruct (Z.eqb_spec m 0) as [|_]; [lia|].
  destruct (Etop <? _); [discriminate|].
  pose proof (ndigits_spec m Hm) as [Hlo Hhi].
  pose proof (ndigits_pos m) as Hnd.
  set (nd := ndigits m) in *.
  set (exp_min := Z.max (nd + e - prec) Etiny).
  destruct (Z.ltb_spec e exp_min) as [Hlt|Hge].
  2: { intros [= <-]. exists (Z.to_N m), e, 0.
       rewrite Z2N.id, Z.sub_diag by lia. cbn.
       split; [done|]. split; [done|]. split; [lia|]. split; [lia|].
       split; [|lia]. unfold exp_min in Hge. lia. }
  set (k := exp_min - e).
  assert (Hk : 1 <= k) by lia.
  assert (Hkp : 0 < 10 ^ k) by (apply pow10_pos; lia).
  pose proof (round_half_even_bounds m k ltac:(lia) ltac:(lia)) as [Hcl Hcu].
  set (cf := round_half_even m k) in *.
  assert (Hdiv : m / 10 ^ k <= 10 ^ prec - 1).
  { assert (m / 10 ^ k < 10 ^ prec); [|lia].
    apply Z.div_lt_upper_bound; [done|].
    rewrite <- Z.pow_add_r by (unfold prec; lia).
    eapply Z.lt_le_trans; [exact Hhi|].
    apply Z.pow_le_mono_r; [lia|]. unfold k, exp_min. unfold prec in *. lia. }
  assert (Hcf0 : 0 <= cf).
  { assert (0 <= m / 10 ^ k) by (apply Z.div_pos; lia). lia. }
  destruct (Z.ltb_spec prec (ndigits cf)) as [Hcarry|Hnocarry].
  - destruct (Etop <? _); [discriminate|]. intros [= <-].
    assert (Hcf : cf = 10 ^ prec).
    { destruct (Z.lt_ge_cases cf (10 ^ prec)) as [Hs|Hs]; [|lia].
      exfalso. pose proof (ndigits_le cf prec Hcf0 ltac:(unfold prec; lia) Hs).
      lia. }
    exists (Z.to_N (cf / 10)), (exp_min + 1), k.
    assert (Hten : cf / 10 = 10 ^ (prec - 1)) by (rewrite Hcf; reflexivity).
    rewrite Z2N.id by (rewrite Hten; unfold prec; lia).
    split; [done|]. split; [lia|]. split; [unfold k; lia|].
    split.
    { replace (exp_min + 1 - e - k) with 1 by (unfold k; lia).
      destruct (Z.eqb_spec k 0) as [|_]; [lia|].
      change (round_half_even m k) with cf.
      rewrite Hten, Hcf. reflexivity. }
    split; [done|]. intros _. right. rewrite Hten.
    by vm_compute.
  - destruct (Etop <? _); [discriminate|].
    intros [= <-]. exists (Z.to_N cf), exp_min, k.
    rewrite Z2N.id by done.
    split; [done|]. split; [lia|]. split; [unfold k; lia|].
    split.
    { replace (exp_min - e - k) with 0 by (unfold k; lia).
      destruct (Z.eqb_spec k 0) as [|_]; [lia|].
      change (round_half_even m k) with cf. lia. }
    split; [done|]. intros _.
    unfold exp_min in *.
    destruct (Z.max_spec (nd + e - prec) Etiny) as [[_ Hmax]|[Hcmp Hmax]].
    + left. lia.
    + right. apply ndigits_ge; [unfold prec; lia|].
      eapply Z.le_trans; [|exact Hcl].
      apply Z.div_le_lower_bound; [done|].
      rewrite <- Z.pow_add_r by (unfold prec; lia).
      replace (k + (prec - 1)) with (nd - 1) by (unfold k; lia).
      exact Hlo.
Qed.

(** The division proper: [prec + 1] or [prec + 2] digits of the quotient
    [num / den], made sticky, then [_fix].  The result is the exact quotient
    rounded at its own exponent, to within half a unit, and it is exact
    unless it has [prec] digits or sits at the bottom of the exponent
    range. *)
Lemma div_core (sign : bool) (num den x ideal : Z) (fuel : nat) (q : Decimal) :
  0 < den -> 10 ^ prec * den <= num ->
  (let '(c, rem) := Z.div_eucl num den in
   let '(coeff, exp) :=
     if rem =? 0 then strip_zeros fuel c x ideal
     else (if c mod 5 =? 0 then c + 1 else c, x) in
   fix_ sign coeff exp) = Ok q ->
  exists (mq : N) (eq : Z),
    q = Finite sign mq eq /\ x <= eq /\
    2 * Z.abs (Z.of_N mq * 10 ^ (eq - x) * den - num) <= 10 ^ (eq - x) * den /\
    (Z.of_N mq * 10 ^ (eq - x) * den = num \/ eq <= Etiny + 1 \/
     prec <= ndigits (Z.of_N mq)).
Proof.
  intros HD HN.
  assert (Hp : 0 < 10 ^ prec) by (by vm_compute).
  pose proof (Z.div_mod num den ltac:(lia)) as Hdm.
  pose proof (Z.mod_pos_bound num den HD) as Hmb.
  assert (Hc : 10 ^ prec <= num / den)
    by (apply Z.div_le_lower_bound; lia).
  assert (Hde : Z.div_eucl num den = (num / den, num mod den))
    by (unfold Z.div, Z.modulo; by destruct (Z.div_eucl num den)).
  rewrite Hde. clear Hde.
  pose proof (sticky_round num den) as Hsticky. cbn zeta in Hsticky.
  set (c := num / den) in *. set (rem := num mod den) in *.
  destruct (Z.eqb_spec rem 0) as [Hrem|Hrem].
  - pose proof (strip_zeros_value fuel c x ideal ltac:(lia)) as (H1 & H2 & H3).
    destruct (strip_zeros fuel c x ideal) as [c1 x1]. cbn [fst snd] in *.
    intros (mq & eq & k & -> & Hk & Hle & Hval & _ & Hflag)%fix_rounds;
      [|done].
    exists mq, eq. split; [done|]. split; [lia|].
    set (A := 10 ^ (eq - x1 - k)) in *.
    set (C := 10 ^ (x1 - x)) in *.
    assert (HA : 0 < A) by (apply pow10_pos; lia).
    assert (HC : 0 < C) by (apply pow10_pos; lia).
    assert (HB : 0 < 10 ^ k) by (apply pow10_pos; lia).
    assert (Hpow : 10 ^ (eq - x) = A * 10 ^ k * C).
    { unfold A, C. rewrite <- !Z.pow_add_r by lia. f_equal. lia. }
    rewrite Hpow.
    destruct (Z.eqb_spec k 0) as [->|Hk0].
    + change (10 ^ 0) with 1 in *. split; [|left]; nia.
    + pose proof (round_half_even_close c1 k ltac:(lia) ltac:(lia)) as Hcl.
      set (cf := round_half_even c1 k) in *.
      split; [|right; apply Hflag; lia].
      replace (Z.of_N mq * (A * 10 ^ k * C) * den - num)
        with (C * den * (cf * 10 ^ k - c1)) by nia.
      rewrite Z.abs_mul, (Z.abs_eq (C * den)) by nia.
      set (X := Z.abs (cf * 10 ^ k - c1)) in *.
      assert (Hcd : 0 < C * den) by nia.
      assert (H4 : 2 * (C * den * X) <= C * den * 10 ^ k) by nia.
      assert (H5 : C * den * 10 ^ k * 1 <= C * den * 10 ^ k * A)
        by (apply Z.mul_le_mono_nonneg_l; nia).
      nia.
  - set (c' := if c mod 5 =? 0 then c + 1 else c).
    assert (Hc' : c <= c') by (unfold c'; destruct (_ =? _); lia).
    intros (mq & eq & k & -> & Hk & Hle & Hval & Hround & Hflag)%fix_rounds;
      [|lia].
    assert (Hk1 : 1 <= k).
    { apply Hround.
      assert (prec + 1 <= ndigits c'); [|lia].
      apply ndigits_ge; [unfold prec; lia|].
      replace (prec + 1 - 1) with prec by lia. lia. }
    destruct (Z.eqb_spec k 0) as [|_]; [lia|].
    exists mq, eq. split; [done|]. split; [lia|].
    split; [|right; by apply Hflag].
    pose proof (Hsticky k ltac:(lia) HD Hk1 Hrem) as Hst.
    fold c' in Hst.
    set (cf := round_half_even c' k) in *.
    set (A := 10 ^ (eq - x - k)) in *.
    assert (HA : 0 < A) by (apply pow10_pos; lia).
    assert (HB : 0 < 10 ^ k) by (apply pow10_pos; lia).
    assert (Hpow : 10 ^ (eq - x) = A * 10 ^ k).
    { unfold A. rewrite <- !Z.pow_add_r by lia. f_equal. lia. }
    rewrite Hpow.
    replace (Z.of_N mq * (A * 10 ^ k) * den - num) with (cf * 10 ^ k * den - num)
      by nia.
    assert (H5 : 1 * (10 ^ k * den) <= A * (10 ^ k * den))
      by (apply Z.mul_le_mono_nonneg_r; nia).
    lia.
Qed.

(** [__truediv__] on two finite values above zero in magnitude: with
    the quotient written as [num / den * 10^x], where [num] and [den]
    are the coefficients scaled by powers of ten. *)
Lemma div_rounds (s1 s2 : bool) (m1 m2 : N) (e1 e2 : Z) (q : Decimal) :
  (0 < m1)%N -> (0 < m2)%N ->
  div (Finite s1 m1 e1) (Finite s2 m2 e2) = Ok q ->
  exists (mq : N) (eq u v : Z),
    q = Finite (xorb s1 s2) mq eq /\ 0 <= u /\ 0 <= v /\
    let num := Z.of_N m1 * 10 ^ u in
    let den := Z.of_N m2 * 10 ^ v in
    let x := e1 - e2 - u + v in
    x <= eq /\
    2 * Z.abs (Z.of_N mq * 10 ^ (eq - x) * den - num) <= 10 ^ (eq - x) * den /\
    (Z.of_N mq * 10 ^ (eq - x) * den = num \/ eq <= Etiny + 1 \/
     prec <= ndigits (Z.of_N mq)).
Proof.
  intros H1 H2. unfold div. cbn [check_nans is_snan is_qnan orb].
  destruct (Z.eqb_spec (Z.of_N m2) 0) as [|_]; [lia|].
  destruct (Z.eqb_spec (Z.of_N m1) 0) as [|_]; [lia|].
  cbn zeta.
  pose proof (ndigits_spec (Z.of_N m1) ltac:(lia)) as [Hlo1 Hhi1].
  pose proof (ndigits_spec (Z.of_N m2) ltac:(lia)) as [Hlo2 Hhi2].
  pose proof (ndigits_pos (Z.of_N m1)) as Hd1.
  pose proof (ndigits_pos (Z.of_N m2)) as Hd2.
  set (d1 := ndigits (Z.of_N m1)) in *. set (d2 := ndigits (Z.of_N m2)) in *.
  set (shift := d2 - d1 + prec + 1).
  destruct (Z.leb_spec 0 shift) as [Hs|Hs].
  - intros (mq & eq & -> & Hx & Herr & Hflag)%div_core.
    + exists mq, eq, shift, 0. split; [done|]. split; [done|]. split; [done|].
      cbn zeta. change (10 ^ 0) with 1. rewrite Z.mul_1_r, Z.add_0_r. done.
    + lia.
    + assert (10 ^ prec * 10 ^ d2 <= 10 ^ (d1 - 1) * 10 ^ shift).
      { rewrite <- !Z.pow_add_r by (unfold prec; lia).
        apply Z.pow_le_mono_r; [lia|]. unfold shift. lia. }
      assert (0 < 10 ^ shift) by (apply pow10_pos; lia).
      assert (0 < 10 ^ prec) by (by vm_compute).
      nia.
  - intros (mq & eq & -> & Hx & Herr & Hflag)%div_core.
    + exists mq, eq, 0, (- shift). split; [done|]. split; [done|].
      split; [lia|].
      cbn zeta. change (10 ^ 0) with 1. rewrite Z.mul_1_r, Z.sub_0_r.
      replace (e1 - e2 + - shift) with (e1 - e2 - shift) by lia. done.
    + assert (0 < 10 ^ (- shift)) by (apply pow10_pos; lia). nia.
    + assert (10 ^ prec * (10 ^ d2 * 10 ^ (- shift)) <= 10 ^ (d1 - 1)).
      { rewrite <- !Z.pow_add_r by (unfold prec; lia).
        apply Z.pow_le_mono_r; [lia|]. unfold shift. lia. }
      assert (0 < 10 ^ (- shift)) by (apply pow10_pos; lia).
      assert (0 < 10 ^ prec) by (by vm_compute).
      nia.
Qed.

(** A [quantize] that succeeds on a value other than zero left it at
    most [prec] digits at the new exponent. *)
Lemma quantize_fits (s : bool) (m : N) (e k : Z) (rnd : rounding) (t : Decimal) :
  quantize (Finite s m e) k rnd = Ok t -> m <> 0%N ->
  ndigits (Z.of_N m) + e - k <= prec.
Proof.
  unfold quantize. intros Hq Hm.
  destruct (negb _); [discriminate|].
  destruct (Z.eqb_spec (Z.of_N m) 0) as [|_]; [lia|].
  destruct (Emax <? _); [discriminate|].
  destruct (Z.ltb_spec prec (ndigits (Z.of_N m) + e - 1 - k + 1)); [discriminate|].
  lia.
Qed.

Lemma pow10Q_split (a b : Z) :
  (Qpower (inject_Z 10) (a + b)
   == Qpower (inject_Z 10) a * Qpower (inject_Z 10) b)%Q.
Proof. apply Qpower_plus, ten_nonzero. Qed.

Lemma pow10Q_nonzero (a : Z) : ~ (Qpower (inject_Z 10) a == 0)%Q.
Proof.
  intros Hz. pose proof (pow10Q_pos a) as Hp. rewrite Hz in Hp.
  by apply Qlt_irrefl in Hp.
Qed.

(** The exact quotient of two finite values, with the coefficients
    scaled by powers of ten. *)
Lemma quotient_value (m1 m2 e1 e2 u v : Z) :
  0 < m2 -> 0 <= u -> 0 <= v ->
  (inject_Z m1 * Qpower (inject_Z 10) e1
     / (inject_Z m2 * Qpower (inject_Z 10) e2)
   == inject_Z (m1 * 10 ^ u) / inject_Z (m2 * 10 ^ v)
      * Qpower (inject_Z 10) (e1 - e2 - u + v))%Q.
Proof.
  intros Hm Hu Hv.
  rewrite !inject_Z_mult, !Zpower_Qpower by done.
  replace (e1 - e2 - u + v) with (e1 + (- e2 + (- u + v))) by lia.
  rewrite !pow10Q_split, !Qpower_opp.
  pose proof (pow10Q_nonzero e2). pose proof (pow10Q_nonzero u).
  pose proof (pow10Q_nonzero v).
  assert (~ (inject_Z m2 == 0)%Q).
  { change 0%Q with (inject_Z 0). rewrite inject_Z_injective. lia. }
  set (A := Qpower (inject_Z 10) e1) in *.
  set (B := Qpower (inject_Z 10) e2) in *.
  set (C := Qpower (inject_Z 10) u) in *.
  set (D := Qpower (inject_Z 10) v) in *.
  field. auto.
Qed.

(** A value [num / den * 10^x] rounded to within half a unit at an
    exponent [eq], exactly unless the result has [prec] digits or sits
    at the bottom of the exponent range, and then cut to the exponent
    [k]: the result is within one step [10^k] of the value -- not below
    it by a step or more, and above it by less than a step. *)
Lemma cut_close (mq : N) (eq num den x k : Z) (c : Decimal) :
  0 < den -> x <= eq -> Etiny + 1 <= k ->
  2 * Z.abs (Z.of_N mq * 10 ^ (eq - x) * den - num) <= 10 ^ (eq - x) * den ->
  (Z.of_N mq * 10 ^ (eq - x) * den = num \/ eq <= Etiny + 1 \/
   prec <= ndigits (Z.of_N mq)) ->
  quantize (Finite false mq eq) k ROUND_DOWN = Ok c ->
  (DtoQ c - Qpower (inject_Z 10) k
   <= inject_Z num / inject_Z den * Qpower (inject_Z 10) x)%Q /\
  (inject_Z num / inject_Z den * Qpower (inject_Z 10) x
   < DtoQ c + Qpower (inject_Z 10) k)%Q.
Proof.
  intros Hden Hx Hk Herr Hflag Hq.
  pose proof (quantize_down_truncates (Finite false mq eq) c k eq_refl Hq)
    as (s' & m' & e' & n & [= <- <- <-] & -> & Hlow & Hhigh).
  assert (HdenQ : (0 < inject_Z den)%Q).
  { change 0%Q with (inject_Z 0). by rewrite <- Zlt_Qlt. }
  unfold DtoQ, sval.
  pose proof (pow10Q_pos x) as Hpx.
  pose proof (pow10Q_pos k) as Hp4.
  pose proof (pow10Q_pos eq) as Hpe.
  set (A := 10 ^ (eq - x)) in *.
  assert (HA : 0 < A) by (apply pow10_pos; lia).
  assert (Hqv : (inject_Z (Z.of_N mq) * Qpower (inject_Z 10) eq
                 == inject_Z (Z.of_N mq * A) * Qpower (inject_Z 10) x)%Q)
    by (by apply scale_value).
  assert (Hexact : Z.of_N mq * A * den = num ->
    (inject_Z num / inject_Z den * Qpower (inject_Z 10) x
     == inject_Z (Z.of_N mq) * Qpower (inject_Z 10) eq)%Q).
  { intros <-. rewrite Hqv, (inject_Z_mult _ den).
    apply Qmult_comp; [|reflexivity].
    field. intros Hz. rewrite Hz in HdenQ. by apply Qlt_irrefl in HdenQ. }
  assert (Hcases : Z.of_N mq * A * den = num \/ eq <= k).
  { destruct Hflag as [He|[He|He]]; [by left|right|right].
    - lia.
    - destruct (N.eq_dec mq 0%N) as [->|Hne].
      + exfalso. revert He. by vm_compute.
      + pose proof (quantize_fits _ _ _ _ _ _ Hq Hne). lia. }
  destruct Hcases as [He|He].
  { rewrite (Hexact He). split.
    - apply Qle_trans with (inject_Z (Z.of_N n) * Qpower (inject_Z 10) k)%Q;
        [|exact Hlow].
      rewrite <- (Qplus_0_r (inject_Z (Z.of_N n) * Qpower (inject_Z 10) k))
        at 2.
      apply Qplus_le_r. apply Qlt_le_weak.
      rewrite <- (Qopp_involutive 0). apply Qopp_lt_compat. exact Hp4.
    - eapply Qlt_le_trans; [exact Hhigh|].
      rewrite Qmult_plus_distr_l, Qmult_1_l. apply Qle_refl. }
  set (S4 := 10 ^ (k - eq)).
  assert (HS : 0 < S4) by (apply pow10_pos; lia).
  assert (Hn : Z.of_N n * S4 <= Z.of_N mq < (Z.of_N n + 1) * S4).
  { split.
    - rewrite (scale_value (Z.of_N n) k eq) in Hlow by lia.
      apply Qmult_le_r in Hlow; [|done]. by rewrite <- Zle_Qle in Hlow.
    - change 1%Q with (inject_Z 1) in Hhigh.
      rewrite <- inject_Z_plus in Hhigh.
      rewrite (scale_value (Z.of_N n + 1) k eq) in Hhigh by lia.
      apply Qmult_lt_r in Hhigh; [|done]. by rewrite <- Zlt_Qlt in Hhigh. }
  set (W := 10 ^ (k - x)).
  assert (HW : W = S4 * A).
  { unfold W, S4, A. rewrite <- Z.pow_add_r by lia. f_equal. lia. }
  assert (Hz : (Z.of_N n * W - W) * den <= num < (Z.of_N n * W + W) * den).
  { rewrite HW.
    assert (Had : 0 < A * den) by nia.
    assert (Hm1 : Z.of_N n * S4 * (A * den) <= Z.of_N mq * (A * den))
      by (apply Z.mul_le_mono_nonneg_r; lia).
    assert (Hm2 : (Z.of_N mq + 1) * (A * den) <= (Z.of_N n + 1) * S4 * (A * den))
      by (apply Z.mul_le_mono_nonneg_r; lia).
    assert (Hm3 : 1 * (A * den) <= S4 * (A * den))
      by (apply Z.mul_le_mono_nonneg_r; lia).
    lia. }
  assert (Hstep : (Qpower (inject_Z 10) k
                   == inject_Z W * Qpower (inject_Z 10) x)%Q).
  { rewrite <- (Qmult_1_l (Qpower _ k)). change 1%Q with (inject_Z 1).
    rewrite (scale_value 1 k x) by lia. by rewrite Z.mul_1_l. }
  assert (Hcoin : (inject_Z (Z.of_N n) * Qpower (inject_Z 10) k
                   == inject_Z (Z.of_N n * W) * Qpower (inject_Z 10) x)%Q)
    by (apply scale_value; lia).
  rewrite Hcoin, Hstep. split.
  - assert (Hd : (inject_Z (Z.of_N n * W) * Qpower (inject_Z 10) x
                  - inject_Z W * Qpower (inject_Z 10) x
                  == inject_Z (Z.of_N n * W - W) * Qpower (inject_Z 10) x)%Q)
      by (unfold Z.sub; rewrite inject_Z_plus, inject_Z_opp; ring).
    rewrite Hd.
    apply Qmult_le_compat_r; [|by apply Qlt_le_weak].
    apply Qle_shift_div_l; [done|].
    rewrite <- inject_Z_mult, <- Zle_Qle. lia.
  - assert (Hd : (inject_Z (Z.of_N n * W) * Qpower (inject_Z 10) x
                  + inject_Z W * Qpower (inject_Z 10) x
                  == inject_Z (Z.of_N n * W + W) * Qpower (inject_Z 10) x)%Q)
      by (rewrite inject_Z_plus; ring).
    rewrite Hd.
    apply Qmult_lt_compat_r; [done|].
    apply Qlt_shift_div_r; [done|].
    rewrite <- inject_Z_mult, <- Zlt_Qlt. lia.
Qed.

(** The amount a buy credits: the quotient of two finite values above
    zero, as [Decimal] computes it, cut to 4 places, is within one step
    of 0.0001 of the exact quotient. *)
Lemma quotient_cut_close (U P q c : Decimal) :
  is_positive U = true -> is_positive P = true ->
  div U P = Ok q -> quantize q COIN_STEP ROUND_DOWN = Ok c ->
  (DtoQ c - Qpower (inject_Z 10) COIN_STEP <= DtoQ U / DtoQ P)%Q /\
  (DtoQ U / DtoQ P < DtoQ c + Qpower (inject_Z 10) COIN_STEP)%Q.
Proof.
  intros (m1 & e1 & -> & H1)%positive_finite (m2 & e2 & -> & H2)%positive_finite
    Hdiv Hq.
  apply div_rounds in Hdiv
    as (mq & eq & u & v & -> & Hu & Hv & Hx & Herr & Hflag); [|done|done].
  cbn zeta in Hx, Herr, Hflag. cbn [xorb] in Hq.
  assert (HT : (DtoQ (Finite false m1 e1) / DtoQ (Finite false m2 e2)
                == inject_Z (Z.of_N m1 * 10 ^ u) / inject_Z (Z.of_N m2 * 10 ^ v)
                   * Qpower (inject_Z 10) (e1 - e2 - u + v))%Q).
  { unfold DtoQ, sval. apply quotient_value; lia. }
  rewrite HT.
  apply (cut_close mq eq); try done.
  pose proof (pow10_pos v Hv). nia.
Qed.

(** The proceeds of a sell: the product of two finite values above
    zero, as [Decimal] computes it, cut to 2 places, is within one step
    of 0.01 of the exact product. *)
Lemma product_cut_close (A P p c : Decimal) :
  is_positive A = true -> is_positive P = true ->
  mul A P = Ok p -> quantize p USD_STEP ROUND_DOWN = Ok c ->
  (DtoQ c - Qpower (inject_Z 10) USD_STEP <= DtoQ A * DtoQ P)%Q /\
  (DtoQ A * DtoQ P < DtoQ c + Qpower (inject_Z 10) USD_STEP)%Q.
Proof.
  intros (m1 & e1 & -> & H1)%positive_finite (m2 & e2 & -> & H2)%positive_finite
    Hmul Hq.
  unfold mul in Hmul. cbn [check_nans is_snan is_qnan orb xorb] in Hmul.
  apply fix_rounds in Hmul
    as (mq & eq & k & -> & Hk & Hle & Hval & _ & Hflag); [|lia].
  assert (HT : (DtoQ (Finite false m1 e1) * DtoQ (Finite false m2 e2)
                == inject_Z (Z.of_N m1 * Z.of_N m2) / inject_Z 1
                   * Qpower (inject_Z 10) (e1 + e2))%Q).
  { unfold DtoQ, sval. rewrite pow10Q_split, inject_Z_mult.
    change (inject_Z 1) with 1%Q. field. }
  rewrite HT.
  set (m := Z.of_N m1 * Z.of_N m2) in *.
  set (x := e1 + e2) in *.
  set (B := 10 ^ (eq - x - k)) in *.
  assert (HB : 0 < B) by (apply pow10_pos; lia).
  assert (HK : 0 < 10 ^ k) by (apply pow10_pos; lia).
  assert (Hpow : 10 ^ (eq - x) = B * 10 ^ k).
  { unfold B. rewrite <- Z.pow_add_r by lia. f_equal. lia. }
  apply (cut_close mq eq); try done; try lia; rewrite Hpow, !Z.mul_1_r.
  - destruct (Z.eqb_spec k 0) as [->|Hk0].
    + change (10 ^ 0) with 1. nia.
    + pose proof (round_half_even_close m k ltac:(lia) ltac:(lia)) as Hcl.
      replace (Z.of_N mq * (B * 10 ^ k) - m)
        with (round_half_even m k * 10 ^ k - m) by nia.
      assert (1 * 10 ^ k <= B * 10 ^ k)
        by (apply Z.mul_le_mono_nonneg_r; lia).
      lia.
  - destruct (Z.eqb_spec k 0) as [->|Hk0].
    + left. change (10 ^ 0) with 1. nia.
    + right. apply Hflag. lia.
Qed.

(** An amount that passed the [try] block and was then divided or
    multiplied and cut with success is a finite decimal above zero. *)
Lemma traded_amount_positive (amount : Decimal) :
  le amount zero = Ok false -> amount <> Infinity false ->
  is_positive amount = true.
Proof. by intros [->|Hp]%le_zero_false. Qed.

(** X15.  The coin amount of a buy that completes at a finite price above
    zero is within one step of 0.0001 of the exact quotient of the
    amount paid and the price: it is above [U / P - 0.0001] and at most
    [U / P + 0.0001], whatever the 28-digit rounding of the quotient
    did. *)
Theorem buy_credits_the_quotient `{PyText} (E : env) (msg : message) (s : db)
    (coin_amount : Decimal) (coin : string) (usd_amount shown : Decimal) :
  outcome (cmd_buy E msg) s = Ok (Bought coin_amount coin usd_amount shown) ->
  exists symbol price,
    dict_get AVAILABLE_COINS coin = Some symbol /\
    price_of E symbol = Some price /\
    (is_positive price = true ->
       is_positive usd_amount = true /\
       (DtoQ coin_amount - Qpower (inject_Z 10) COIN_STEP
        <= DtoQ usd_amount / DtoQ price)%Q /\
       (DtoQ usd_amount / DtoQ price
        < DtoQ coin_amount + Qpower (inject_Z 10) COIN_STEP)%Q).
Proof.
  intros Ho.
  apply buy_executed_inv in Ho
    as (text & symbol & price & quotient & nb & total & np & _ & Hc & Hamt
        & _ & Hpr & Hd & Hq & _).
  exists symbol, price. split; [done|]. split; [done|].
  intros Hprice.
  apply positive_amount_inv in Hamt as [_ Hpos].
  assert (HU : is_positive usd_amount = true).
  { apply traded_amount_positive; [done|]. intros ->.
    apply positive_finite in Hprice as (m & e & -> & _).
    cbn in Hd. injection Hd as <-. discriminate Hq. }
  split; [done|]. by apply (quotient_cut_close _ _ quotient).
Qed.

Lemma buy_credits_the_quotient_witness :
  let E := quote "50000.00" 1700000000 in
  let msg := command 7 "btc 100" in
  outcome (cmd_buy (H := ascii_text) E msg) empty_db
    = Ok (Bought (Finite false 20 (-4)) "btc" (Finite false 100 0)
            (Finite false 990000 (-2))) /\
  exists symbol price,
    dict_get AVAILABLE_COINS "btc" = Some symbol /\
    price_of (H := ascii_text) E symbol = Some price /\
    (is_positive price = true ->
       is_positive (Finite false 100 0) = true /\
       (DtoQ (Finite false 20 (-4)) - Qpower (inject_Z 10) COIN_STEP
        <= DtoQ (Finite false 100 0) / DtoQ price)%Q /\
       (DtoQ (Finite false 100 0) / DtoQ price
        < DtoQ (Finite false 20 (-4)) + Qpower (inject_Z 10) COIN_STEP)%Q).
Proof.
  cbn zeta.
  assert (Ho : outcome (cmd_buy (H := ascii_text)
                          (quote "50000.00" 1700000000) (command 7 "btc 100"))
                 empty_db
               = Ok (Bought (Finite false 20 (-4)) "btc" (Finite false 100 0)
                       (Finite false 990000 (-2))))
    by (vm_compute; reflexivity).
  split; [exact Ho|].
  exact (buy_credits_the_quotient (H := ascii_text) _ _ _ _ _ _ _ Ho).
Defined.

(** X16.  The proceeds of a sell that completes at a finite price above zero
    are within one step of 0.01 of the exact product of the quantity
    sold and the price. *)
Theorem sell_pays_the_product `{PyText} (E : env) (msg : message) (s : db)
    (coin_amount : Decimal) (coin : string) (usd_gain shown : Decimal) :
  outcome (cmd_sell E msg) s = Ok (Sold coin_amount coin usd_gain shown) ->
  exists symbol price,
    dict_get AVAILABLE_COINS coin = Some symbol /\
    price_of E symbol = Some price /\
    (is_positive price = true ->
       is_positive coin_amount = true /\
       (DtoQ usd_gain - Qpower (inject_Z 10) USD_STEP
        <= DtoQ coin_amount * DtoQ price)%Q /\
       (DtoQ coin_amount * DtoQ price
        < DtoQ usd_gain + Qpower (inject_Z 10) USD_STEP)%Q).
Proof.
  intros Ho.
  apply sell_executed_inv in Ho
    as (text & symbol & price & product & rest & nb & np & _ & Hc & Hamt
        & _ & Hpr & Hm & Hq & _).
  exists symbol, price. split; [done|]. split; [done|].
  intros Hprice.
  apply positive_amount_inv in Hamt as [_ Hpos].
  assert (HQ : is_positive coin_amount = true).
  { apply traded_amount_positive; [done|]. intros ->.
    apply positive_finite in Hprice as (m & e & -> & Hm0).
    cbn in Hm. destruct (N.eqb_spec m 0); [lia|].
    injection Hm as <-. discriminate Hq. }
  split; [done|]. by apply (product_cut_close _ _ product).
Qed.

Lemma sell_pays_the_product_witness :
  let E := quote "60000.00" 1700000060 in
  let msg := command 7 "btc 0.0020" in
  outcome (cmd_sell (H := ascii_text) E msg) after_first_buy
    = Ok (Sold (Finite false 20 (-4)) "btc" (Finite false 12000 (-2))
            (Finite false 1002000 (-2))) /\
  exists symbol price,
    dict_get AVAILABLE_COINS "btc" = Some symbol /\
    price_of (H := ascii_text) E symbol = Some price /\
    (is_positive price = true ->
       is_positive (Finite false 20 (-4)) = true /\
       (DtoQ (Finite false 12000 (-2)) - Qpower (inject_Z 10) USD_STEP
        <= DtoQ (Finite false 20 (-4)) * DtoQ price)%Q /\
       (DtoQ (Finite false 20 (-4)) * DtoQ price
        < DtoQ (Finite false 12000 (-2)) + Qpower (inject_Z 10) USD_STEP)%Q).
Proof.
  cbn zeta.
  assert (Ho : outcome (cmd_sell (H := ascii_text)
                          (quote "60000.00" 1700000060)
                          (command 7 "btc 0.0020"))
                 after_first_buy
               = Ok (Sold (Finite false 20 (-4)) "btc"
                       (Finite false 12000 (-2)) (Finite false 1002000 (-2))))
    by (vm_compute; reflexivity).
  split; [exact Ho|].
  exact (sell_pays_the_product (H := ascii_text) _ _ _ _ _ _ _ Ho).
Defined.

(** ** What the replies say *)

(** X17.  [cmd_start_help] answers the help text; it creates the account of a
    new user with 10000.00 and otherwise writes nothing: it never resets
    a balance, sends no request, and leaves every holding, every history
    row and every other account as it is. *)
Theorem start_never_resets (msg : message) (s : db) :
  let user_id := from_user_id msg in
  let s' := final (cmd_start_help msg) s in
  outcome (cmd_start_help msg) s = Ok Help /\
  users s' !! user_id = Some (opening_balance s user_id) /\
  (forall u, u <> user_id -> users s' !! u = users s !! u) /\
  portfolio s' = portfolio s /\ history s' = history s /\
  requests (events (cmd_start_help msg) s) = [] /\
  final (cmd_start_help msg) s' = s'.
Proof.
  cbn zeta. rewrite !run_outcome, !run_final, !run_events.
  unfold cmd_start_help, bind, ret. rewrite !ensure_user_run.
  cbn [fst snd store log fresh_world app]. rewrite ensured_idem.
  split; [done|]. split; [apply ensured_users|]. split.
  { intros u Hu. unfold ensured. destruct (users s !! _); [done|].
    cbn. by rewrite lookup_insert_ne. }
  split; [apply ensured_portfolio|]. split; [apply ensured_history|].
  split; [apply requests_ensure|done].
Qed.

(** X18.  The reply of a trade that completes agrees with what was stored: the
    history row it appended carries the action, the coin, the amount of
    the reply and the fetched price, and the balance of the reply is the
    stored balance rounded half-even to cents. *)
Theorem reply_matches_the_store `{PyText} (E : env) (msg : message) (s : db) :
  let user_id := from_user_id msg in
  (forall coin_amount coin usd_amount shown,
     outcome (cmd_buy E msg) s = Ok (Bought coin_amount coin usd_amount shown) ->
     exists symbol price balance,
       dict_get AVAILABLE_COINS coin = Some symbol /\
       price_of E symbol = Some price /\
       history (final (cmd_buy E msg) s)
         = history s ++
           [{| h_id := history_seq s + 1; h_user := user_id;
               h_action := "buy"; h_coin := coin; h_amount := coin_amount;
               h_price := price; h_timestamp := now E |}] /\
       users (final (cmd_buy E msg) s) !! user_id = Some balance /\
       quantize balance USD_STEP ROUND_HALF_EVEN = Ok shown) /\
  (forall coin_amount coin usd_gain shown,
     outcome (cmd_sell E msg) s = Ok (Sold coin_amount coin usd_gain shown) ->
     exists symbol price balance,
       dict_get AVAILABLE_COINS coin = Some symbol /\
       price_of E symbol = Some price /\
       history (final (cmd_sell E msg) s)
         = history s ++
           [{| h_id := history_seq s + 1; h_user := user_id;
               h_action := "sell"; h_coin := coin; h_amount := coin_amount;
               h_price := price; h_timestamp := now E |}] /\
       users (final (cmd_sell E msg) s) !! user_id = Some balance /\
       quantize balance USD_STEP ROUND_HALF_EVEN = Ok shown).
Proof.
  cbn zeta. split.
  - intros coin_amount coin usd_amount shown Ho.
    apply buy_executed_inv in Ho
      as (text & symbol & price & quotient & nb & total & np & _ & Hc & _
          & _ & Hpr & _ & _ & _ & _ & _ & Hsh & Hst).
    unfold buy_stores in Hst. destruct Hst as [-> _].
    exists symbol, price, nb. split; [done|]. split; [done|].
    split; [|split; [|done]].
    + cbn [history sql_insert_history history_seq].
      rewrite (proj1 (write_holding_history _ _ _ _ _)),
              (proj2 (write_holding_history _ _ _ _ _)).
      cbn [history sql_update_balance set_users history_seq].
      by rewrite (proj1 (ensured_history s _)), (proj2 (ensured_history s _)).
    + cbn [users sql_insert_history]. rewrite write_holding_users.
      cbn [users sql_update_balance set_users].
      by rewrite lookup_alter_eq, ensured_users.
  - intros coin_amount coin usd_gain shown Ho.
    apply sell_executed_inv in Ho
      as (text & symbol & price & product & rest & nb & np & _ & Hc & _
          & _ & Hpr & _ & _ & _ & _ & _ & Hsh & Hst).
    unfold sell_stores in Hst. destruct Hst as [-> _].
    exists symbol, price, nb. split; [done|]. split; [done|].
    split; [|split; [|done]].
    + cbn [history sql_insert_history history_seq sql_update_balance set_users].
      rewrite (proj1 (write_holding_history _ _ _ _ _)),
              (proj2 (write_holding_history _ _ _ _ _)).
      by rewrite (proj1 (ensured_history s _)), (proj2 (ensured_history s _)).
    + cbn [users sql_insert_history sql_update_balance set_users].
      rewrite lookup_alter_eq, write_holding_users. by rewrite ensured_users.
Qed.

(** ** Concurrent trades *)

Section Serial.
Context `{PyText}.

Lemma run_all_app (l1 l2 : list request) (w : world) :
  run_all (l1 ++ l2) w = run_all l2 (run_all l1 w).
Proof. revert w. induction l1 as [|r l1 IH]; intros w; [done|]. apply IH. Qed.

Lemma run_all_answers_snoc (l : list request) (r : request) (w : world) :
  run_all_answers (l ++ [r]) w
  = run_all_answers l w ++ [(handle r (run_all l w)).1].
Proof.
  revert w. induction l as [|r' l IH]; intros w; [done|].
  cbn [app run_all_answers run_all]. by rewrite IH.
Qed.

Lemma run_all_answers_length (l : list request) (w : world) :
  length (run_all_answers l w) = length l.
Proof.
  revert w. induction l as [|r l IH]; intros w; [done|].
  cbn. by rewrite IH.
Qed.

Lemma serial_start (rs : list request) (w0 : world) :
  serial_run rs w0 [] [] (trade_tasks rs) w0.
Proof.
  split; [constructor|]. split; [constructor|].
  split; [unfold trade_tasks; by rewrite length_map|].
  split; [done|]. split.
  - intros p i Hp. by rewrite lookup_nil in Hp.
  - intros i r Hr _. unfold trade_tasks. by rewrite list_lookup_fmap, Hr.
Qed.

(** One step of the event loop keeps the run serial: a body that starts
    runs whole, after the bodies that started before it. *)
Lemma serial_step (rs : list request) (w0 : world) (order : list nat)
    (reqs : list request) (tasks : list task) (w : world) (k : nat) (t : task) :
  serial_run rs w0 order reqs tasks w ->
  tasks !! k = Some t ->
  exists order' reqs',
    serial_run rs w0 order' reqs' (<[k := (step_task t w).1]> tasks)
      (step_task t w).2.
Proof.
  intros (Hnd & Hf2 & Hlen & Hw & Hstarted & Hwaiting) Hk.
  assert (Hklen : (k < length rs)%nat)
    by (rewrite <- Hlen; by eapply lookup_lt_Some).
  destruct (lookup_lt_is_Some_2 rs k Hklen) as [r Hr].
  assert (Hlo : length order = length reqs) by (by eapply Forall2_length).
  destruct (decide (k ∈ order)) as [Hin|Hnotin].
  - (* the task has started: its reply completes, or nothing happens *)
    apply list_elem_of_lookup in Hin as [p Hp].
    destruct (Hstarted p k Hp) as (a & Ha & Hta).
    exists order, reqs.
    assert (Hsame : forall t', (t' = Replying a \/ t' = Finished a) ->
              (t = Replying a -> t' = Finished a) ->
              (t = Finished a -> t' = Finished a) ->
              serial_run rs w0 order reqs (<[k := t']> tasks) w).
    { intros t' Ht' _ _. split; [done|]. split; [done|].
      split; [by rewrite length_insert|]. split; [done|]. split.
      - intros q i Hq. destruct (decide (i = k)) as [->|Hne].
        + assert (q = p) by (by eapply NoDup_lookup). subst q.
          exists a. split; [done|].
          rewrite list_lookup_insert_eq by (by eapply lookup_lt_Some).
          destruct Ht' as [-> | ->]; auto.
        + rewrite list_lookup_insert_ne by done. by apply Hstarted.
      - intros i r' Hr' Hni. rewrite list_lookup_insert_ne.
        + by apply Hwaiting.
        + intros <-. apply Hni. by eapply list_elem_of_lookup_2. }
    destruct Hta as [Hta|Hta]; rewrite Hk in Hta; injection Hta as ->;
      cbn [step_task fst snd]; apply Hsame; auto.
  - (* the task starts: its body runs after the bodies before it *)
    pose proof (Hwaiting k r Hr Hnotin) as Hpend.
    rewrite Hk in Hpend. injection Hpend as ->.
    cbn [step_task]. destruct (handle r w) as [a w'] eqn:Hrun. cbn [fst snd].
    exists (order ++ [k]), (reqs ++ [r]).
    split. { apply NoDup_app. split; [done|]. split; [|apply NoDup_singleton].
             intros i Hi ->%list_elem_of_singleton. done. }
    split. { apply Forall2_app; [done|]. by constructor. }
    split; [by rewrite length_insert|].
    split. { rewrite run_all_app, <- Hw. cbn [run_all]. by rewrite Hrun. }
    split.
    + intros q i Hq. rewrite run_all_answers_snoc, <- Hw, Hrun. cbn [fst].
      apply lookup_app_Some in Hq as [Hq|[Hge Hq]].
      * destruct (Hstarted q i Hq) as (a' & Ha' & Hta').
        exists a'. split; [by apply lookup_app_l_Some|].
        rewrite list_lookup_insert_ne; [done|].
        intros <-. apply Hnotin. by eapply list_elem_of_lookup_2.
      * apply list_lookup_singleton_Some in Hq as [Hq <-].
        exists a. split.
        -- rewrite lookup_app_r by (rewrite run_all_answers_length; lia).
           rewrite run_all_answers_length.
           replace (q - length reqs)%nat with 0%nat by lia. done.
        -- left. apply list_lookup_insert_eq. by eapply lookup_lt_Some.
    + intros i r' Hr' Hni.
      rewrite not_elem_of_app, not_elem_of_cons in Hni.
      destruct Hni as [Hni [Hik _]].
      rewrite list_lookup_insert_ne by done. by apply Hwaiting.
Qed.

Lemma serial_schedule (rs : list request) (w0 : world) (sched : list nat)
    (order : list nat) (reqs : list request) (tasks : list task) (w : world) :
  serial_run rs w0 order reqs tasks w ->
  exists order' reqs',
    serial_run rs w0 order' reqs' (run_schedule sched tasks w).1
      (run_schedule sched tasks w).2.
Proof.
  revert order reqs tasks w.
  induction sched as [|k sched IH]; intros order reqs tasks w Hinv;
    cbn [run_schedule]; [by eauto|].
  destruct (tasks !! k) as [t|] eqn:Hk; [|by eapply IH].
  destruct (serial_step _ _ _ _ _ _ _ _ Hinv Hk) as (order' & reqs' & Hinv').
  destruct (step_task t w) as [t' w']. cbn [fst snd] in Hinv'.
  by eapply IH.
Qed.

End Serial.

Lemma run_all_keeps `{PyText} (rs : list request) (w : world) :
  Forall (fun r => harmless_env (env_of r)) rs ->
  world_ok ledger_ok w -> world_ok ledger_ok (run_all rs w).
Proof.
  revert w. induction rs as [|r rs IH]; intros w Hrs Hw; [done|].
  apply Forall_cons_1 in Hrs as [Hr Hrs]. cbn [run_all].
  apply IH; [done|]. by apply handle_keeps.
Qed.

(** X20.  The solvency invariant under concurrency: when no fetched
    price is a negative number or a quiet NaN, any number of trading
    commands of any users, interleaved in any way by the event loop,
    leave every balance a finite decimal not below zero and every
    holding a finite decimal above zero, in the store and in every store
    committed on the way. *)
Theorem concurrent_trades_stay_solvent `{PyText} (rs : list request)
    (sched : list nat) (w0 : world) :
  Forall (fun r => harmless_env (env_of r)) rs ->
  world_ok ledger_ok w0 ->
  world_ok ledger_ok (run_schedule sched (trade_tasks rs) w0).2.
Proof.
  intros Hrs Hw0.
  destruct (serial_schedule rs w0 sched [] [] (trade_tasks rs) w0
              (serial_start rs w0))
    as (order & reqs & _ & Hf2 & _ & -> & _).
  apply run_all_keeps; [|done].
  rewrite Forall_forall in Hrs. apply Forall_forall. intros r Hr.
  apply list_elem_of_lookup in Hr as [p Hp].
  destruct (Forall2_lookup_r _ _ _ _ _ Hf2 Hp) as (i & _ & Hi).
  apply Hrs. by eapply list_elem_of_lookup_2.
Qed.

Lemma concurrent_trades_stay_solvent_witness :
  Forall (fun r => @harmless_env ascii_text (env_of r))
    [first_buy; first_sell] /\
  world_ok ledger_ok (fresh_world empty_db) /\
  world_ok ledger_ok
    (run_schedule [1; 0; 0; 1]%nat
       (trade_tasks (H := ascii_text) [first_buy; first_sell])
       (fresh_world empty_db)).2.
Proof.
  assert (Hh : Forall (fun r => @harmless_env ascii_text (env_of r))
                 [first_buy; first_sell]).
  { apply Forall_cons_2; [|apply Forall_cons_2; [|apply Forall_nil_2]].
    - apply (quote_harmless _ _ (Finite false 5000000 (-2))); reflexivity.
    - apply (quote_harmless _ _ (Finite false 6000000 (-2))); reflexivity. }
  assert (H0 : world_ok ledger_ok (fresh_world empty_db)).
  { split; [apply ledger_ok_empty | constructor]. }
  split; [exact Hh|]. split; [exact H0|].
  exact (concurrent_trades_stay_solvent (H := ascii_text) _ _ _ Hh H0).
Defined.
